(** * pyxis-mcp-server: a shallow embedding of the request/response layer

    The development follows the three source files:
    - [client.py]  : the error taxonomy, [PyxisClient._make_request] and the
      query builders ([Module Client]);
    - [models.py]  : the pydantic entities, the result envelopes and the
      one-line formatters ([Module Models]);
    - [server.py]  : the eight tool operations ([Module Server]).

    Python text is a sequence of Unicode code points, Python integers are
    [Z], dictionaries built by the program are [gmap]s, decoded JSON objects
    are association lists in insertion order.  Exceptions are values of a
    result type; the module-level client and the requests handed to the HTTP
    library are threaded through an explicit [world]. *)

From stdpp Require Import gmap list strings.
From Stdlib Require Import ZArith.
From Stdlib Require Ascii DecimalString.

Local Open Scope Z_scope.

(** * Python values *)

Module Py.

(** A [str] is a list of code points. *)
Abbreviation char := N (only parsing).
Abbreviation str := (list N) (only parsing).

(** An ASCII literal of the source. *)
Definition lit (s : string) : str :=
  map Ascii.N_of_ascii (String.list_ascii_of_string s).
Arguments lit s%_string : simpl never.

(** The three non-ASCII characters the program prints. *)
Definition BULLET : str := [0x2022%N].
Definition CHECK_MARK : str := [0x2713%N].
Definition WARNING_SIGN : str := [0x26A0%N].

(** [str(n)] for an [int]. *)
Definition str_of_Z (n : Z) : str :=
  lit (DecimalString.NilZero.string_of_int (Z.to_int n)).
Arguments str_of_Z n : simpl never.

(** [len(l)] as a Python integer. *)
Definition len {A} (l : list A) : Z := Z.of_nat (length l).

(** [bool(s)] for a [str], and for a list. *)
Definition nonempty {A} (l : list A) : bool :=
  match l with [] => false | _ :: _ => true end.

(** [sep.join(parts)]. *)
Fixpoint join (sep : str) (parts : list str) : str :=
  match parts with
  | [] => []
  | [p] => p
  | p :: rest => p ++ sep ++ join sep rest
  end.

(** [c * n] for a one-character string [c]. *)
Definition times (c : str) (n : nat) : str := concat (replicate n c).

(** [str.isspace] on one code point: the Unicode white-space set of CPython. *)
Definition isspace (c : char) : bool :=
  ((9 <=? c) && (c <=? 13) || (28 <=? c) && (c <=? 32)
   || (c =? 0x85) || (c =? 0xA0) || (c =? 0x1680)
   || (0x2000 <=? c) && (c <=? 0x200A)
   || (c =? 0x2028) || (c =? 0x2029) || (c =? 0x202F)
   || (c =? 0x205F) || (c =? 0x3000))%N.

(** [s.lstrip(...)], [s.rstrip(...)] for a set of characters given as a
    predicate, and [s.strip()]. *)
Fixpoint lstrip_with (p : char -> bool) (s : str) : str :=
  match s with
  | [] => []
  | c :: s' => if p c then lstrip_with p s' else s
  end.

Definition rstrip_with (p : char -> bool) (s : str) : str :=
  rev (lstrip_with p (rev s)).

Definition strip (s : str) : str :=
  rstrip_with isspace (lstrip_with isspace s).

Definition is_slash (c : char) : bool := (c =? 47)%N.

(** [s.isascii()]: [s.encode("ascii")] succeeds. *)
Definition isascii (s : str) : bool := forallb (fun c => (c <? 128)%N) s.

(** [s.lower()], exact on ASCII text; the program lowers only the five
    severity labels of [severity_order]. *)
Definition lower_char (c : char) : char :=
  (if (65 <=? c) && (c <=? 90) then c + 32 else c)%N.
Definition lower (s : str) : str := map lower_char s.

(** [sub in s] for two strings. *)
Fixpoint startswith (p s : str) : bool :=
  match p, s with
  | [], _ => true
  | _ :: _, [] => false
  | a :: p', b :: s' => (a =? b)%N && startswith p' s'
  end.

Fixpoint str_in (sub s : str) : bool :=
  startswith sub s ||
  match s with
  | [] => false
  | _ :: s' => str_in sub s'
  end.

(** The text [sub] occurs in [s]. *)
Definition occurs_in (sub s : str) : Prop :=
  exists pre post, s = pre ++ sub ++ post.

(** The number of lines of a text: one more than its line breaks. *)
Definition line_count (s : str) : nat :=
  S (length (filter (fun c => c = 10%N) s)).

(** A [float] is observed by the program only through its truth value and
    its rendering by [str()]; a [datetime] only through [str()]. *)
Record float := { float_nonzero : bool; float_str : str }.
Record datetime := { datetime_str : str }.

(** Decoded JSON, the dynamic values the program receives from the backend.
    A [JDict] lists its items in insertion order, keys pairwise distinct. *)
#[warnings="-register-all"]
Inductive json :=
| JNull
| JBool (b : bool)
| JInt (n : Z)
| JFloat (x : float)
| JStr (s : str)
| JList (l : list json)
| JDict (d : list (str * json)).

Abbreviation dict := (list (str * json)) (only parsing).

(** [bool(v)]. *)
Definition truthy (v : json) : bool :=
  match v with
  | JNull => false
  | JBool b => b
  | JInt n => negb (n =? 0)
  | JFloat x => float_nonzero x
  | JStr s => nonempty s
  | JList l => nonempty l
  | JDict d => nonempty d
  end.

(** [type(v).__name__]. *)
Definition type_name (v : json) : str :=
  match v with
  | JNull => lit "NoneType"
  | JBool _ => lit "bool"
  | JInt _ => lit "int"
  | JFloat _ => lit "float"
  | JStr _ => lit "str"
  | JList _ => lit "list"
  | JDict _ => lit "dict"
  end.

(** [d.get(k)] on a dictionary. *)
Fixpoint dict_get (d : dict) (k : str) : option json :=
  match d with
  | [] => None
  | (k', v) :: d' => if decide (k' = k) then Some v else dict_get d' k
  end.

(** [o or default] and [bool(o)] for an [Optional[str]]. *)
Definition opt_truthy (o : option str) : bool :=
  match o with Some s => nonempty s | None => false end.

Definition str_or (o : option str) (default : str) : str :=
  match o with
  | Some s => if nonempty s then s else default
  | None => default
  end.

(** ** Exceptions *)

(** The classes of exception the program raises or meets.  The three Pyxis
    classes are those of [client.py]; [PyxisAuthError] and
    [PyxisConnectionError] derive from [PyxisError].  The others derive from
    [Exception] only; [LibraryError] stands for whatever exception of its
    own the HTTP library raises while a client is built. *)
Inductive exn :=
| PyxisError (msg : str)
| PyxisAuthError (msg : str)
| PyxisConnectionError (msg : str)
| ValidationError (msg : str)
| AttributeError (msg : str)
| TypeError (msg : str)
| KeyError (msg : str)
| UnicodeEncodeError (msg : str)
| OverflowError (msg : str)
| LibraryError (msg : str).

(** [str(e)]. *)
Definition exn_str (e : exn) : str :=
  match e with
  | PyxisError m | PyxisAuthError m | PyxisConnectionError m
  | ValidationError m | AttributeError m | TypeError m | KeyError m
  | UnicodeEncodeError m | OverflowError m | LibraryError m => m
  end.

(** [isinstance(e, PyxisError)]. *)
Definition is_PyxisError (e : exn) : bool :=
  match e with
  | PyxisError _ | PyxisAuthError _ | PyxisConnectionError _ => true
  | _ => false
  end.

Inductive result (A : Type) :=
| Return (a : A)
| Raise (e : exn).
Arguments Return {A} a.
Arguments Raise {A} e.

End Py.
Export Py.

(** * The platform

    What the program takes from the interpreter and from its libraries
    (urllib, pydantic) and what this development leaves to them: the text of
    interpreter-generated messages, [repr] of containers, arithmetic on
    floats, the lax conversions of pydantic.  Which exception is raised, and
    where, is fixed by the definitions below; only the wording comes from
    here. *)

(** What went wrong, for an exception raised by the interpreter or by
    pydantic rather than by the program. *)
Inductive fault :=
| NoAttribute (v : json) (attr : string)
| NotAMapping (callee : string) (v : json)
| NoLen (v : json)
| NotIterable (v : json)
| NotSubscriptable (v : json)
| SliceOfDict (d : list (str * json))
| JoinItem (index : nat) (v : json)
| Unorderable (a : json) (b : Z)
| BadOperands (a : json) (b : Z)
| Invalid (model : string) (kwargs : list (str * json))
| NotEncodable (s : str)
| TooLargeForFloat (a b : Z).

Class Platform := {
  (** [urllib.parse.urljoin(base, url)] *)
  urljoin : str -> str -> str;
  (** [repr(v)] for a list or a dict *)
  repr : json -> str;
  (** [str(e)] of an interpreter or pydantic exception *)
  describe : fault -> str;
  (** slices are hashable (CPython 3.12 and later): [d[:5]] on a dict is
      then a [KeyError], before it is a [TypeError] *)
  hashable_slices : bool;
  (** [x > n] and [x - n] for a float [x] and an int [n] *)
  float_gt : float -> Z -> bool;
  float_sub : float -> Z -> float;
  (** [f"{a / b:.1f}"] for two ints; [None] when [a / b] raises
      [OverflowError], the quotient being too large for a float *)
  fdiv_1f : Z -> Z -> option str;
  (** pydantic's conversion of an input that is not already of the field's
      type: to [str], [int], [float], [bool], [datetime] *)
  coerce_str : json -> option str;
  coerce_int : json -> option Z;
  coerce_float : json -> option float;
  coerce_bool : json -> option bool;
  as_datetime : json -> option datetime;
  (** and of an input that is not a dictionary to [Dict[str, Any]] or to the
      fields of a nested model *)
  coerce_dict : json -> option (list (str * json));
  (** whether [Config.allow_population_by_field_name] is in force, which
      depends on the pydantic release (the key belongs to pydantic 1) *)
  population_by_field_name : bool
}.

(** [str(v)], as an f-string renders a value. *)
Definition py_str `{Platform} (v : json) : str :=
  match v with
  | JStr s => s
  | JNull => lit "None"
  | JBool true => lit "True"
  | JBool false => lit "False"
  | JInt n => str_of_Z n
  | JFloat x => float_str x
  | JList _ | JDict _ => repr v
  end.

(** * client.py *)

Module Client.

(** A query parameter value. *)
Inductive param :=
| PInt (n : Z)
| PStr (s : str)
| PBool (b : bool).

(** The arguments of [httpx.AsyncClient.request]. *)
Record Request := {
  method : str;
  url : str;
  params : option (gmap str param);
  json_data : option json
}.

(** An [httpx.Response], through the three members the program reads:
    [status_code], [text], and [json()], which returns the decoded body or
    raises (with the given message). *)
Record Response := {
  status_code : Z;
  text : str;
  json_body : str + json
}.

(** How a call to the HTTP library ends. *)
Inductive outcome :=
| Responds (r : Response)
| TimeoutException
| ConnectError
| OtherException (msg : str).

(** The HTTP library, the network and the backend behind it. *)
Class Network := {
  (** [self._client.request(...)] *)
  send : Request -> outcome;
  (** [httpx.AsyncClient(timeout=..., headers=...)] once the headers are
      encoded: [None] when the client is built, the message of the exception
      otherwise (the library sets up its transports from the proxy and
      certificate settings of the process) *)
  AsyncClient : option str
}.

Record PyxisClient := {
  api_key : str;
  base_url : str;
  timeout : float
}.

(** The state outside the operations: the environment variable
    [PYXIS_API_KEY], the module-level [_client] of [server.py], and the
    requests handed to the HTTP library so far, oldest first. *)
Record world := {
  PYXIS_API_KEY : option str;
  _client : option PyxisClient;
  issued : list Request
}.

(** Computations that read and write the world and may raise. *)
Definition M (A : Type) : Type := world -> result A * world.

Definition ret {A} (a : A) : M A := fun w => (Return a, w).
Definition raise {A} (e : exn) : M A := fun w => (Raise e, w).
Definition bind {A B} (m : M A) (k : A -> M B) : M B :=
  fun w =>
    match m w with
    | (Return a, w') => k a w'
    | (Raise e, w') => (Raise e, w')
    end.

Declare Scope M_scope.
Delimit Scope M_scope with M.
Notation "x <- m ;; k" := (bind m (fun x => k))
  (at level 100, m at next level, right associativity) : M_scope.

(** Lifting a pure computation that may raise. *)
Definition lift {A} (r : result A) : M A := fun w => (r, w).

Section WithPlatform.
Context `{Platform} `{Network}.

Local Open Scope M_scope.

Definition DEFAULT_BASE_URL : str :=
  lit "https://catalog.redhat.com/api/containers/v1/".

Definition DEFAULT_TIMEOUT : float :=
  {| float_nonzero := true; float_str := lit "30.0" |}.

(** [PyxisClient.__init__].  The HTTP client is built last, with the key
    as the value of the header [X-API-KEY]; the library encodes header
    values as ASCII and raises [UnicodeEncodeError] for a key it cannot
    encode. *)
Definition __init__ (api_key : option str) (base_url : str) (timeout : float)
  : M PyxisClient :=
  fun w =>
    let key := if opt_truthy api_key then api_key else PYXIS_API_KEY w in
    if opt_truthy key then
      let self :=
        {| api_key := default [] key;
           base_url := rstrip_with is_slash base_url ++ lit "/";
           timeout := timeout |} in
      if negb (isascii (default [] key)) then
        (Raise (UnicodeEncodeError
                  (describe (NotEncodable (default [] key)))), w)
      else
        match AsyncClient with
        | Some message => (Raise (LibraryError message), w)
        | None => (Return self, w)
        end
    else
      (Raise (PyxisAuthError
         (lit "No API key provided. Set PYXIS_API_KEY environment variable "
          ++ lit "or pass api_key parameter.")), w).

(** [k in v] and [v[k]] for a string [k]; [None] when the interpreter
    raises. *)
Definition contains (v : json) (k : str) : option bool :=
  match v with
  | JDict d => Some (bool_decide (is_Some (dict_get d k)))
  | JList l =>
      Some (existsb (fun x => match x with
                              | JStr s => bool_decide (s = k)
                              | _ => false
                              end) l)
  | JStr s => Some (str_in k s)
  | JNull | JBool _ | JInt _ | JFloat _ => None
  end.

Definition getitem (v : json) (k : str) : option json :=
  match v with
  | JDict d => dict_get d k
  | _ => None
  end.

(** The message of the error raised for a status of 400 or more: the
    [try] block of [_make_request] that reads the error body, with its
    [except Exception] handler. *)
Definition error_msg (response : Response) : str :=
  let status_line :=
    lit "Request failed with status " ++ str_of_Z (status_code response) in
  let tried : option str :=
    match json_body response with
    | inl _ => None
    | inr error_data =>
        has_detail ← contains error_data (lit "detail");
        if has_detail : bool then
          v ← getitem error_data (lit "detail");
          Some (status_line ++ lit ": " ++ py_str v)
        else
          has_message ← contains error_data (lit "message");
          if has_message : bool then
            v ← getitem error_data (lit "message");
            Some (status_line ++ lit ": " ++ py_str v)
          else Some status_line
    end in
  match tried with
  | Some m => m
  | None => status_line ++ lit ": " ++ text response
  end.

(** [PyxisClient._make_request]. *)
Definition _make_request (self : PyxisClient) (method endpoint : str)
    (params : option (gmap str param)) (json_data : option json) : M json :=
  fun w =>
    let url := urljoin (base_url self) (lstrip_with is_slash endpoint) in
    let request :=
      {| method := method; url := url;
         params := params; json_data := json_data |} in
    let w' :=
      {| PYXIS_API_KEY := PYXIS_API_KEY w; _client := _client w;
         issued := issued w ++ [request] |} in
    match send request with
    | Responds response =>
        if status_code response =? 401 then
          (Raise (PyxisAuthError
                    (lit "Authentication failed. Check your API key.")), w')
        else if status_code response >=? 400 then
          (Raise (PyxisError (error_msg response)), w')
        else
          match json_body response with
          | inr v => (Return v, w')
          | inl e =>
              (Raise (PyxisError
                        (lit "Failed to parse JSON response: " ++ e)), w')
          end
    | TimeoutException =>
        (Raise (PyxisConnectionError
                  (lit "Request to " ++ url ++ lit " timed out after "
                   ++ float_str (timeout self) ++ lit "s")), w')
    | ConnectError =>
        (Raise (PyxisConnectionError (lit "Failed to connect to " ++ url)), w')
    | OtherException e =>
        (Raise (PyxisError (lit "Unexpected error during request: " ++ e)), w')
    end.

Definition get (self : PyxisClient) (endpoint : str)
    (params : option (gmap str param)) : M json :=
  _make_request self (lit "GET") endpoint params None.

Definition post (self : PyxisClient) (endpoint : str) (data : option json)
    (params : option (gmap str param)) : M json :=
  _make_request self (lit "POST") endpoint params data.

(** [if value: params[key] = f(value)] for an [Optional[str]]. *)
Definition set_if (key : string) (value : option str) (f : str -> param)
    (params : gmap str param) : gmap str param :=
  match value with
  | Some s => if nonempty s then <[lit key := f s]> params else params
  | None => params
  end.

(** The [params] dictionary [search_images] builds. *)
Definition search_images_params (query architecture registry : option str)
    (certified : option bool) (page page_size : Z) : gmap str param :=
  let params : gmap str param :=
    <[lit "page_size" := PInt (Z.min page_size 100)]>
      (<[lit "page" := PInt page]> ∅) in
  let params :=
    set_if "filter" query
      (fun q => PStr (lit "repositories.repository=match=" ++ q)) params in
  let params := set_if "architecture" architecture PStr params in
  let params := set_if "registry" registry PStr params in
  let params :=
    match certified with
    | Some b => <[lit "certified" := PBool b]> params
    | None => params
    end in
  params.

Definition search_images (self : PyxisClient)
    (query architecture registry : option str) (certified : option bool)
    (page page_size : Z) : M json :=
  get self (lit "images")
      (Some (search_images_params query architecture registry certified
               page page_size)).

Definition get_image_by_id (self : PyxisClient) (image_id : str) : M json :=
  get self (lit "images/" ++ image_id) None.

Definition get_image_vulnerabilities (self : PyxisClient) (image_id : str)
  : M json :=
  get self (lit "images/" ++ image_id ++ lit "/vulnerabilities") None.

(** The [params] dictionary [search_certification_projects] builds. *)
Definition search_certification_projects_params
    (query status : option str) (page page_size : Z) : gmap str param :=
  let params : gmap str param :=
    <[lit "page_size" := PInt (Z.min page_size 100)]>
      (<[lit "page" := PInt page]> ∅) in
  let params :=
    set_if "filter" query (fun q => PStr (lit "name=match=" ++ q)) params in
  let params := set_if "certification_status" status PStr params in
  params.

Definition search_certification_projects (self : PyxisClient)
    (query status : option str) (page page_size : Z) : M json :=
  get self (lit "projects/certification")
      (Some (search_certification_projects_params query status
               page page_size)).

Definition get_certification_project (self : PyxisClient) (project_id : str)
  : M json :=
  get self (lit "projects/certification/" ++ project_id) None.

(** The [params] dictionary [search_operators] builds. *)
Definition search_operators_params (query package : option str)
    (page page_size : Z) : gmap str param :=
  let params : gmap str param :=
    <[lit "page_size" := PInt (Z.min page_size 100)]>
      (<[lit "page" := PInt page]> ∅) in
  let params :=
    set_if "filter" query
      (fun q => PStr (lit "bundle_path=match=" ++ q)) params in
  let params := set_if "package" package PStr params in
  params.

Definition search_operators (self : PyxisClient)
    (query package : option str) (page page_size : Z) : M json :=
  get self (lit "operators")
      (Some (search_operators_params query package page page_size)).

Definition get_operator_by_id (self : PyxisClient) (operator_id : str)
  : M json :=
  get self (lit "operators/" ++ operator_id) None.

(** The [params] dictionary [search_repositories] builds. *)
Definition search_repositories_params (query registry : option str)
    (page page_size : Z) : gmap str param :=
  let params : gmap str param :=
    <[lit "page_size" := PInt (Z.min page_size 100)]>
      (<[lit "page" := PInt page]> ∅) in
  let params :=
    set_if "filter" query
      (fun q => PStr (lit "repository=match=" ++ q)) params in
  let params := set_if "registry" registry PStr params in
  params.

Definition search_repositories (self : PyxisClient)
    (query registry : option str) (page page_size : Z) : M json :=
  get self (lit "repositories")
      (Some (search_repositories_params query registry page page_size)).

Definition get_repository_by_id (self : PyxisClient) (repo_id : str)
  : M json :=
  get self (lit "repositories/" ++ repo_id) None.

End WithPlatform.

End Client.

(** * models.py *)

Module Models.

(** ** pydantic field validation

    A field validator returns [None] when pydantic rejects the input.  A
    value already of the field's type is kept as it is; any other input goes
    through the platform's conversion. *)

Definition validate_str `{Platform} (v : json) : option str :=
  match v with JStr s => Some s | _ => coerce_str v end.

Definition validate_int `{Platform} (v : json) : option Z :=
  match v with JInt n => Some n | _ => coerce_int v end.

Definition validate_float `{Platform} (v : json) : option float :=
  match v with JFloat x => Some x | _ => coerce_float v end.

Definition validate_bool `{Platform} (v : json) : option bool :=
  match v with JBool b => Some b | _ => coerce_bool v end.

Definition validate_datetime `{Platform} (v : json) : option datetime :=
  as_datetime v.

(** [Dict[str, Any]]. *)
Definition validate_dict `{Platform} (v : json) : option (list (str * json)) :=
  match v with JDict d => Some d | _ => coerce_dict v end.

(** [List[T]]. *)
Definition validate_list {A} (validate : json -> option A) (v : json)
  : option (list A) :=
  match v with JList l => mapM validate l | _ => None end.

(** A nested model: the input is read as a dictionary, validated in turn. *)
Definition validate_model `{Platform} {A}
    (validate : list (str * json) -> option A) (v : json) : option A :=
  d ← validate_dict v; validate d.

(** A field [name: Optional[T] = None]: absent or [null] gives [None]. *)
Definition optional {A} (validate : json -> option A)
    (kwargs : list (str * json)) (name : string) : option (option A) :=
  match dict_get kwargs (lit name) with
  | None | Some JNull => Some None
  | Some v => a ← validate v; Some (Some a)
  end.

(** A field [name: T] without default. *)
Definition required {A} (validate : json -> option A)
    (kwargs : list (str * json)) (name : string) : option A :=
  v ← dict_get kwargs (lit name); validate v.

(** The field [id: str = Field(..., alias="_id")]: read under its alias, and
    under its own name when population by field name is in force. *)
Definition identity `{Platform} (kwargs : list (str * json)) : option str :=
  match dict_get kwargs (lit "_id") with
  | Some v => validate_str v
  | None =>
      if population_by_field_name
      then v ← dict_get kwargs (lit "id"); validate_str v
      else None
  end.

(** A model class called on [**kwargs]: the call itself needs a mapping; a
    rejected field raises pydantic's [ValidationError].  Keys that name no
    field are ignored. *)
Definition construct `{Platform} {A} (model : string)
    (validate : list (str * json) -> option A) (kwargs : json) : result A :=
  match kwargs with
  | JDict d =>
      match validate d with
      | Some a => Return a
      | None => Raise (ValidationError (describe (Invalid model d)))
      end
  | _ => Raise (TypeError (describe (NotAMapping model kwargs)))
  end.

(** ** The entities *)

Module Repository.
Record t := mk {
  registry : option str;
  repository : option str;
  push_date : option datetime;
  tags : option (list str);
  published : option bool
}.
Definition validate `{Platform} (kw : list (str * json)) : option t :=
  registry ← optional validate_str kw "registry";
  repository ← optional validate_str kw "repository";
  push_date ← optional validate_datetime kw "push_date";
  tags ← optional (validate_list validate_str) kw "tags";
  published ← optional validate_bool kw "published";
  Some (mk registry repository push_date tags published).
End Repository.

Module Architecture.
Record t := mk {
  name : str;
  digest : option str;
  manifest_digest : option str
}.
Definition validate `{Platform} (kw : list (str * json)) : option t :=
  name ← required validate_str kw "name";
  digest ← optional validate_str kw "digest";
  manifest_digest ← optional validate_str kw "manifest_digest";
  Some (mk name digest manifest_digest).
End Architecture.

Module Vulnerability.
Record t := mk {
  cve : option str;
  cvss_score : option float;
  cvss_vector : option str;
  cwe : option str;
  impact : option str;
  public_date : option datetime;
  severity : option str;
  description : option str;
  package_name : option str;
  package_version : option str;
  fixed_version : option str
}.
Definition validate `{Platform} (kw : list (str * json)) : option t :=
  cve ← optional validate_str kw "cve";
  cvss_score ← optional validate_float kw "cvss_score";
  cvss_vector ← optional validate_str kw "cvss_vector";
  cwe ← optional validate_str kw "cwe";
  impact ← optional validate_str kw "impact";
  public_date ← optional validate_datetime kw "public_date";
  severity ← optional validate_str kw "severity";
  description ← optional validate_str kw "description";
  package_name ← optional validate_str kw "package_name";
  package_version ← optional validate_str kw "package_version";
  fixed_version ← optional validate_str kw "fixed_version";
  Some (mk cve cvss_score cvss_vector cwe impact public_date severity
           description package_name package_version fixed_version).
End Vulnerability.

Module ContentSet.
Record t := mk {
  name : option str;
  type : option str
}.
Definition validate `{Platform} (kw : list (str * json)) : option t :=
  name ← optional validate_str kw "name";
  type ← optional validate_str kw "type";
  Some (mk name type).
End ContentSet.

Module BrewBuild.
Record t := mk {
  build : option str;
  nvr : option str;
  id : option Z
}.
Definition validate `{Platform} (kw : list (str * json)) : option t :=
  build ← optional validate_str kw "build";
  nvr ← optional validate_str kw "nvr";
  id ← optional validate_int kw "id";
  Some (mk build nvr id).
End BrewBuild.

Module ContainerImage.
Record t := mk {
  id : str;
  architecture : option str;
  brew : option BrewBuild.t;
  certified : option bool;
  content_sets : option (list ContentSet.t);
  cpe_ids : option (list str);
  creation_date : option datetime;
  docker_image_digest : option str;
  freshness_grades : option (list (list (str * json)));
  image_id : option str;
  last_update_date : option datetime;
  media_type : option str;
  parsed_data : option (list (str * json));
  repositories : option (list Repository.t);
  sum_layer_size_bytes : option Z;
  uncompressed_size_bytes : option Z;
  vulnerabilities : option (list Vulnerability.t)
}.
Definition validate `{Platform} (kw : list (str * json)) : option t :=
  id ← identity kw;
  architecture ← optional validate_str kw "architecture";
  brew ← optional (validate_model BrewBuild.validate) kw "brew";
  certified ← optional validate_bool kw "certified";
  content_sets ←
    optional (validate_list (validate_model ContentSet.validate))
             kw "content_sets";
  cpe_ids ← optional (validate_list validate_str) kw "cpe_ids";
  creation_date ← optional validate_datetime kw "creation_date";
  docker_image_digest ← optional validate_str kw "docker_image_digest";
  freshness_grades ←
    optional (validate_list validate_dict) kw "freshness_grades";
  image_id ← optional validate_str kw "image_id";
  last_update_date ← optional validate_datetime kw "last_update_date";
  media_type ← optional validate_str kw "media_type";
  parsed_data ← optional validate_dict kw "parsed_data";
  repositories ←
    optional (validate_list (validate_model Repository.validate))
             kw "repositories";
  sum_layer_size_bytes ← optional validate_int kw "sum_layer_size_bytes";
  uncompressed_size_bytes ←
    optional validate_int kw "uncompressed_size_bytes";
  vulnerabilities ←
    optional (validate_list (validate_model Vulnerability.validate))
             kw "vulnerabilities";
  Some (mk id architecture brew certified content_sets cpe_ids
           creation_date docker_image_digest freshness_grades image_id
           last_update_date media_type parsed_data repositories
           sum_layer_size_bytes uncompressed_size_bytes vulnerabilities).
Definition new `{Platform} (kwargs : json) : result t :=
  construct "ContainerImage" validate kwargs.
End ContainerImage.

Module CertificationProject.
Record t := mk {
  id : str;
  name : option str;
  project_status : option str;
  certification_status : option str;
  type : option str;
  application_type : option str;
  vendor_label : option str;
  registry_override_instruct : option str;
  short_description : option str;
  long_description : option str;
  creation_date : option datetime;
  last_update_date : option datetime;
  container : option (list (str * json))
}.
Definition validate `{Platform} (kw : list (str * json)) : option t :=
  id ← identity kw;
  name ← optional validate_str kw "name";
  project_status ← optional validate_str kw "project_status";
  certification_status ← optional validate_str kw "certification_status";
  type ← optional validate_str kw "type";
  application_type ← optional validate_str kw "application_type";
  vendor_label ← optional validate_str kw "vendor_label";
  registry_override_instruct ←
    optional validate_str kw "registry_override_instruct";
  short_description ← optional validate_str kw "short_description";
  long_description ← optional validate_str kw "long_description";
  creation_date ← optional validate_datetime kw "creation_date";
  last_update_date ← optional validate_datetime kw "last_update_date";
  container ← optional validate_dict kw "container";
  Some (mk id name project_status certification_status type
           application_type vendor_label registry_override_instruct
           short_description long_description creation_date
           last_update_date container).
Definition new `{Platform} (kwargs : json) : result t :=
  construct "CertificationProject" validate kwargs.
End CertificationProject.

Module OperatorPackage.
Record t := mk {
  name : option str;
  default_channel : option str;
  channels : option (list str)
}.
Definition validate `{Platform} (kw : list (str * json)) : option t :=
  name ← optional validate_str kw "name";
  default_channel ← optional validate_str kw "default_channel";
  channels ← optional (validate_list validate_str) kw "channels";
  Some (mk name default_channel channels).
End OperatorPackage.

Module OperatorBundle.
Record t := mk {
  id : str;
  bundle_path : option str;
  csv_name : option str;
  package_name : option str;
  channel_name : option str;
  version : option str;
  ocp_version : option str;
  organization : option str;
  registry : option str;
  repository : option str;
  creation_date : option datetime;
  last_update_date : option datetime;
  certified : option bool
}.
Definition validate `{Platform} (kw : list (str * json)) : option t :=
  id ← identity kw;
  bundle_path ← optional validate_str kw "bundle_path";
  csv_name ← optional validate_str kw "csv_name";
  package_name ← optional validate_str kw "package_name";
  channel_name ← optional validate_str kw "channel_name";
  version ← optional validate_str kw "version";
  ocp_version ← optional validate_str kw "ocp_version";
  organization ← optional validate_str kw "organization";
  registry ← optional validate_str kw "registry";
  repository ← optional validate_str kw "repository";
  creation_date ← optional validate_datetime kw "creation_date";
  last_update_date ← optional validate_datetime kw "last_update_date";
  certified ← optional validate_bool kw "certified";
  Some (mk id bundle_path csv_name package_name channel_name version
           ocp_version organization registry repository creation_date
           last_update_date certified).
Definition new `{Platform} (kwargs : json) : result t :=
  construct "OperatorBundle" validate kwargs.
End OperatorBundle.

(** ** The result envelopes

    [SearchResults], [ImageSearchResults], [ProjectSearchResults],
    [OperatorSearchResults] and [VulnerabilitySearchResults] declare the same
    four fields and the same [has_more] property; they differ in the type of
    the items of [data]. *)

Module Envelope.
Record t (A : Type) := mk {
  data : list A;
  total : Z;
  page : Z;
  page_size : Z
}.
Arguments mk {A} data total page page_size.
Arguments data {A} self : rename.
Arguments total {A} self : rename.
Arguments page {A} self : rename.
Arguments page_size {A} self : rename.
Definition has_more {A} (self : t A) : bool :=
  (page self + 1) * page_size self <? total self.
Definition validate `{Platform} {A} (item : json -> option A)
    (kw : list (str * json)) : option (t A) :=
  data ← required (validate_list item) kw "data";
  total ← required validate_int kw "total";
  page ← required validate_int kw "page";
  page_size ← required validate_int kw "page_size";
  Some (mk data total page page_size).
End Envelope.

(** An item of the generic [SearchResults]:
    [Union[ContainerImage, CertificationProject, OperatorBundle]]. *)
Inductive entity :=
| Image (image : ContainerImage.t)
| Project (project : CertificationProject.t)
| Operator (operator : OperatorBundle.t).

Module SearchResults.
Definition t : Type := Envelope.t entity.
Definition has_more (self : t) : bool := Envelope.has_more self.
End SearchResults.

Module ImageSearchResults.
Definition t : Type := Envelope.t ContainerImage.t.
Definition has_more (self : t) : bool := Envelope.has_more self.
Definition new `{Platform} (kwargs : json) : result t :=
  construct "ImageSearchResults"
    (Envelope.validate (validate_model ContainerImage.validate)) kwargs.
End ImageSearchResults.

Module ProjectSearchResults.
Definition t : Type := Envelope.t CertificationProject.t.
Definition has_more (self : t) : bool := Envelope.has_more self.
Definition new `{Platform} (kwargs : json) : result t :=
  construct "ProjectSearchResults"
    (Envelope.validate (validate_model CertificationProject.validate)) kwargs.
End ProjectSearchResults.

Module OperatorSearchResults.
Definition t : Type := Envelope.t OperatorBundle.t.
Definition has_more (self : t) : bool := Envelope.has_more self.
Definition new `{Platform} (kwargs : json) : result t :=
  construct "OperatorSearchResults"
    (Envelope.validate (validate_model OperatorBundle.validate)) kwargs.
End OperatorSearchResults.

Module VulnerabilitySearchResults.
Definition t : Type := Envelope.t Vulnerability.t.
Definition has_more (self : t) : bool := Envelope.has_more self.
Definition new `{Platform} (kwargs : json) : result t :=
  construct "VulnerabilitySearchResults"
    (Envelope.validate (validate_model Vulnerability.validate)) kwargs.
End VulnerabilitySearchResults.

(** ** Formatting *)

(** [bool(b)] for an [Optional[bool]]. *)
Definition is_true (b : option bool) : bool := default false b.

(** The loop of [format_image_summary] over the first three repositories. *)
Definition repo_strs (repositories : list Repository.t) : list str :=
  fold_left
    (fun repo_strs repo =>
       match Repository.registry repo, Repository.repository repo with
       | Some registry, Some repository =>
           if nonempty registry && nonempty repository
           then repo_strs ++ [registry ++ lit "/" ++ repository]
           else repo_strs
       | _, _ => repo_strs
       end)
    (take 3 repositories) [].

(** The pair a repository contributes to the summary: its registry and
    repository names joined by a slash, when it has both and neither is
    empty. *)
Definition named_pair (repo : Repository.t) : option str :=
  match Repository.registry repo, Repository.repository repo with
  | Some registry, Some repository =>
      if nonempty registry && nonempty repository
      then Some (registry ++ lit "/" ++ repository)
      else None
  | _, _ => None
  end.

Definition format_image_summary (image : ContainerImage.t) : str :=
  let repos :=
    match ContainerImage.repositories image with
    | Some repositories =>
        if nonempty repositories then
          let repo_strs := repo_strs repositories in
          if nonempty repo_strs then
            let repos := lit " (" ++ join (lit ", ") repo_strs ++ lit ")" in
            if len repositories >? 3
            then repos ++ lit " +" ++ str_of_Z (len repositories - 3)
                       ++ lit " more"
            else repos
          else []
        else []
    | None => []
    end in
  let certified :=
    if is_true (ContainerImage.certified image)
    then CHECK_MARK ++ lit " Certified"
    else WARNING_SIGN ++ lit " Not Certified" in
  let arch :=
    match ContainerImage.architecture image with
    | Some architecture =>
        if nonempty architecture then lit " [" ++ architecture ++ lit "]"
        else []
    | None => []
    end in
  ContainerImage.id image ++ repos ++ arch ++ lit " - " ++ certified.

Definition format_project_summary (project : CertificationProject.t) : str :=
  let name := str_or (CertificationProject.name project)
                     (lit "Unnamed Project") in
  let status := str_or (CertificationProject.certification_status project)
                       (lit "Unknown") in
  let project_type := str_or (CertificationProject.type project)
                             (lit "Unknown Type") in
  name ++ lit " (" ++ project_type ++ lit ") - Status: " ++ status.

Definition format_operator_summary (operator : OperatorBundle.t) : str :=
  let name :=
    str_or (OperatorBundle.csv_name operator)
           (str_or (OperatorBundle.package_name operator)
                   (lit "Unknown Operator")) in
  let version :=
    match OperatorBundle.version operator with
    | Some v => if nonempty v then lit " v" ++ v else []
    | None => []
    end in
  let certified :=
    if is_true (OperatorBundle.certified operator)
    then CHECK_MARK ++ lit " Certified"
    else WARNING_SIGN ++ lit " Not Certified" in
  name ++ version ++ lit " - " ++ certified.

Definition format_vulnerability_summary (vuln : Vulnerability.t) : str :=
  let cve := str_or (Vulnerability.cve vuln) (lit "Unknown CVE") in
  let severity := str_or (Vulnerability.severity vuln) (lit "Unknown") in
  let score :=
    match Vulnerability.cvss_score vuln with
    | Some x =>
        if float_nonzero x then lit " (CVSS: " ++ float_str x ++ lit ")"
        else []
    | None => []
    end in
  let package :=
    match Vulnerability.package_name vuln with
    | Some p => if nonempty p then lit " in " ++ p else []
    | None => []
    end in
  cve ++ lit " - " ++ severity ++ score ++ package.

End Models.

(** * server.py *)

Module Server.
Import Client Models.

Definition NEWLINE : str := [10%N].

(** Sequencing of pure steps that may raise. *)
Definition and_then {A B} (r : result A) (k : A -> result B) : result B :=
  match r with
  | Return a => k a
  | Raise e => Raise e
  end.

Declare Scope result_scope.
Delimit Scope result_scope with result.
Notation "x <- m ;; k" := (and_then m (fun x => k))
  (at level 100, m at next level, right associativity) : result_scope.

(** A [for] loop that extends [lines] by what each item contributes and stops
    at the first exception. *)
Fixpoint for_each {A} (f : A -> result (list str)) (items : list A)
  : result (list str) :=
  match items with
  | [] => Return []
  | x :: rest =>
      (here <- f x ;;
       after <- for_each f rest ;;
       Return (here ++ after))%result
  end.

Section WithPlatform.
Context `{Platform} `{Network}.

(** [get_client]: the module-level client, built on first use. *)
Definition get_client : M PyxisClient :=
  fun w =>
    match _client w with
    | Some client => (Return client, w)
    | None =>
        match __init__ None DEFAULT_BASE_URL DEFAULT_TIMEOUT w with
        | (Return client, w') =>
            (Return client,
             {| PYXIS_API_KEY := PYXIS_API_KEY w';
                _client := Some client;
                issued := issued w' |})
        | (Raise e, w') => (Raise e, w')
        end
    end.

(** The two handlers that close every tool:
    [except PyxisError as e: return f"<context>{e}"] and
    [except Exception as e: return f"Unexpected error: {e}"]. *)
Definition handled (context : string) (body : M str) : M str :=
  fun w =>
    match body w with
    | (Return s, w') => (Return s, w')
    | (Raise e, w') =>
        if is_PyxisError e
        then (Return (lit context ++ exn_str e), w')
        else (Return (lit "Unexpected error: " ++ exn_str e), w')
    end.

(** [s.strip() if s else None]. *)
Definition clean (s : str) : option str :=
  if nonempty s then Some (strip s) else None.

(** [min(max(max_results, 1), 100)]. *)
Definition clamp (max_results : Z) : Z := Z.min (Z.max max_results 1) 100.

(** [response.get(key)]. *)
Definition dot_get (response : json) (key : string) : result (option json) :=
  match response with
  | JDict d => Return (dict_get d (lit key))
  | _ => Raise (AttributeError (describe (NoAttribute response "get")))
  end.

(** [bool(response.get(key))]. *)
Definition present (o : option json) : bool :=
  match o with Some v => truthy v | None => false end.

(** ** Container image tools *)

(** What [search_images] makes of the response. *)
Definition search_images_render (response : json) : result str :=
  (data <- dot_get response "data" ;;
   if negb (present data) then
     Return (lit "No images found matching the specified criteria.")
   else
     results <- ImageSearchResults.new response ;;
     if negb (nonempty (Envelope.data results)) then
       Return (lit "No images found matching the specified criteria.")
     else
       let lines :=
         [lit "Found " ++ str_of_Z (Envelope.total results)
          ++ lit " images (showing "
          ++ str_of_Z (len (Envelope.data results)) ++ lit "):";
          []] in
       let lines :=
         lines ++ map (fun image =>
                         BULLET ++ lit " " ++ format_image_summary image)
                      (Envelope.data results) in
       let lines :=
         if ImageSearchResults.has_more results then
           lines ++ [[];
                     lit "... and "
                     ++ str_of_Z (Envelope.total results
                                  - len (Envelope.data results))
                     ++ lit " more results available"]
         else lines in
       Return (join NEWLINE lines))%result.

(** The [try] block of [search_images]. *)
Definition search_images_try (query architecture registry : str)
    (certified : bool) (max_results : Z) : M str :=
  (client <- get_client ;;
   let query := clean query in
   let architecture := clean architecture in
   let registry := clean registry in
   let certified_filter := if certified then Some certified else None in
   let max_results := clamp max_results in
   response <- Client.search_images client query architecture registry
                 certified_filter 0 max_results ;;
   lift (search_images_render response))%M.

Definition search_images (query architecture registry : str)
    (certified : bool) (max_results : Z) : M str :=
  handled "Error searching images: "
    (search_images_try query architecture registry certified max_results).

(** The lines of [get_image_details] for one repository. *)
Definition repository_lines (repo : Repository.t) : list str :=
  match Repository.registry repo, Repository.repository repo with
  | Some registry, Some repository =>
      if nonempty registry && nonempty repository then
        [lit "  " ++ BULLET ++ lit " " ++ registry ++ lit "/" ++ repository]
        ++ match Repository.tags repo with
           | Some tags =>
               if nonempty tags then
                 [lit "    Tags: " ++ join (lit ", ") (take 5 tags)]
                 ++ (if len tags >? 5
                     then [lit "    ... and " ++ str_of_Z (len tags - 5)
                           ++ lit " more tags"]
                     else [])
               else []
           | None => []
           end
      else []
  | _, _ => []
  end.

(** [lines.append(f"<label>{value}")] under [if value:], for an optional
    value shown through [show]. *)
Definition line_if {A} (truth : A -> bool) (label : string) (show : A -> str)
    (value : option A) : list str :=
  match value with
  | Some a => if truth a then [lit label ++ show a] else []
  | None => []
  end.

Definition always {A} (a : A) : bool := true.
Definition nonzero (n : Z) : bool := negb (n =? 0).

(** The size of the layers, under [if image.sum_layer_size_bytes:]; the
    division [image.sum_layer_size_bytes / (1024 * 1024)] raises
    [OverflowError] for an integer beyond the range of a float. *)
Definition size_lines (sum_layer_size_bytes : option Z) : result (list str) :=
  match sum_layer_size_bytes with
  | Some n =>
      if nonzero n then
        match fdiv_1f n (1024 * 1024) with
        | Some size_mb => Return [lit "Size: " ++ size_mb ++ lit " MB"]
        | None =>
            Raise (OverflowError
                     (describe (TooLargeForFloat n (1024 * 1024))))
        end
      else Return []
  | None => Return []
  end.

(** What [get_image_details] makes of the response. *)
Definition get_image_details_render (response : json) : result str :=
  (image <- ContainerImage.new response ;;
   let lines :=
     [lit "Container Image Details: " ++ ContainerImage.id image;
      times (lit "=") 50] in
   let lines :=
     lines ++
     match ContainerImage.repositories image with
     | Some repositories =>
         if nonempty repositories
         then [lit "Repositories:"]
              ++ flat_map repository_lines repositories
         else []
     | None => []
     end in
   let lines :=
     lines ++
     [[];
      lit "Architecture: "
      ++ str_or (ContainerImage.architecture image) (lit "Unknown");
      lit "Certified: "
      ++ (if is_true (ContainerImage.certified image)
          then lit "Yes" else lit "No")] in
   let lines :=
     lines ++ line_if always "Created: " datetime_str
                      (ContainerImage.creation_date image) in
   let lines :=
     lines ++ line_if always "Last Updated: " datetime_str
                      (ContainerImage.last_update_date image) in
   size <- size_lines (ContainerImage.sum_layer_size_bytes image) ;;
   let lines := lines ++ size in
   let lines :=
     lines ++ line_if nonempty "Digest: " (fun s => s)
                      (ContainerImage.docker_image_digest image) in
   let lines :=
     lines ++
     match ContainerImage.cpe_ids image with
     | Some cpe_ids =>
         if nonempty cpe_ids then
           [lit "CPE IDs: " ++ join (lit ", ") (take 3 cpe_ids)]
           ++ (if len cpe_ids >? 3
               then [lit "... and " ++ str_of_Z (len cpe_ids - 3)
                     ++ lit " more"]
               else [])
         else []
     | None => []
     end in
   let lines :=
     lines ++ line_if nonempty "Content Sets: "
                      (fun l => str_of_Z (len l) ++ lit " available")
                      (ContainerImage.content_sets image) in
   let lines :=
     lines ++ line_if nonempty "Freshness Grades: "
                      (fun l => str_of_Z (len l) ++ lit " available")
                      (ContainerImage.freshness_grades image) in
   Return (join NEWLINE lines))%result.

(** The [try] block of [get_image_details]. *)
Definition get_image_details_try (image_id : str) : M str :=
  (if negb (nonempty (strip image_id)) then
     ret (lit "Error: image_id is required")
   else
     client <- get_client ;;
     response <- get_image_by_id client (strip image_id) ;;
     lift (get_image_details_render response))%M.

Definition get_image_details (image_id : str) : M str :=
  handled "Error getting image details: " (get_image_details_try image_id).

(** [vuln.severity or "Unknown"], the key an entry is grouped under. *)
Definition severity_key (vuln : Vulnerability.t) : str :=
  str_or (Vulnerability.severity vuln) (lit "Unknown").

(** The grouping loop of [get_image_vulnerabilities]: a dictionary from the
    severity found in the data to the entries that carry it, in input
    order. *)
Definition group_by_severity (vulns : list Vulnerability.t)
  : gmap str (list Vulnerability.t) :=
  fold_left
    (fun severity_groups vuln =>
       let severity := severity_key vuln in
       let severity_groups :=
         match severity_groups !! severity with
         | None => <[severity := []]> severity_groups
         | Some _ => severity_groups
         end in
       alter (fun group => group ++ [vuln]) severity severity_groups)
    vulns ∅.

Definition severity_order : list str :=
  [lit "Critical"; lit "High"; lit "Medium"; lit "Low"; lit "Unknown"].

(** The body of the loop over [severity_order]. *)
Definition severity_block (severity_groups : gmap str (list Vulnerability.t))
    (severity : str) : list str :=
  match severity_groups !! severity with
  | Some group =>
      [severity ++ lit " Severity (" ++ str_of_Z (len group) ++ lit "):"]
      ++ map (fun vuln =>
                lit "  " ++ BULLET ++ lit " "
                ++ format_vulnerability_summary vuln)
             (take 10 group)
      ++ (if len group >? 10
          then [lit "  ... and " ++ str_of_Z (len group - 10) ++ lit " more "
                ++ lower severity ++ lit " vulnerabilities"]
          else [])
      ++ [[]]
  | None => []
  end.

(** The grouping and the loop over [severity_order]. *)
Definition severity_lines (vulns : list Vulnerability.t) : list str :=
  let severity_groups := group_by_severity vulns in
  flat_map (severity_block severity_groups) severity_order.

(** The part of [get_image_vulnerabilities] that renders validated
    results. *)
Definition vulnerability_report (image_id : str) (max_results : Z)
    (results : VulnerabilitySearchResults.t) : str :=
  let vulns := take (Z.to_nat max_results) (Envelope.data results) in
  let lines :=
    [lit "Security Vulnerabilities for Image " ++ image_id;
     times (lit "=") 60;
     lit "Found " ++ str_of_Z (Envelope.total results)
     ++ lit " vulnerabilities (showing " ++ str_of_Z (len vulns) ++ lit "):";
     []] in
  let lines := lines ++ severity_lines vulns in
  let lines :=
    if Envelope.total results >? max_results
    then lines ++ [lit "... and "
                   ++ str_of_Z (Envelope.total results - max_results)
                   ++ lit " more vulnerabilities available"]
    else lines in
  join NEWLINE lines.

(** What [get_image_vulnerabilities] makes of the response. *)
Definition get_image_vulnerabilities_render (image_id : str)
    (max_results : Z) (response : json) : result str :=
  (data <- dot_get response "data" ;;
   if negb (present data) then
     Return (lit "No vulnerabilities found for image " ++ image_id)
   else
     results <- VulnerabilitySearchResults.new response ;;
     if negb (nonempty (Envelope.data results)) then
       Return (lit "No vulnerabilities found for image " ++ image_id)
     else
       Return (vulnerability_report image_id max_results results))%result.

(** The [try] block of [get_image_vulnerabilities]. *)
Definition get_image_vulnerabilities_try (image_id : str) (max_results : Z)
  : M str :=
  (if negb (nonempty (strip image_id)) then
     ret (lit "Error: image_id is required")
   else
     client <- get_client ;;
     let max_results := clamp max_results in
     response <- Client.get_image_vulnerabilities client (strip image_id) ;;
     lift (get_image_vulnerabilities_render image_id max_results response))%M.

Definition get_image_vulnerabilities (image_id : str) (max_results : Z)
  : M str :=
  handled "Error getting vulnerabilities: "
    (get_image_vulnerabilities_try image_id max_results).

(** ** Certification project tools *)

(** What [search_certification_projects] makes of the response. *)
Definition search_certification_projects_render (response : json)
  : result str :=
  (data <- dot_get response "data" ;;
   if negb (present data) then
     Return (lit ("No certification projects found matching "
               +:+ "the specified criteria."))
   else
     results <- ProjectSearchResults.new response ;;
     if negb (nonempty (Envelope.data results)) then
       Return (lit ("No certification projects found matching "
                 +:+ "the specified criteria."))
     else
       let lines :=
         [lit "Found " ++ str_of_Z (Envelope.total results)
          ++ lit " certification projects (showing "
          ++ str_of_Z (len (Envelope.data results)) ++ lit "):";
          []] in
       let lines :=
         lines ++
         flat_map
           (fun project =>
              [BULLET ++ lit " " ++ format_project_summary project]
              ++ line_if nonempty "  " (fun s => s)
                   (CertificationProject.short_description project)
              ++ [[]])
           (Envelope.data results) in
       let lines :=
         if ProjectSearchResults.has_more results then
           lines ++ [lit "... and "
                     ++ str_of_Z (Envelope.total results
                                  - len (Envelope.data results))
                     ++ lit " more results available"]
         else lines in
       Return (join NEWLINE lines))%result.

(** The [try] block of [search_certification_projects]. *)
Definition search_certification_projects_try (query status : str)
    (max_results : Z) : M str :=
  (client <- get_client ;;
   let query := clean query in
   let status := clean status in
   let max_results := clamp max_results in
   response <- Client.search_certification_projects client query status
                 0 max_results ;;
   lift (search_certification_projects_render response))%M.

Definition search_certification_projects (query status : str)
    (max_results : Z) : M str :=
  handled "Error searching certification projects: "
    (search_certification_projects_try query status max_results).

(** [lines.append(""); lines.append(title); lines.append(text)] under
    [if text:]. *)
Definition paragraph_if (title : string) (text : option str) : list str :=
  match text with
  | Some s => if nonempty s then [[]; lit title; s] else []
  | None => []
  end.

(** The loop over [project.container.items()]: only [str], [int], [float]
    and [bool] values are shown. *)
Definition container_lines (container : list (str * json)) : list str :=
  flat_map
    (fun '(key, value) =>
       match value with
       | JStr _ | JInt _ | JFloat _ | JBool _ =>
           [lit "  " ++ key ++ lit ": " ++ py_str value]
       | JNull | JList _ | JDict _ => []
       end)
    container.

(** What [get_certification_project_details] makes of the response. *)
Definition get_certification_project_details_render (response : json)
  : result str :=
  (project <- CertificationProject.new response ;;
   let lines :=
     [lit "Certification Project Details: "
      ++ str_or (CertificationProject.name project)
                (lit "Unnamed Project");
      times (lit "=") 60;
      lit "ID: " ++ CertificationProject.id project;
      lit "Type: "
      ++ str_or (CertificationProject.type project) (lit "Unknown");
      lit "Application Type: "
      ++ str_or (CertificationProject.application_type project)
                (lit "Unknown");
      lit "Project Status: "
      ++ str_or (CertificationProject.project_status project)
                (lit "Unknown");
      lit "Certification Status: "
      ++ str_or (CertificationProject.certification_status project)
                (lit "Unknown")] in
   let lines :=
     lines ++ line_if nonempty "Vendor: " (fun s => s)
                      (CertificationProject.vendor_label project) in
   let lines :=
     lines ++ line_if always "Created: " datetime_str
                      (CertificationProject.creation_date project) in
   let lines :=
     lines ++ line_if always "Last Updated: " datetime_str
                      (CertificationProject.last_update_date project) in
   let lines :=
     lines ++ paragraph_if "Short Description:"
                (CertificationProject.short_description project) in
   let lines :=
     lines ++ paragraph_if "Description:"
                (CertificationProject.long_description project) in
   let lines :=
     lines ++ paragraph_if "Registry Override Instructions:"
                (CertificationProject.registry_override_instruct
                   project) in
   let lines :=
     lines ++
     match CertificationProject.container project with
     | Some container =>
         if nonempty container
         then [[]; lit "Container Information:"]
              ++ container_lines container
         else []
     | None => []
     end in
   Return (join NEWLINE lines))%result.

(** The [try] block of [get_certification_project_details]. *)
Definition get_certification_project_details_try (project_id : str)
  : M str :=
  (if negb (nonempty (strip project_id)) then
     ret (lit "Error: project_id is required")
   else
     client <- get_client ;;
     response <- get_certification_project client (strip project_id) ;;
     lift (get_certification_project_details_render response))%M.

Definition get_certification_project_details (project_id : str) : M str :=
  handled "Error getting project details: "
    (get_certification_project_details_try project_id).

(** ** Operator tools *)

(** What [search_operators] makes of the response. *)
Definition search_operators_render (response : json) : result str :=
  (data <- dot_get response "data" ;;
   if negb (present data) then
     Return (lit "No operators found matching the specified criteria.")
   else
     results <- OperatorSearchResults.new response ;;
     if negb (nonempty (Envelope.data results)) then
       Return (lit "No operators found matching the specified criteria.")
     else
       let lines :=
         [lit "Found " ++ str_of_Z (Envelope.total results)
          ++ lit " operators (showing "
          ++ str_of_Z (len (Envelope.data results)) ++ lit "):";
          []] in
       let lines :=
         lines ++
         flat_map
           (fun operator =>
              [BULLET ++ lit " " ++ format_operator_summary operator]
              ++ line_if nonempty "  Organization: " (fun s => s)
                   (OperatorBundle.organization operator)
              ++ line_if nonempty "  Bundle Path: " (fun s => s)
                   (OperatorBundle.bundle_path operator)
              ++ [[]])
           (Envelope.data results) in
       let lines :=
         if OperatorSearchResults.has_more results then
           lines ++ [lit "... and "
                     ++ str_of_Z (Envelope.total results
                                  - len (Envelope.data results))
                     ++ lit " more results available"]
         else lines in
       Return (join NEWLINE lines))%result.

(** The [try] block of [search_operators]. *)
Definition search_operators_try (query package : str) (max_results : Z)
  : M str :=
  (client <- get_client ;;
   let query := clean query in
   let package := clean package in
   let max_results := clamp max_results in
   response <- Client.search_operators client query package
                 0 max_results ;;
   lift (search_operators_render response))%M.

Definition search_operators (query package : str) (max_results : Z)
  : M str :=
  handled "Error searching operators: "
    (search_operators_try query package max_results).

(** What [get_operator_details] makes of the response. *)
Definition get_operator_details_render (response : json) : result str :=
  (operator <- OperatorBundle.new response ;;
   let lines :=
     [lit "Operator Bundle Details: "
      ++ str_or (OperatorBundle.csv_name operator)
                (str_or (OperatorBundle.package_name operator)
                        (lit "Unknown"));
      times (lit "=") 60;
      lit "ID: " ++ OperatorBundle.id operator] in
   let lines :=
     lines ++ line_if nonempty "CSV Name: " (fun s => s)
                      (OperatorBundle.csv_name operator) in
   let lines :=
     lines ++ line_if nonempty "Package: " (fun s => s)
                      (OperatorBundle.package_name operator) in
   let lines :=
     lines ++ line_if nonempty "Version: " (fun s => s)
                      (OperatorBundle.version operator) in
   let lines :=
     lines ++ line_if nonempty "Channel: " (fun s => s)
                      (OperatorBundle.channel_name operator) in
   let lines :=
     lines ++ line_if nonempty "OCP Version: " (fun s => s)
                      (OperatorBundle.ocp_version operator) in
   let lines :=
     lines ++ line_if nonempty "Organization: " (fun s => s)
                      (OperatorBundle.organization operator) in
   let lines :=
     lines ++ [lit "Certified: "
               ++ (if is_true (OperatorBundle.certified operator)
                   then lit "Yes" else lit "No")] in
   let lines :=
     lines ++
     match OperatorBundle.registry operator,
           OperatorBundle.repository operator with
     | Some registry, Some repository =>
         if nonempty registry && nonempty repository
         then [lit "Registry: " ++ registry ++ lit "/" ++ repository]
         else []
     | _, _ => []
     end in
   let lines :=
     lines ++ line_if nonempty "Bundle Path: " (fun s => s)
                      (OperatorBundle.bundle_path operator) in
   let lines :=
     lines ++ line_if always "Created: " datetime_str
                      (OperatorBundle.creation_date operator) in
   let lines :=
     lines ++ line_if always "Last Updated: " datetime_str
                      (OperatorBundle.last_update_date operator) in
   Return (join NEWLINE lines))%result.

(** The [try] block of [get_operator_details]. *)
Definition get_operator_details_try (operator_id : str) : M str :=
  (if negb (nonempty (strip operator_id)) then
     ret (lit "Error: operator_id is required")
   else
     client <- get_client ;;
     response <- get_operator_by_id client (strip operator_id) ;;
     lift (get_operator_details_render response))%M.

Definition get_operator_details (operator_id : str) : M str :=
  handled "Error getting operator details: "
    (get_operator_details_try operator_id).

(** ** Repository tools

    [search_repositories] formats the decoded response as it is, without a
    pydantic model; every operation on it is the interpreter's, on whatever
    the backend sent. *)

(** [len(v)]. *)
Definition py_len (v : json) : result Z :=
  match v with
  | JStr s => Return (len s)
  | JList l => Return (len l)
  | JDict d => Return (len d)
  | JNull | JBool _ | JInt _ | JFloat _ =>
      Raise (TypeError (describe (NoLen v)))
  end.

(** The items [for x in v] visits. *)
Definition py_iter (v : json) : result (list json) :=
  match v with
  | JList l => Return l
  | JDict d => Return (map (fun kv => JStr kv.1) d)
  | JStr s => Return (map (fun c => JStr [c]) s)
  | JNull | JBool _ | JInt _ | JFloat _ =>
      Raise (TypeError (describe (NotIterable v)))
  end.

(** [v.get(key, default)]. *)
Definition get_or (v : json) (key : string) (fallback : json) : result json :=
  match v with
  | JDict d => Return (default fallback (dict_get d (lit key)))
  | _ => Raise (AttributeError (describe (NoAttribute v "get")))
  end.

(** The items of a list as strings, as [str.join] requires them. *)
Fixpoint str_items (index : nat) (items : list json) : result (list str) :=
  match items with
  | [] => Return []
  | JStr s :: rest =>
      (after <- str_items (S index) rest ;; Return (s :: after))%result
  | v :: _ => Raise (TypeError (describe (JoinItem index v)))
  end.

(** [", ".join(tags[:5])]. *)
Definition join_tags (tags : json) : result str :=
  match tags with
  | JList l =>
      (items <- str_items 0 (take 5 l) ;;
       Return (join (lit ", ") items))%result
  | JStr s => Return (join (lit ", ") (map (fun c => [c]) (take 5 s)))
  | JDict d =>
      if hashable_slices
      then Raise (KeyError (describe (SliceOfDict d)))
      else Raise (TypeError (describe (SliceOfDict d)))
  | JNull | JBool _ | JInt _ | JFloat _ =>
      Raise (TypeError (describe (NotSubscriptable tags)))
  end.

(** [total > n] and [total - n] for an int [n]. *)
Definition gt_int (total : json) (n : Z) : result bool :=
  match total with
  | JInt t => Return (t >? n)
  | JBool b => Return (Z.b2z b >? n)
  | JFloat x => Return (float_gt x n)
  | JNull | JStr _ | JList _ | JDict _ =>
      Raise (TypeError (describe (Unorderable total n)))
  end.

Definition sub_int (total : json) (n : Z) : result json :=
  match total with
  | JInt t => Return (JInt (t - n))
  | JBool b => Return (JInt (Z.b2z b - n))
  | JFloat x => Return (JFloat (float_sub x n))
  | JNull | JStr _ | JList _ | JDict _ =>
      Raise (TypeError (describe (BadOperands total n)))
  end.

(** The body of the loop of [search_repositories] over [data]. *)
Definition repo_entry (repo : json) : result (list str) :=
  (registry_name <- get_or repo "registry" (JStr (lit "unknown")) ;;
   repo_name <- get_or repo "repository" (JStr (lit "unknown")) ;;
   is_published <- dot_get repo "published" ;;
   let published :=
     if present is_published then lit "Published"
     else lit "Not Published" in
   let lines :=
     [BULLET ++ lit " " ++ py_str registry_name ++ lit "/"
      ++ py_str repo_name ++ lit " - " ++ published] in
   push_date <- dot_get repo "push_date" ;;
   let lines :=
     if present push_date
     then lines ++ [lit "  Last Push: " ++ py_str (default JNull push_date)]
     else lines in
   tags <- get_or repo "tags" (JList []) ;;
   lines <-
     (if truthy tags then
        tag_display <- join_tags tags ;;
        count <- py_len tags ;;
        let tag_display :=
          if count >? 5
          then tag_display ++ lit " +" ++ str_of_Z (count - 5) ++ lit " more"
          else tag_display in
        Return (lines ++ [lit "  Tags: " ++ tag_display])
      else Return lines) ;;
   Return (lines ++ [[]]))%result.

(** The part of [search_repositories] that formats a response whose [data]
    is not empty. *)
Definition repository_report (response : json) : result str :=
  (total <- get_or response "total" (JInt 0) ;;
   data <- get_or response "data" (JList []) ;;
   shown <- py_len data ;;
   let lines :=
     [lit "Found " ++ py_str total ++ lit " repositories (showing "
      ++ str_of_Z shown ++ lit "):";
      []] in
   repos <- py_iter data ;;
   entries <- for_each repo_entry repos ;;
   let lines := lines ++ entries in
   more <- gt_int total shown ;;
   lines <-
     (if more : bool then
        rest <- sub_int total shown ;;
        Return (lines ++ [lit "... and " ++ py_str rest
                          ++ lit " more results available"])
      else Return lines) ;;
   Return (join NEWLINE lines))%result.

(** What [search_repositories] makes of the response. *)
Definition search_repositories_render (response : json) : result str :=
  (data <- dot_get response "data" ;;
   if negb (present data) then
     Return (lit "No repositories found matching the specified criteria.")
   else
     repository_report response)%result.

(** The [try] block of [search_repositories]. *)
Definition search_repositories_try (query registry : str) (max_results : Z)
  : M str :=
  (client <- get_client ;;
   let query := clean query in
   let registry := clean registry in
   let max_results := clamp max_results in
   response <- Client.search_repositories client query registry
                 0 max_results ;;
   lift (search_repositories_render response))%M.

Definition search_repositories (query registry : str) (max_results : Z)
  : M str :=
  handled "Error searching repositories: "
    (search_repositories_try query registry max_results).

(** ** The registered tools

    The eight operations registered with [mcp.tool()], as calls with their
    arguments. *)

Inductive search :=
| SearchImages (query architecture registry : str) (certified : bool)
| SearchCertificationProjects (query status : str)
| SearchOperators (query package : str)
| SearchRepositories (query registry : str).

Inductive call :=
| Search (s : search) (max_results : Z)
| GetImageDetails (image_id : str)
| GetImageVulnerabilities (image_id : str) (max_results : Z)
| GetCertificationProjectDetails (project_id : str)
| GetOperatorDetails (operator_id : str).

(** The operation a call names. *)
Definition run (c : call) : M str :=
  match c with
  | Search (SearchImages query architecture registry certified) n =>
      search_images query architecture registry certified n
  | Search (SearchCertificationProjects query status) n =>
      search_certification_projects query status n
  | Search (SearchOperators query package) n =>
      search_operators query package n
  | Search (SearchRepositories query registry) n =>
      search_repositories query registry n
  | GetImageDetails image_id => get_image_details image_id
  | GetImageVulnerabilities image_id n => get_image_vulnerabilities image_id n
  | GetCertificationProjectDetails project_id =>
      get_certification_project_details project_id
  | GetOperatorDetails operator_id => get_operator_details operator_id
  end.

(** Its [try] block, and the text its [except PyxisError] handler puts
    before the message. *)
Definition try_block (c : call) : M str :=
  match c with
  | Search (SearchImages query architecture registry certified) n =>
      search_images_try query architecture registry certified n
  | Search (SearchCertificationProjects query status) n =>
      search_certification_projects_try query status n
  | Search (SearchOperators query package) n =>
      search_operators_try query package n
  | Search (SearchRepositories query registry) n =>
      search_repositories_try query registry n
  | GetImageDetails image_id => get_image_details_try image_id
  | GetImageVulnerabilities image_id n =>
      get_image_vulnerabilities_try image_id n
  | GetCertificationProjectDetails project_id =>
      get_certification_project_details_try project_id
  | GetOperatorDetails operator_id => get_operator_details_try operator_id
  end.

Definition context (c : call) : string :=
  match c with
  | Search (SearchImages _ _ _ _) _ => "Error searching images: "
  | Search (SearchCertificationProjects _ _) _ =>
      "Error searching certification projects: "
  | Search (SearchOperators _ _) _ => "Error searching operators: "
  | Search (SearchRepositories _ _) _ => "Error searching repositories: "
  | GetImageDetails _ => "Error getting image details: "
  | GetImageVulnerabilities _ _ => "Error getting vulnerabilities: "
  | GetCertificationProjectDetails _ => "Error getting project details: "
  | GetOperatorDetails _ => "Error getting operator details: "
  end.

(** The entity a details tool constructs from the response. *)
Definition entity_of (c : call) : option string :=
  match c with
  | GetImageDetails _ => Some "ContainerImage"
  | GetCertificationProjectDetails _ => Some "CertificationProject"
  | GetOperatorDetails _ => Some "OperatorBundle"
  | Search _ _ | GetImageVulnerabilities _ _ => None
  end.

(** The free-text query of a search, and the kind of thing it looks for as
    the empty-result sentence names it. *)
Definition query_of (s : search) : str :=
  match s with
  | SearchImages query _ _ _ => query
  | SearchCertificationProjects query _ => query
  | SearchOperators query _ => query
  | SearchRepositories query _ => query
  end.

Definition kind (s : search) : string :=
  match s with
  | SearchImages _ _ _ _ => "images"
  | SearchCertificationProjects _ _ => "certification projects"
  | SearchOperators _ _ => "operators"
  | SearchRepositories _ _ => "repositories"
  end.

End WithPlatform.

(** ** The vulnerability listing, as the specification words it *)

(** The entries filed under a severity label, in input order. *)
Definition entries_under (label : str) (vulns : list Vulnerability.t)
  : list Vulnerability.t :=
  filter (fun vuln => severity_key vuln = label) vulns.

(** The dictionary holds a group for a label exactly when some entry is
    filed under it. *)
Definition group_of (group : list Vulnerability.t)
  : option (list Vulnerability.t) :=
  match group with [] => None | _ :: _ => Some group end.




(** ** What a run leaves behind *)

(** There is something to connect with: a client exists already, or the
    environment holds a non-empty key to build one from.  Whether one is
    built is the constructor's affair. *)
Definition has_credentials (w : world) : bool :=
  match _client w with
  | Some _ => true
  | None => opt_truthy (PYXIS_API_KEY w)
  end.

(** The requests a computation hands to the HTTP library when run in [w]. *)
Definition sent_by {A} (m : M A) (w : world) : list Request :=
  drop (length (issued w)) (issued (m w).2).

(** ** The entry point *)

(** How [main] ends: it returns a value, or it enters [mcp.run()], the
    serving loop of the framework. *)
Inductive main_end :=
| Returns (value : Z)
| Serves.

(** [main]: what it prints, line by line, and how it ends. *)
Definition main (w : world) : list str * main_end :=
  let api_key := PYXIS_API_KEY w in
  if negb (opt_truthy api_key) then
    ([lit "Error: PYXIS_API_KEY environment variable is required";
      lit ("Please set your Red Hat Pyxis API key "
           +:+ "before running the server")],
     Returns 1)
  else
    ([lit "Starting Red Hat Pyxis MCP Server...";
      lit "Available tools:";
      lit "  " ++ BULLET ++ lit " search_images - Search container images";
      lit "  " ++ BULLET
      ++ lit " get_image_details - Get detailed image information";
      lit "  " ++ BULLET
      ++ lit (" get_image_vulnerabilities - "
              +:+ "Get image security vulnerabilities");
      lit "  " ++ BULLET
      ++ lit (" search_certification_projects - "
              +:+ "Search certification projects");
      lit "  " ++ BULLET
      ++ lit " get_certification_project_details - Get project details";
      lit "  " ++ BULLET ++ lit " search_operators - Search operator bundles";
      lit "  " ++ BULLET
      ++ lit " get_operator_details - Get operator details";
      lit "  " ++ BULLET ++ lit " search_repositories - Search repositories";
      []],
     Serves).

(** ** The shape the tools share *)

(** Every [try] block either returns at once or gets the client, fetches one
    endpoint with GET and renders the response. *)
Definition guarded_fetch `{Platform} `{Network} (early : bool) (excuse : str)
    (endpoint : PyxisClient -> str) (params : option (gmap str param))
    (render : json -> result str) : M str :=
  (if early then ret excuse
   else
     client <- get_client ;;
     response <- get client (endpoint client) params ;;
     lift (render response))%M.

(** The endpoint a tool fetches, the query parameters it sends and what it
    makes of the response. *)
Definition endpoint_of (c : call) : str :=
  match c with
  | Search (SearchImages _ _ _ _) _ => lit "images"
  | Search (SearchCertificationProjects _ _) _ => lit "projects/certification"
  | Search (SearchOperators _ _) _ => lit "operators"
  | Search (SearchRepositories _ _) _ => lit "repositories"
  | GetImageDetails image_id => lit "images/" ++ strip image_id
  | GetImageVulnerabilities image_id _ =>
      lit "images/" ++ strip image_id ++ lit "/vulnerabilities"
  | GetCertificationProjectDetails project_id =>
      lit "projects/certification/" ++ strip project_id
  | GetOperatorDetails operator_id => lit "operators/" ++ strip operator_id
  end.

Definition params_of (c : call) : option (gmap str param) :=
  match c with
  | Search (SearchImages query architecture registry certified) n =>
      Some (search_images_params (clean query) (clean architecture)
              (clean registry) (if certified then Some certified else None)
              0 (clamp n))
  | Search (SearchCertificationProjects query status) n =>
      Some (search_certification_projects_params (clean query)
              (clean status) 0 (clamp n))
  | Search (SearchOperators query package) n =>
      Some (search_operators_params (clean query) (clean package)
              0 (clamp n))
  | Search (SearchRepositories query registry) n =>
      Some (search_repositories_params (clean query) (clean registry)
              0 (clamp n))
  | GetImageDetails _ | GetImageVulnerabilities _ _
  | GetCertificationProjectDetails _ | GetOperatorDetails _ => None
  end.

Definition render_of `{Platform} (c : call) : json -> result str :=
  match c with
  | Search (SearchImages _ _ _ _) _ => search_images_render
  | Search (SearchCertificationProjects _ _) _ =>
      search_certification_projects_render
  | Search (SearchOperators _ _) _ => search_operators_render
  | Search (SearchRepositories _ _) _ => search_repositories_render
  | GetImageDetails _ => get_image_details_render
  | GetImageVulnerabilities image_id n =>
      get_image_vulnerabilities_render image_id (clamp n)
  | GetCertificationProjectDetails _ =>
      get_certification_project_details_render
  | GetOperatorDetails _ => get_operator_details_render
  end.

(** The identifier a details tool is called with, and the name of that
    argument. *)
Definition id_of (c : call) : option str :=
  match c with
  | GetImageDetails image_id => Some image_id
  | GetImageVulnerabilities image_id _ => Some image_id
  | GetCertificationProjectDetails project_id => Some project_id
  | GetOperatorDetails operator_id => Some operator_id
  | Search _ _ => None
  end.

Definition id_name (c : call) : string :=
  match c with
  | GetImageDetails _ | GetImageVulnerabilities _ _ => "image_id"
  | GetCertificationProjectDetails _ => "project_id"
  | GetOperatorDetails _ => "operator_id"
  | Search _ _ => ""
  end.

(** A details tool refuses an identifier that strips to nothing, with this
    text. *)
Definition refuses (c : call) : bool :=
  match id_of c with
  | Some identifier => negb (nonempty (strip identifier))
  | None => false
  end.

Definition refusal (c : call) : str :=
  lit "Error: " ++ lit (id_name c) ++ lit " is required".

(** The sentence a listing tool returns when there is nothing to list. *)
Definition nothing_found (c : call) : option str :=
  match c with
  | Search s _ =>
      Some (lit "No " ++ lit (kind s)
            ++ lit " found matching the specified criteria.")
  | GetImageVulnerabilities image_id _ =>
      Some (lit "No vulnerabilities found for image " ++ image_id)
  | GetImageDetails _ | GetCertificationProjectDetails _
  | GetOperatorDetails _ => None
  end.

(** The message of the constructor when no key is to be had. *)
Definition NO_API_KEY : str :=
  lit ("No API key provided. Set PYXIS_API_KEY environment variable "
       +:+ "or pass api_key parameter.").

(** The call with every text argument stripped of surrounding white
    space. *)
Definition stripped (c : call) : call :=
  match c with
  | Search (SearchImages query architecture registry certified) n =>
      Search (SearchImages (strip query) (strip architecture)
                (strip registry) certified) n
  | Search (SearchCertificationProjects query status) n =>
      Search (SearchCertificationProjects (strip query) (strip status)) n
  | Search (SearchOperators query package) n =>
      Search (SearchOperators (strip query) (strip package)) n
  | Search (SearchRepositories query registry) n =>
      Search (SearchRepositories (strip query) (strip registry)) n
  | GetImageDetails image_id => GetImageDetails (strip image_id)
  | GetImageVulnerabilities image_id n =>
      GetImageVulnerabilities (strip image_id) n
  | GetCertificationProjectDetails project_id =>
      GetCertificationProjectDetails (strip project_id)
  | GetOperatorDetails operator_id => GetOperatorDetails (strip operator_id)
  end.

(** The field of the backend a search matches its free-text query against,
    and the second text filter of a search: the parameter it is sent under
    and its value. *)
Definition match_field (s : search) : string :=
  match s with
  | SearchImages _ _ _ _ => "repositories.repository"
  | SearchCertificationProjects _ _ => "name"
  | SearchOperators _ _ => "bundle_path"
  | SearchRepositories _ _ => "repository"
  end.

Definition text_filters (s : search) : list (string * str) :=
  match s with
  | SearchImages _ architecture registry _ =>
      [("architecture", architecture); ("registry", registry)]
  | SearchCertificationProjects _ status =>
      [("certification_status", status)]
  | SearchOperators _ package => [("package", package)]
  | SearchRepositories _ registry => [("registry", registry)]
  end.

(** The names of the query parameters a search may send. *)
Definition param_names (s : search) : list string :=
  match s with
  | SearchImages _ _ _ _ =>
      ["page"; "page_size"; "filter"; "architecture"; "registry";
       "certified"]
  | SearchCertificationProjects _ _ =>
      ["page"; "page_size"; "filter"; "certification_status"]
  | SearchOperators _ _ => ["page"; "page_size"; "filter"; "package"]
  | SearchRepositories _ _ => ["page"; "page_size"; "filter"; "registry"]
  end.

(** The envelope model a listing tool validates its response with;
    [search_repositories] and the details tools use none. *)
Definition envelope_of (c : call) : option string :=
  match c with
  | Search (SearchImages _ _ _ _) _ => Some "ImageSearchResults"
  | Search (SearchCertificationProjects _ _) _ => Some "ProjectSearchResults"
  | Search (SearchOperators _ _) _ => Some "OperatorSearchResults"
  | GetImageVulnerabilities _ _ => Some "VulnerabilitySearchResults"
  | Search (SearchRepositories _ _) _ | GetImageDetails _
  | GetCertificationProjectDetails _ | GetOperatorDetails _ => None
  end.

(** A repository entry [search_repositories] can format: an object whose
    [tags], when present and not empty, is a list of strings. *)
Definition is_str (v : json) : bool :=
  match v with JStr _ => true | _ => false end.

Definition formattable_repo (repo : json) : bool :=
  match repo with
  | JDict d =>
      match dict_get d (lit "tags") with
      | None => true
      | Some tags =>
          negb (truthy tags)
          || match tags with
             | JList l => forallb is_str l
             | _ => false
             end
      end
  | _ => false
  end.

(** A [total] that compares with an int: absent, an int, a bool or a
    float. *)
Definition comparable_total (d : list (str * json)) : bool :=
  match dict_get d (lit "total") with
  | None | Some (JInt _) | Some (JBool _) | Some (JFloat _) => true
  | Some _ => false
  end.

End Server.

(** * A concrete platform and concrete backends

    Used where a property is evaluated on a concrete input. *)

Module Sample.
Import Client Models Server.

(** A platform that converts nothing between JSON types, takes a date-time
    given as text and populates by alias only. *)
Definition platform : Platform := {|
  urljoin base url := base ++ url;
  repr v := lit "<repr>";
  describe f := lit "<message>";
  hashable_slices := true;
  float_gt x n := false;
  float_sub x n := x;
  fdiv_1f a b :=
    if Z.abs a <? 2 ^ 1000 then Some (lit "0.0") else None;
  coerce_str v := None;
  coerce_int v := None;
  coerce_float v := None;
  coerce_bool v := None;
  as_datetime v :=
    match v with JStr s => Some {| datetime_str := s |} | _ => None end;
  coerce_dict v := None;
  population_by_field_name := false
|}.

(** A backend that answers every request with the same response, and
    networks that fail. *)
Definition answering (response : Response) : Network :=
  {| send request := Responds response; AsyncClient := None |}.
Definition timing_out : Network :=
  {| send request := TimeoutException; AsyncClient := None |}.
Definition unreachable : Network :=
  {| send request := ConnectError; AsyncClient := None |}.

Definition ok (body : json) : Response :=
  {| status_code := 200; text := lit "<body>"; json_body := inr body |}.

(** An empty first page, and an object that has no identity. *)
Definition empty_page : Response :=
  ok (JDict [(lit "data", JList []); (lit "total", JInt 0);
             (lit "page", JInt 0); (lit "page_size", JInt 20)]).

Definition nameless : list (str * json) :=
  [(lit "architecture", JStr (lit "amd64"))].

(** A status 502 from a proxy, whose body is two lines of plain text. *)
Definition bad_gateway : Response :=
  {| status_code := 502;
     text := lit "Bad Gateway" ++ [10%N] ++ lit "nginx";
     json_body := inl (lit "Expecting value: line 1 column 1 (char 0)") |}.

(** A status 500 whose body is the JSON object [{}]. *)
Definition failing_plainly : Response :=
  {| status_code := 500; text := lit "{}"; json_body := inr (JDict []) |}.

(** A process with the API key in its environment and no client yet. *)
Definition fresh : world :=
  {| PYXIS_API_KEY := Some (lit "secret"); _client := None; issued := [] |}.

Definition client : PyxisClient :=
  {| api_key := lit "secret"; base_url := DEFAULT_BASE_URL;
     timeout := DEFAULT_TIMEOUT |}.

(** The GET request for an endpoint, as the sample platform joins URLs. *)
Definition get_request (endpoint : string)
    (params : option (gmap str param)) : Request :=
  {| method := lit "GET"; url := DEFAULT_BASE_URL ++ lit endpoint;
     params := params; json_data := None |}.

(** A search for images named ubi, and one whose query is blank. *)
Definition ubi : search := SearchImages (lit "ubi") [] [] false.
Definition blank : search := SearchImages [32; 9; 0xA0]%N [] [] false.

(** A repository without names, a named one, and an image of a given
    identity and repositories with every other field absent. *)
Definition unnamed : Repository.t :=
  Repository.mk None None None None None.

Definition named (registry repository : string) : Repository.t :=
  Repository.mk (Some (lit registry)) (Some (lit repository)) None None None.

Definition image_of (id : string) (repositories : list Repository.t)
  : ContainerImage.t :=
  ContainerImage.mk (lit id) None None None None None None None None None
    None None None (Some repositories) None None None.

Definition four_unnamed : ContainerImage.t :=
  image_of "img" [unnamed; unnamed; unnamed; unnamed].

Definition four_named : ContainerImage.t :=
  image_of "img"
    [named "registry.redhat.io" "ubi8"; named "registry.redhat.io" "ubi9";
     named "quay.io" "ubi8"; named "quay.io" "ubi9"].

(** A success whose body is the empty object, and a page of one image whose
    envelope lacks [total]. *)
Definition bare : Response := ok (JDict []).

Definition page_without_total : list (str * json) :=
  [(lit "data", JList [JDict [(lit "_id", JStr (lit "img"))]]);
   (lit "page", JInt 0); (lit "page_size", JInt 20)].

(** A search for images with padded arguments and a blank registry. *)
Definition padded : search :=
  SearchImages (lit " ubi ") (lit " amd64") (lit "  ") false.

(** A page of repositories whose only entry is a text, not an object, and a
    page of one repository with two tags. *)
Definition page_of_text : list (str * json) :=
  [(lit "data", JList [JStr (lit "ubi8")]); (lit "total", JInt 1)].

Definition page_of_repository : list (str * json) :=
  [(lit "data",
    JList [JDict [(lit "registry", JStr (lit "quay.io"));
                  (lit "repository", JStr (lit "ubi8"));
                  (lit "tags", JList [JStr (lit "latest");
                                      JStr (lit "8.9")])]]);
   (lit "total", JInt 1)].

(** The first page of five images, one to a page. *)
Definition first_of_five : json :=
  JDict [(lit "data", JList [JDict [(lit "_id", JStr (lit "img"))]]);
         (lit "total", JInt 5); (lit "page", JInt 0);
         (lit "page_size", JInt 1)].

(** A process whose key holds a character that is not ASCII. *)
Definition accented : world :=
  {| PYXIS_API_KEY := Some (lit "cl" ++ [233%N]); _client := None;
     issued := [] |}.

(** A process without a key and without a client. *)
Definition keyless : world :=
  {| PYXIS_API_KEY := None; _client := None; issued := [] |}.

(** A vulnerability with a CVE identifier and a severity only. *)
Definition vuln_of (cve severity : string) : Vulnerability.t :=
  Vulnerability.mk (Some (lit cve)) None None None None None
    (Some (lit severity)) None None None None.

End Sample.

(** * Properties *)

Import Client Models Server.

(** ** Text *)

Lemma startswith_spec (p s : str) :
  startswith p s = true <-> exists post, s = p ++ post.
Proof.
  revert s. induction p as [|a p IH]; intros s; simpl.
  - split; eauto.
  - destruct s as [|b s]; simpl.
    + split; [discriminate | intros [post Hpost]; discriminate].
    + rewrite andb_true_iff, N.eqb_eq, IH. split.
      * intros [-> [post ->]]. eauto.
      * intros [post Hpost]. injection Hpost as -> ->. eauto.
Qed.

Lemma str_in_spec (sub s : str) : str_in sub s = true <-> occurs_in sub s.
Proof.
  unfold occurs_in. induction s as [|c s IH]; simpl.
  - rewrite orb_false_r, startswith_spec. split.
    + intros [post Hpost]. exists [], post. exact Hpost.
    + intros (pre & post & Heq). symmetry in Heq.
      apply app_eq_nil in Heq as [-> Heq].
      apply app_eq_nil in Heq as [-> ->]. exists []. reflexivity.
  - rewrite orb_true_iff, startswith_spec, IH. split.
    + intros [[post Hpost] | (pre & post & ->)].
      * exists [], post. exact Hpost.
      * exists (c :: pre), post. reflexivity.
    + intros (pre & post & Heq). destruct pre as [|c' pre]; simpl in Heq.
      * left. eauto.
      * right. injection Heq as -> ->. eauto.
Qed.

Lemma not_occurs_in (sub s : str) : str_in sub s = false -> ~ occurs_in sub s.
Proof. intros Hno Hin. apply str_in_spec in Hin. congruence. Qed.

Lemma occurs_in_here (sub : str) : occurs_in sub sub.
Proof. exists [], []. rewrite app_nil_r. reflexivity. Qed.

Lemma occurs_in_app_l (sub s t : str) :
  occurs_in sub s -> occurs_in sub (s ++ t).
Proof.
  intros (pre & post & ->). exists pre, (post ++ t).
  rewrite <- !app_assoc. reflexivity.
Qed.

Lemma occurs_in_app_r (sub s t : str) :
  occurs_in sub t -> occurs_in sub (s ++ t).
Proof.
  intros (pre & post & ->). exists (s ++ pre), post.
  rewrite <- !app_assoc. reflexivity.
Qed.

Create HintDb occurs.
#[local] Hint Resolve occurs_in_here occurs_in_app_l occurs_in_app_r : occurs.

(** Blank text strips to nothing. *)
Lemma lstrip_with_all (p : char -> bool) (s : str) :
  forallb p s = true -> lstrip_with p s = [].
Proof.
  induction s as [|c s IH]; simpl; [reflexivity|].
  intros [Hc Hs]%andb_true_iff. rewrite Hc. auto.
Qed.

Lemma strip_blank (s : str) : forallb isspace s = true -> strip s = [].
Proof.
  intros Hblank. unfold strip. rewrite lstrip_with_all by assumption.
  reflexivity.
Qed.

(** ** Result envelopes *)

Lemma Envelope_has_more_iff (A : Type) (results : Envelope.t A) :
  Envelope.has_more results = true <->
  (Envelope.page results + 1) * Envelope.page_size results
  < Envelope.total results.
Proof. unfold Envelope.has_more. apply Z.ltb_lt. Qed.

(** C3.  For each of the five result envelopes, with page [p], page size [s]
    and total [t], [has_more] is true exactly when [(p + 1) * s < t]. *)
Theorem has_more_iff :
  (forall (data : list entity) (t p s : Z),
      SearchResults.has_more (Envelope.mk data t p s) = true
      <-> (p + 1) * s < t)
  /\ (forall (data : list ContainerImage.t) (t p s : Z),
         ImageSearchResults.has_more (Envelope.mk data t p s) = true
         <-> (p + 1) * s < t)
  /\ (forall (data : list CertificationProject.t) (t p s : Z),
         ProjectSearchResults.has_more (Envelope.mk data t p s) = true
         <-> (p + 1) * s < t)
  /\ (forall (data : list OperatorBundle.t) (t p s : Z),
         OperatorSearchResults.has_more (Envelope.mk data t p s) = true
         <-> (p + 1) * s < t)
  /\ (forall (data : list Vulnerability.t) (t p s : Z),
         VulnerabilitySearchResults.has_more (Envelope.mk data t p s) = true
         <-> (p + 1) * s < t).
Proof.
  repeat split; intros Hmore;
    first [ apply Envelope_has_more_iff in Hmore; exact Hmore
          | apply Envelope_has_more_iff; exact Hmore ].
Qed.

(** ** The request primitive *)

(** The message for a status of 400 or more starts with the status line. *)
Lemma error_msg_status `{Platform} (response : Response) :
  exists detail,
    error_msg response =
    lit "Request failed with status " ++ str_of_Z (status_code response)
    ++ detail.
Proof.
  unfold error_msg.
  set (base := lit "Request failed with status "
               ++ str_of_Z (status_code response)).
  assert (Hbase : forall detail, base ++ detail =
            lit "Request failed with status "
            ++ str_of_Z (status_code response) ++ detail).
  { intros detail. unfold base. rewrite <- app_assoc. reflexivity. }
  assert (Hnone : base = base ++ []) by (rewrite app_nil_r; reflexivity).
  destruct (json_body response) as [e | error_data].
  { eexists. apply Hbase. }
  destruct (contains error_data (lit "detail")) as [[|]|]; simpl.
  - destruct (getitem error_data (lit "detail")); simpl;
      eexists; apply Hbase.
  - destruct (contains error_data (lit "message")) as [[|]|]; simpl.
    + destruct (getitem error_data (lit "message")); simpl;
        eexists; apply Hbase.
    + exists []. rewrite Hnone at 1. apply Hbase.
    + eexists. apply Hbase.
  - eexists. apply Hbase.
Qed.

(** What the error body contributes, for a body that is not JSON and for a
    JSON object. *)
Lemma error_msg_detail `{Platform} (response : Response) :
  let base :=
    lit "Request failed with status " ++ str_of_Z (status_code response) in
  match json_body response with
  | inl _ => error_msg response = base ++ lit ": " ++ text response
  | inr (JDict d) =>
      match dict_get d (lit "detail"), dict_get d (lit "message") with
      | Some v, _ => error_msg response = base ++ lit ": " ++ py_str v
      | None, Some v => error_msg response = base ++ lit ": " ++ py_str v
      | None, None => error_msg response = base
      end
  | inr _ => True
  end.
Proof.
  intros base. unfold error_msg. fold base.
  destruct (json_body response) as [e | error_data]; [reflexivity|].
  destruct error_data as [| | | | | | d]; try exact I.
  unfold contains, getitem.
  destruct (dict_get d (lit "detail")) as [v|].
  { rewrite (bool_decide_eq_true_2 (is_Some (Some v)))
      by (eexists; reflexivity).
    reflexivity. }
  rewrite (bool_decide_eq_false_2 (is_Some (@None json)))
    by (intros [? ?]; discriminate).
  destruct (dict_get d (lit "message")) as [v|].
  { rewrite (bool_decide_eq_true_2 (is_Some (Some v)))
      by (eexists; reflexivity).
    reflexivity. }
  rewrite (bool_decide_eq_false_2 (is_Some (@None json)))
    by (intros [? ?]; discriminate).
  reflexivity.
Qed.

(** C1, as the code has it.  A timeout raises [PyxisConnectionError] with
    the URL and the configured timeout in its message; a connection failure
    raises [PyxisConnectionError] with the URL; status 401 raises
    [PyxisAuthError]; any other status of 400 or more raises the generic
    [PyxisError] whose message holds the status code, followed by the
    [detail] field of a JSON object body, else by its [message] field, by
    nothing when the object has neither, and by the raw body text when the
    body is not JSON; a success whose body is not JSON raises [PyxisError]
    around the decoder's message; any other success returns the decoded body
    unchanged.  Any other failure of the HTTP library raises [PyxisError]
    around its message. *)
Theorem make_request_outcomes `{Platform} `{Network}
    (self : PyxisClient) (method endpoint : str)
    (params : option (gmap str param)) (json_data : option json)
    (w : world) :
  let url := urljoin (base_url self) (lstrip_with is_slash endpoint) in
  let request :=
    {| method := method; url := url;
       params := params; json_data := json_data |} in
  let result := (_make_request self method endpoint params json_data w).1 in
  match send request with
  | TimeoutException =>
      exists msg, result = Raise (PyxisConnectionError msg)
                  /\ occurs_in url msg
                  /\ occurs_in (float_str (timeout self)) msg
  | ConnectError =>
      exists msg, result = Raise (PyxisConnectionError msg)
                  /\ occurs_in url msg
  | OtherException e =>
      exists msg, result = Raise (PyxisError msg) /\ occurs_in e msg
  | Responds response =>
      let status := status_code response in
      let base := lit "Request failed with status " ++ str_of_Z status in
      if status =? 401 then
        exists msg, result = Raise (PyxisAuthError msg)
      else if 400 <=? status then
        exists msg,
          result = Raise (PyxisError msg)
          /\ occurs_in (str_of_Z status) msg
          /\ match json_body response with
             | inl _ => msg = base ++ lit ": " ++ text response
             | inr (JDict d) =>
                 match dict_get d (lit "detail"),
                       dict_get d (lit "message") with
                 | Some v, _ => msg = base ++ lit ": " ++ py_str v
                 | None, Some v => msg = base ++ lit ": " ++ py_str v
                 | None, None => msg = base
                 end
             | inr _ => True
             end
      else
        match json_body response with
        | inr v => result = Return v
        | inl e => exists msg, result = Raise (PyxisError msg)
                               /\ occurs_in e msg
        end
  end.
Proof.
  intros url request result. unfold result, _make_request.
  fold url. fold request.
  destruct (send request) as [response | | | e]; cbn.
  - destruct (status_code response =? 401) eqn:H401; cbn; [eauto|].
    rewrite Z.geb_leb.
    destruct (400 <=? status_code response) eqn:H400; cbn.
    + eexists. split; [reflexivity|]. split.
      * destruct (error_msg_status response) as [detail ->].
        auto with occurs.
      * apply error_msg_detail.
    + destruct (json_body response) as [e | v]; cbn; [|reflexivity].
      eexists. split; [reflexivity|]. auto with occurs.
  - eexists. split; [reflexivity|]. split; auto 7 with occurs.
  - eexists. split; [reflexivity|]. auto with occurs.
  - eexists. split; [reflexivity|]. auto with occurs.
Qed.

(** ** Worlds *)

Lemma handled_world `{Platform} `{Network} (context : string) (body : M str)
    (w : world) :
  (handled context body w).2 = (body w).2.
Proof.
  unfold handled. destruct (body w) as [[text | e] w']; [reflexivity|].
  destruct (is_PyxisError e); reflexivity.
Qed.

Lemma handled_returns `{Platform} `{Network} (context : string) (body : M str)
    (w : world) :
  exists text, (handled context body w).1 = Return text.
Proof.
  unfold handled. destruct (body w) as [[text | e] w']; [eauto|].
  destruct (is_PyxisError e); eauto.
Qed.

Lemma make_request_world `{Platform} `{Network} (self : PyxisClient)
    (method endpoint : str) (params : option (gmap str param))
    (json_data : option json) (w : world) :
  (_make_request self method endpoint params json_data w).2 =
  {| PYXIS_API_KEY := PYXIS_API_KEY w; _client := _client w;
     issued := issued w ++
       [{| method := method;
           url := urljoin (base_url self) (lstrip_with is_slash endpoint);
           params := params; json_data := json_data |}] |}.
Proof.
  unfold _make_request.
  destruct (send _) as [response | | | e]; try reflexivity.
  destruct (status_code response =? 401); [reflexivity|].
  destruct (status_code response >=? 400); [reflexivity|].
  destruct (json_body response); reflexivity.
Qed.

(** [get_client] in full: an existing client is returned as it is; else one
    is built from a non-empty key of the environment and stored; when the
    constructor raises, for want of a key, for a key that is not ASCII or
    from the HTTP library, nothing changes. *)
Lemma get_client_steps `{Platform} `{Network} (w : world) :
  get_client w =
  match _client w with
  | Some client => (Return client, w)
  | None =>
      if opt_truthy (PYXIS_API_KEY w) then
        let key := default [] (PYXIS_API_KEY w) in
        if negb (isascii key) then
          (Raise (UnicodeEncodeError (describe (NotEncodable key))), w)
        else
          match AsyncClient with
          | Some message => (Raise (LibraryError message), w)
          | None =>
              let client :=
                {| api_key := key;
                   base_url :=
                     rstrip_with is_slash DEFAULT_BASE_URL ++ lit "/";
                   timeout := DEFAULT_TIMEOUT |} in
              (Return client,
               {| PYXIS_API_KEY := PYXIS_API_KEY w; _client := Some client;
                  issued := issued w |})
          end
      else
        (Raise (PyxisAuthError
                  (lit ("No API key provided. "
                        +:+ "Set PYXIS_API_KEY environment variable "
                        +:+ "or pass api_key parameter."))), w)
  end.
Proof.
  unfold get_client, __init__. destruct (_client w); [reflexivity|].
  cbn [opt_truthy]. destruct (opt_truthy (PYXIS_API_KEY w)); [|reflexivity].
  cbv zeta. destruct (negb (isascii (default [] (PYXIS_API_KEY w))));
    [reflexivity|].
  destruct AsyncClient; reflexivity.
Qed.

(** The five ways [get_client] goes: a client exists; the key is not ASCII;
    the library fails; a client is built; there is no key. *)
Ltac get_client_cases w :=
  rewrite ?(get_client_steps w);
  destruct (_client w) as [?client|] eqn:?Hclient;
  [|destruct (opt_truthy (PYXIS_API_KEY w)) eqn:?Hkey;
    [cbv zeta;
     destruct (negb (isascii (default [] (PYXIS_API_KEY w)))) eqn:?Hascii;
     [|destruct AsyncClient as [?message|] eqn:?Hlibrary]|]].

Lemma get_client_issued `{Platform} `{Network} (w : world) :
  issued (get_client w).2 = issued w.
Proof.
  rewrite get_client_steps. destruct (_client w); [reflexivity|].
  destruct (opt_truthy _); [|reflexivity]. cbv zeta.
  destruct (negb _); [reflexivity|]. destruct AsyncClient; reflexivity.
Qed.

Lemma get_client_credentials `{Platform} `{Network} (w : world) :
  match (get_client w).1 with
  | Return _ => has_credentials w = true
  | Raise _ => _client w = None
  end.
Proof.
  rewrite get_client_steps. unfold has_credentials.
  destruct (_client w); [reflexivity|].
  destruct (opt_truthy (PYXIS_API_KEY w)); [|reflexivity]. cbv zeta.
  destruct (negb _); [reflexivity|]. destruct AsyncClient; reflexivity.
Qed.

(** A [try] block that gets the client, fetches one endpoint and renders the
    response hands exactly that request to the HTTP library, and none when no
    client can be had. *)
Lemma fetch_sent `{Platform} `{Network} (endpoint : PyxisClient -> str)
    (params : option (gmap str param)) (render : json -> result str)
    (w : world) :
  sent_by (client <- get_client ;;
           response <- get client (endpoint client) params ;;
           lift (render response))%M w =
  match (get_client w).1 with
  | Return client =>
      [{| method := lit "GET";
          url := urljoin (base_url client)
                         (lstrip_with is_slash (endpoint client));
          params := params; json_data := None |}]
  | Raise _ => []
  end.
Proof.
  unfold sent_by, bind. pose proof (get_client_issued w) as Hissued.
  destruct (get_client w) as [[client | e] w1]; cbn in *.
  - unfold get.
    pose proof (make_request_world client (lit "GET") (endpoint client)
                  params None w1) as Hworld.
    destruct (_make_request client (lit "GET") (endpoint client) params
                None w1) as [[response | e] w2]; cbn in *; subst w2; cbn;
      rewrite Hissued, drop_app_length; reflexivity.
  - rewrite Hissued, drop_all. reflexivity.
Qed.

Lemma sent_by_handled `{Platform} `{Network} (context : string) (body : M str)
    (w : world) :
  sent_by (handled context body) w = sent_by body w.
Proof. unfold sent_by. rewrite handled_world. reflexivity. Qed.

Lemma sent_by_ret {A} (a : A) (w : world) : sent_by (ret a) w = [].
Proof. unfold sent_by, ret. cbn. apply drop_all. Qed.

(** ** The tool boundary *)

Lemma run_handled `{Platform} `{Network} (c : call) :
  run c = handled (context c) (try_block c).
Proof. destruct c as [[]| | | |]; reflexivity. Qed.

Lemma line_count_prefix (prefix message : str) :
  line_count prefix = 1%nat ->
  line_count (prefix ++ message) = line_count message.
Proof.
  unfold line_count. rewrite filter_app, length_app.
  intros Hone. injection Hone as ->. reflexivity.
Qed.

(** C2, as the code has it.  Every tool returns text and raises nothing.
    What its [try] block returns is returned as it is; an exception of the
    Pyxis classes ([PyxisError], [PyxisAuthError], [PyxisConnectionError])
    becomes the tool's own prefix followed by the message; any other
    exception becomes ["Unexpected error: "] followed by the message.  The
    prefix has no line break, so the text has as many lines as the message:
    one line exactly when the message is one line. *)
Theorem tools_return_text `{Platform} `{Network} (c : call) (w : world) :
  match try_block c w with
  | (Return text, w') => run c w = (Return text, w')
  | (Raise e, w') =>
      let prefix :=
        if is_PyxisError e then lit (context c)
        else lit "Unexpected error: " in
      run c w = (Return (prefix ++ exn_str e), w')
      /\ line_count (prefix ++ exn_str e) = line_count (exn_str e)
  end
  /\ exists text, (run c w).1 = Return text.
Proof.
  rewrite run_handled. split; [|apply handled_returns].
  unfold handled. destruct (try_block c w) as [[text | e] w'];
    [reflexivity|].
  destruct (is_PyxisError e); (split; [reflexivity|]);
    apply line_count_prefix.
  - destruct c as [[]| | | |]; vm_compute; reflexivity.
  - vm_compute. reflexivity.
Qed.

(** A status 502 with a two-line body that is not JSON: the text
    [search_images] returns spans two lines. *)
Lemma search_images_error_spans_lines :
  (@search_images Sample.platform (Sample.answering Sample.bad_gateway)
     (lit "ubi") [] [] false 20 Sample.fresh).1
  = Return (lit "Error searching images: "
            ++ lit "Request failed with status 502: Bad Gateway"
            ++ NEWLINE ++ lit "nginx")
  /\ line_count (lit "Error searching images: "
                 ++ lit "Request failed with status 502: Bad Gateway"
                 ++ NEWLINE ++ lit "nginx") = 2%nat.
Proof. split; vm_compute; reflexivity. Qed.

(** ** Query parameters *)

Ltac lit_neq :=
  let Heq := fresh "Heq" in
  intros Heq; vm_compute in Heq; discriminate Heq.

Lemma lookup_set_if_ne (key : string) (value : option str) (f : str -> param)
    (ps : gmap str param) (k : str) :
  lit key <> k -> set_if key value f ps !! k = ps !! k.
Proof.
  intros Hne. unfold set_if. destruct value as [s|]; [|reflexivity].
  destruct (nonempty s); [|reflexivity]. apply lookup_insert_ne, Hne.
Qed.

Lemma lookup_set_if_blank (key : string) (value : option str)
    (f : str -> param) (ps : gmap str param) :
  opt_truthy value = false -> set_if key value f ps = ps.
Proof.
  unfold set_if, opt_truthy. destruct value as [s|]; [|reflexivity].
  intros ->. reflexivity.
Qed.

(** Every search sends [min(page_size, 100)] as its page size. *)
Lemma search_images_params_page_size (query architecture registry : option str)
    (certified : option bool) (page page_size : Z) :
  search_images_params query architecture registry certified page page_size
    !! lit "page_size" = Some (PInt (Z.min page_size 100)).
Proof.
  unfold search_images_params.
  assert (Hinner :
    set_if "registry" registry PStr
      (set_if "architecture" architecture PStr
         (set_if "filter" query
            (fun q => PStr (lit "repositories.repository=match=" ++ q))
            (<[lit "page_size" := PInt (Z.min page_size 100)]>
               (<[lit "page" := PInt page]> ∅))))
      !! lit "page_size" = Some (PInt (Z.min page_size 100))).
  { rewrite !lookup_set_if_ne by lit_neq. apply lookup_insert_eq. }
  destruct certified as [b|]; [|exact Hinner].
  rewrite lookup_insert_ne by lit_neq. exact Hinner.
Qed.

Lemma search_certification_projects_params_page_size
    (query status : option str) (page page_size : Z) :
  search_certification_projects_params query status page page_size
    !! lit "page_size" = Some (PInt (Z.min page_size 100)).
Proof.
  unfold search_certification_projects_params.
  rewrite !lookup_set_if_ne by lit_neq. apply lookup_insert_eq.
Qed.

Lemma search_operators_params_page_size (query package : option str)
    (page page_size : Z) :
  search_operators_params query package page page_size
    !! lit "page_size" = Some (PInt (Z.min page_size 100)).
Proof.
  unfold search_operators_params.
  rewrite !lookup_set_if_ne by lit_neq. apply lookup_insert_eq.
Qed.

Lemma search_repositories_params_page_size (query registry : option str)
    (page page_size : Z) :
  search_repositories_params query registry page page_size
    !! lit "page_size" = Some (PInt (Z.min page_size 100)).
Proof.
  unfold search_repositories_params.
  rewrite !lookup_set_if_ne by lit_neq. apply lookup_insert_eq.
Qed.

(** No filter expression for a query that is absent or empty. *)
Lemma search_images_params_no_filter (query architecture registry : option str)
    (certified : option bool) (page page_size : Z) :
  opt_truthy query = false ->
  search_images_params query architecture registry certified page page_size
    !! lit "filter" = None.
Proof.
  intros Hblank. unfold search_images_params.
  rewrite (lookup_set_if_blank "filter") by exact Hblank.
  assert (Hinner :
    set_if "registry" registry PStr
      (set_if "architecture" architecture PStr
         (<[lit "page_size" := PInt (Z.min page_size 100)]>
            (<[lit "page" := PInt page]> ∅)))
      !! lit "filter" = None).
  { rewrite !lookup_set_if_ne by lit_neq.
    rewrite !lookup_insert_ne by lit_neq. apply lookup_empty. }
  destruct certified as [b|]; [|exact Hinner].
  rewrite lookup_insert_ne by lit_neq. exact Hinner.
Qed.

Lemma search_certification_projects_params_no_filter
    (query status : option str) (page page_size : Z) :
  opt_truthy query = false ->
  search_certification_projects_params query status page page_size
    !! lit "filter" = None.
Proof.
  intros Hblank. unfold search_certification_projects_params.
  rewrite (lookup_set_if_blank "filter") by exact Hblank.
  rewrite !lookup_set_if_ne by lit_neq.
  rewrite !lookup_insert_ne by lit_neq. apply lookup_empty.
Qed.

Lemma search_operators_params_no_filter (query package : option str)
    (page page_size : Z) :
  opt_truthy query = false ->
  search_operators_params query package page page_size
    !! lit "filter" = None.
Proof.
  intros Hblank. unfold search_operators_params.
  rewrite (lookup_set_if_blank "filter") by exact Hblank.
  rewrite !lookup_set_if_ne by lit_neq.
  rewrite !lookup_insert_ne by lit_neq. apply lookup_empty.
Qed.

Lemma search_repositories_params_no_filter (query registry : option str)
    (page page_size : Z) :
  opt_truthy query = false ->
  search_repositories_params query registry page page_size
    !! lit "filter" = None.
Proof.
  intros Hblank. unfold search_repositories_params.
  rewrite (lookup_set_if_blank "filter") by exact Hblank.
  rewrite !lookup_set_if_ne by lit_neq.
  rewrite !lookup_insert_ne by lit_neq. apply lookup_empty.
Qed.

(** The [certified] parameter is whatever the caller of the client method
    passed, when it passed one. *)
Lemma search_images_params_certified (query architecture registry : option str)
    (certified : option bool) (page page_size : Z) :
  search_images_params query architecture registry certified page page_size
    !! lit "certified" = PBool <$> certified.
Proof.
  unfold search_images_params. destruct certified as [b|]; cbn.
  - apply lookup_insert_eq.
  - rewrite !lookup_set_if_ne by lit_neq.
    rewrite !lookup_insert_ne by lit_neq. apply lookup_empty.
Qed.

(** A blank query cleans to nothing the client would filter on. *)
Lemma clean_blank (query : str) :
  forallb isspace query = true -> opt_truthy (clean query) = false.
Proof.
  intros Hblank. unfold clean.
  destruct (nonempty query); [|reflexivity].
  cbn. rewrite strip_blank by exact Hblank. reflexivity.
Qed.

Lemma clamp_cases (max_results : Z) :
  Z.min (clamp max_results) 100 =
  if 100 <? max_results then 100
  else if max_results <? 1 then 1 else max_results.
Proof.
  unfold clamp.
  destruct (100 <? max_results) eqn:Hhigh;
    [apply Z.ltb_lt in Hhigh | apply Z.ltb_ge in Hhigh].
  - lia.
  - destruct (max_results <? 1) eqn:Hlow;
      [apply Z.ltb_lt in Hlow | apply Z.ltb_ge in Hlow]; lia.
Qed.

(** ** What a search sends *)

(** A search tool hands the HTTP library one GET request, with the
    parameters its client method builds from the cleaned arguments and the
    clamped [max_results]; it hands it nothing when no client can be had. *)
Lemma search_sent `{Platform} `{Network} (s : search) (max_results : Z)
    (w : world) :
  let ps :=
    match s with
    | SearchImages query architecture registry certified =>
        search_images_params (clean query) (clean architecture)
          (clean registry) (if certified then Some certified else None)
          0 (clamp max_results)
    | SearchCertificationProjects query status =>
        search_certification_projects_params (clean query) (clean status)
          0 (clamp max_results)
    | SearchOperators query package =>
        search_operators_params (clean query) (clean package)
          0 (clamp max_results)
    | SearchRepositories query registry =>
        search_repositories_params (clean query) (clean registry)
          0 (clamp max_results)
    end in
  exists endpoint,
    sent_by (run (Search s max_results)) w =
    match (get_client w).1 with
    | Return client =>
        [{| method := lit "GET";
            url := urljoin (base_url client)
                           (lstrip_with is_slash endpoint);
            params := Some ps; json_data := None |}]
    | Raise _ => []
    end.
Proof.
  destruct s as [query architecture registry certified | query status
                | query package | query registry]; cbn [run].
  - exists (lit "images"). unfold search_images.
    rewrite sent_by_handled.
    exact (fetch_sent (fun _ => lit "images") _ search_images_render w).
  - exists (lit "projects/certification").
    unfold search_certification_projects. rewrite sent_by_handled.
    exact (fetch_sent (fun _ => lit "projects/certification") _
             search_certification_projects_render w).
  - exists (lit "operators"). unfold search_operators.
    rewrite sent_by_handled.
    exact (fetch_sent (fun _ => lit "operators") _
             search_operators_render w).
  - exists (lit "repositories"). unfold search_repositories.
    rewrite sent_by_handled.
    exact (fetch_sent (fun _ => lit "repositories") _
             search_repositories_render w).
Qed.

(** C4, as the code has it.  Whatever [max_results] a search tool is called
    with, the page size in the request it sends is 100 when the value
    exceeds 100, 1 when it is below 1, and the value itself otherwise; the
    value is never a reason not to send: a call that sends a request sends
    one for every other [max_results] too.  The search methods of the
    client, called directly, only cap: they send [min(page_size, 100)], so
    a value below 1 goes out as it is. *)
Theorem page_size_is_clamped `{Platform} `{Network} (s : search)
    (max_results : Z) (w : world) (request : Request) :
  sent_by (run (Search s max_results)) w = [request] ->
  let effective :=
    if 100 <? max_results then 100
    else if max_results <? 1 then 1 else max_results in
  (exists ps, params request = Some ps
              /\ ps !! lit "page_size" = Some (PInt effective))
  /\ (forall other : Z,
         length (sent_by (run (Search s other)) w) = 1%nat)
  /\ (forall (query second third : option str) (certified : option bool)
             (page page_size : Z),
         Forall (fun ps : gmap str param =>
                   ps !! lit "page_size" = Some (PInt (Z.min page_size 100)))
                [search_images_params query second third certified
                   page page_size;
                 search_certification_projects_params query second
                   page page_size;
                 search_operators_params query second page page_size;
                 search_repositories_params query second page page_size]).
Proof.
  intros Hsent effective.
  destruct (search_sent s max_results w) as [endpoint Hrequest].
  rewrite Hrequest in Hsent. split; [|split].
  - destruct ((get_client w).1) as [client | e]; [|discriminate Hsent].
    injection Hsent as <-. eexists. split; [reflexivity|].
    unfold effective. rewrite <- clamp_cases.
    destruct s; cbn;
      auto using search_images_params_page_size,
                 search_certification_projects_params_page_size,
                 search_operators_params_page_size,
                 search_repositories_params_page_size.
  - intros other. destruct (search_sent s other w) as [endpoint' ->].
    destruct ((get_client w).1) as [client | e];
      [reflexivity | discriminate Hsent].
  - intros query second third certified page page_size.
    repeat constructor;
      auto using search_images_params_page_size,
                 search_certification_projects_params_page_size,
                 search_operators_params_page_size,
                 search_repositories_params_page_size.
Qed.

(** C5, as the code has it.  When the free-text query of a search tool is
    empty or holds only white space, the request it sends carries no
    [filter] parameter.  The search methods of the client, called directly,
    leave the filter out for a query that is [None] or empty; they do not
    strip, so a query of white space only is sent as a filter. *)
Theorem blank_query_adds_no_filter `{Platform} `{Network} (s : search)
    (max_results : Z) (w : world) (request : Request) :
  forallb isspace (query_of s) = true ->
  sent_by (run (Search s max_results)) w = [request] ->
  (exists ps, params request = Some ps /\ ps !! lit "filter" = None)
  /\ (forall (query second third : option str) (certified : option bool)
             (page page_size : Z),
         opt_truthy query = false ->
         Forall (fun ps : gmap str param => ps !! lit "filter" = None)
                [search_images_params query second third certified
                   page page_size;
                 search_certification_projects_params query second
                   page page_size;
                 search_operators_params query second page page_size;
                 search_repositories_params query second page page_size]).
Proof.
  intros Hblank Hsent.
  destruct (search_sent s max_results w) as [endpoint Hrequest].
  rewrite Hrequest in Hsent. split.
  - destruct ((get_client w).1) as [client | e]; [|discriminate Hsent].
    injection Hsent as <-. eexists. split; [reflexivity|].
    apply clean_blank in Hblank.
    destruct s; cbn in *;
      auto using search_images_params_no_filter,
                 search_certification_projects_params_no_filter,
                 search_operators_params_no_filter,
                 search_repositories_params_no_filter.
  - intros query second third certified page page_size Hquery.
    repeat constructor;
      auto using search_images_params_no_filter,
                 search_certification_projects_params_no_filter,
                 search_operators_params_no_filter,
                 search_repositories_params_no_filter.
Qed.

(** C10.  The request [search_images] sends carries [certified = True] when
    the tool is called with [certified=True], and no [certified] parameter
    at all when it is called with [False], the default; so no call sends
    [certified = False]. *)
Theorem certified_filter_only_when_true `{Platform} `{Network}
    (query architecture registry : str) (certified : bool) (max_results : Z)
    (w : world) (request : Request) :
  sent_by (search_images query architecture registry certified max_results) w
  = [request] ->
  exists ps,
    params request = Some ps
    /\ ps !! lit "certified" = (if certified then Some (PBool true) else None)
    /\ ps !! lit "certified" <> Some (PBool false).
Proof.
  intros Hsent.
  destruct (search_sent (SearchImages query architecture registry certified)
              max_results w) as [endpoint Hrequest].
  cbn [run] in Hrequest. rewrite Hrequest in Hsent. clear Hrequest.
  destruct ((get_client w).1) as [client | e]; [|discriminate Hsent].
  injection Hsent as <-. eexists. split; [reflexivity|].
  rewrite search_images_params_certified.
  destruct certified; cbn; split; congruence.
Qed.

(** ** The vulnerability listing *)

Lemma group_of_snoc (group : list Vulnerability.t) (vuln : Vulnerability.t) :
  group_of (group ++ [vuln]) = Some (group ++ [vuln]).
Proof. destruct group; reflexivity. Qed.

Lemma group_by_severity_snoc (vulns : list Vulnerability.t)
    (vuln : Vulnerability.t) :
  group_by_severity (vulns ++ [vuln]) =
  let severity_groups := group_by_severity vulns in
  alter (fun group => group ++ [vuln]) (severity_key vuln)
    match severity_groups !! severity_key vuln with
    | None => <[severity_key vuln := []]> severity_groups
    | Some _ => severity_groups
    end.
Proof. unfold group_by_severity. rewrite fold_left_app. reflexivity. Qed.

(** The grouping loop files each entry under its own severity and keeps the
    input order. *)
Lemma group_by_severity_lookup (vulns : list Vulnerability.t) (label : str) :
  group_by_severity vulns !! label = group_of (entries_under label vulns).
Proof.
  induction vulns as [|vuln vulns IH] using rev_ind.
  - reflexivity.
  - rewrite group_by_severity_snoc. cbn zeta. unfold entries_under in *.
    rewrite filter_app, filter_cons, filter_nil.
    destruct (decide (severity_key vuln = label)) as [<- | Hother].
    + rewrite group_of_snoc, lookup_alter_eq.
      destruct (group_by_severity vulns !! severity_key vuln)
        as [group|] eqn:Hgroup.
      * cbn.
        destruct (filter _ vulns); [discriminate IH|].
        injection IH as ->. rewrite Hgroup. reflexivity.
      * rewrite lookup_insert_eq. cbn.
        destruct (filter _ vulns); [reflexivity | discriminate IH].
    + rewrite app_nil_r, lookup_alter_ne by exact Hother.
      destruct (group_by_severity vulns !! severity_key vuln);
        [exact IH|].
      rewrite lookup_insert_ne by exact Hother. exact IH.
Qed.





(** The listing of the specification's example: severities High, Critical,
    Low, Critical. *)
Example severity_listing_example :
  severity_lines
    [Sample.vuln_of "CVE-1" "High"; Sample.vuln_of "CVE-2" "Critical";
     Sample.vuln_of "CVE-3" "Low"; Sample.vuln_of "CVE-4" "Critical"]
  = [lit "Critical Severity (2):";
     lit "  " ++ BULLET ++ lit " CVE-2 - Critical";
     lit "  " ++ BULLET ++ lit " CVE-4 - Critical";
     [];
     lit "High Severity (1):";
     lit "  " ++ BULLET ++ lit " CVE-1 - High";
     [];
     lit "Low Severity (1):";
     lit "  " ++ BULLET ++ lit " CVE-3 - Low";
     []].
Proof. vm_compute. reflexivity. Qed.

(** An entry whose severity is none of the five labels is counted in the
    heading of the report and appears nowhere in the listing. *)
Example severity_listing_drops_moderate :
  severity_lines
    [Sample.vuln_of "CVE-1" "Moderate"; Sample.vuln_of "CVE-2" "High"]
  = [lit "High Severity (1):";
     lit "  " ++ BULLET ++ lit " CVE-2 - High";
     []].
Proof. vm_compute. reflexivity. Qed.

(** ** The one-line image summary *)

Lemma repo_strs_named (repositories : list Repository.t) :
  repo_strs repositories = omap named_pair (take 3 repositories).
Proof.
  unfold repo_strs.
  assert (Hloop : forall (repos : list Repository.t) (acc : list str),
    fold_left
      (fun repo_strs repo =>
         match Repository.registry repo, Repository.repository repo with
         | Some registry, Some repository =>
             if nonempty registry && nonempty repository
             then repo_strs ++ [registry ++ lit "/" ++ repository]
             else repo_strs
         | _, _ => repo_strs
         end) repos acc
    = acc ++ omap named_pair repos).
  { induction repos as [|repo repos IH]; intros acc; cbn [fold_left].
    - symmetry. apply app_nil_r.
    - rewrite IH.
      change (omap named_pair (repo :: repos))
        with (match named_pair repo with
              | Some shown => shown :: omap named_pair repos
              | None => omap named_pair repos
              end).
      unfold named_pair at 2.
      destruct (Repository.registry repo) as [registry|];
        [|reflexivity].
      destruct (Repository.repository repo) as [repository|];
        [|reflexivity].
      destruct (nonempty registry && nonempty repository);
        [|reflexivity].
      rewrite <- app_assoc. reflexivity. }
  apply (Hloop (take 3 repositories) []).
Qed.

Lemma omap_length_le {A B} (f : A -> option B) (l : list A) :
  (length (omap f l) <= length l)%nat.
Proof.
  induction l as [|a l IH]; cbn; [lia|]. destruct (f a); cbn; lia.
Qed.

(** C7, as the code has it.  The summary is the image identity; then, in
    parentheses, the pairs of those among the first three repositories that
    have both a registry and a repository name (so at most three pairs),
    followed by [+N more], [N] being the number of repositories less three,
    when there are more than three repositories; nothing at all when none of
    the first three has both names; then the architecture in brackets when
    it is known; then the certified or not-certified marker.  An image with
    four repositories of which the first three have both names shows exactly
    those three pairs and [+1 more]. *)
Theorem format_image_summary_shape :
  (forall image : ContainerImage.t,
      let repositories := default [] (ContainerImage.repositories image) in
      let pairs := omap named_pair (take 3 repositories) in
      (length pairs <= 3)%nat
      /\ format_image_summary image =
         ContainerImage.id image
         ++ match pairs with
            | [] => []
            | _ :: _ =>
                lit " (" ++ join (lit ", ") pairs ++ lit ")"
                ++ (if 3 <? len repositories
                    then lit " +" ++ str_of_Z (len repositories - 3)
                         ++ lit " more"
                    else [])
            end
         ++ match ContainerImage.architecture image with
            | Some architecture =>
                if nonempty architecture
                then lit " [" ++ architecture ++ lit "]"
                else []
            | None => []
            end
         ++ lit " - "
         ++ (if is_true (ContainerImage.certified image)
             then CHECK_MARK ++ lit " Certified"
             else WARNING_SIGN ++ lit " Not Certified"))
  /\ (forall (image : ContainerImage.t) (r1 r2 r3 r4 : Repository.t)
             (p1 p2 p3 : str),
         ContainerImage.repositories image = Some [r1; r2; r3; r4] ->
         named_pair r1 = Some p1 ->
         named_pair r2 = Some p2 ->
         named_pair r3 = Some p3 ->
         exists rest,
           format_image_summary image =
           ContainerImage.id image
           ++ lit " (" ++ p1 ++ lit ", " ++ p2 ++ lit ", " ++ p3
           ++ lit ") +1 more" ++ rest).
Proof.
  assert (Hshape : forall image : ContainerImage.t,
    let repositories := default [] (ContainerImage.repositories image) in
    let pairs := omap named_pair (take 3 repositories) in
    format_image_summary image =
    ContainerImage.id image
    ++ match pairs with
       | [] => []
       | _ :: _ =>
           lit " (" ++ join (lit ", ") pairs ++ lit ")"
           ++ (if 3 <? len repositories
               then lit " +" ++ str_of_Z (len repositories - 3)
                    ++ lit " more"
               else [])
       end
    ++ match ContainerImage.architecture image with
       | Some architecture =>
           if nonempty architecture
           then lit " [" ++ architecture ++ lit "]"
           else []
       | None => []
       end
    ++ lit " - "
    ++ (if is_true (ContainerImage.certified image)
        then CHECK_MARK ++ lit " Certified"
        else WARNING_SIGN ++ lit " Not Certified")).
  { intros image repositories pairs. unfold format_image_summary.
    f_equal. f_equal. subst pairs repositories.
    destruct (ContainerImage.repositories image) as [repositories|];
      [|reflexivity].
    change (default [] (Some repositories)) with repositories.
    rewrite repo_strs_named.
    destruct repositories as [|repo repositories]; [reflexivity|].
    cbn [nonempty].
    destruct (omap named_pair (take 3 (repo :: repositories)));
      [reflexivity|].
    cbn [nonempty]. rewrite Z.gtb_ltb.
    destruct (3 <? len (repo :: repositories));
      rewrite <- ?app_assoc; reflexivity. }
  split.
  - intros image repositories pairs. split; [|apply Hshape].
    subst pairs. etransitivity; [apply omap_length_le|].
    rewrite length_take. lia.
  - intros image r1 r2 r3 r4 p1 p2 p3 Hrepos Hp1 Hp2 Hp3.
    rewrite Hshape, Hrepos.
    change (default [] (Some [r1; r2; r3; r4])) with [r1; r2; r3; r4].
    change (take 3 [r1; r2; r3; r4]) with [r1; r2; r3].
    change (omap named_pair [r1; r2; r3])
      with (match named_pair r1 with
            | Some shown => shown :: omap named_pair [r2; r3]
            | None => omap named_pair [r2; r3]
            end).
    rewrite Hp1.
    change (omap named_pair [r2; r3])
      with (match named_pair r2 with
            | Some shown => shown :: omap named_pair [r3]
            | None => omap named_pair [r3]
            end).
    rewrite Hp2.
    change (omap named_pair [r3])
      with (match named_pair r3 with
            | Some shown => [shown]
            | None => []
            end).
    rewrite Hp3. cbn [join].
    change (3 <? len [r1; r2; r3; r4]) with true. cbn iota.
    change (str_of_Z (len [r1; r2; r3; r4] - 3)) with (lit "1").
    eexists. rewrite <- !app_assoc. do 6 f_equal.
Qed.

Lemma format_image_summary_shape_witness :
  (ContainerImage.repositories Sample.four_named =
   Some [Sample.named "registry.redhat.io" "ubi8";
         Sample.named "registry.redhat.io" "ubi9";
         Sample.named "quay.io" "ubi8"; Sample.named "quay.io" "ubi9"]
   /\ named_pair (Sample.named "registry.redhat.io" "ubi8")
      = Some (lit "registry.redhat.io/ubi8")
   /\ named_pair (Sample.named "registry.redhat.io" "ubi9")
      = Some (lit "registry.redhat.io/ubi9")
   /\ named_pair (Sample.named "quay.io" "ubi8") = Some (lit "quay.io/ubi8"))
  /\ exists rest,
       format_image_summary Sample.four_named =
       ContainerImage.id Sample.four_named
       ++ lit " (" ++ lit "registry.redhat.io/ubi8" ++ lit ", "
       ++ lit "registry.redhat.io/ubi9" ++ lit ", " ++ lit "quay.io/ubi8"
       ++ lit ") +1 more" ++ rest.
Proof.
  split.
  - repeat split; reflexivity.
  - apply (proj2 format_image_summary_shape Sample.four_named
             (Sample.named "registry.redhat.io" "ubi8")
             (Sample.named "registry.redhat.io" "ubi9")
             (Sample.named "quay.io" "ubi8")
             (Sample.named "quay.io" "ubi9")); reflexivity.
Defined.

(** The summary of the image with four named repositories. *)
Example format_image_summary_four_named :
  format_image_summary Sample.four_named =
  lit "img (registry.redhat.io/ubi8, registry.redhat.io/ubi9, quay.io/ubi8)"
  ++ lit " +1 more - " ++ WARNING_SIGN ++ lit " Not Certified".
Proof. vm_compute. reflexivity. Qed.

(** An image with four repositories, none of which has a registry or a
    repository name: the summary shows no pair and no [+1 more]. *)
Lemma format_image_summary_four_unnamed :
  len (default [] (ContainerImage.repositories Sample.four_unnamed)) = 4
  /\ format_image_summary Sample.four_unnamed =
     lit "img - " ++ WARNING_SIGN ++ lit " Not Certified"
  /\ ~ occurs_in (lit "+1 more") (format_image_summary Sample.four_unnamed).
Proof.
  split; [reflexivity|]. split; [vm_compute; reflexivity|].
  apply not_occurs_in. vm_compute. reflexivity.
Qed.

(** ** Answers *)

Lemma make_request_answered `{Platform} `{Network} (self : PyxisClient)
    (method endpoint : str) (params : option (gmap str param))
    (json_data : option json) (w : world) (response : Response) (v : json) :
  send {| method := method;
          url := urljoin (base_url self) (lstrip_with is_slash endpoint);
          params := params; json_data := json_data |} = Responds response ->
  status_code response < 400 ->
  json_body response = inr v ->
  (_make_request self method endpoint params json_data w).1 = Return v.
Proof.
  intros Hsend Hstatus Hbody. unfold _make_request. rewrite Hsend.
  replace (status_code response =? 401) with false
    by (symmetry; apply Z.eqb_neq; lia).
  replace (status_code response >=? 400) with false
    by (symmetry; rewrite Z.geb_leb; apply Z.leb_gt; lia).
  rewrite Hbody. reflexivity.
Qed.

(** A [try] block that gets the client, fetches one endpoint and renders the
    response returns what the rendering makes of a successful answer. *)
Lemma fetch_answered `{Platform} `{Network} (endpoint : PyxisClient -> str)
    (params : option (gmap str param)) (render : json -> result str)
    (w : world) (request : Request) (response : Response) (v : json) :
  let body :=
    (client <- get_client ;;
     response <- get client (endpoint client) params ;;
     lift (render response))%M in
  sent_by body w = [request] ->
  send request = Responds response ->
  status_code response < 400 ->
  json_body response = inr v ->
  (body w).1 = render v.
Proof.
  intros body Hsent Hsend Hstatus Hbody. subst body.
  rewrite fetch_sent in Hsent. unfold bind.
  destruct (get_client w) as [[client | e] w1]; cbn in Hsent;
    [|discriminate Hsent].
  injection Hsent as <-. unfold get.
  pose proof (make_request_answered client (lit "GET") (endpoint client)
                params None w1 response v Hsend Hstatus Hbody) as Hanswer.
  destruct (_make_request client (lit "GET") (endpoint client) params None
              w1) as [r w2].
  cbn in Hanswer. subst r. reflexivity.
Qed.

Lemma handled_return `{Platform} `{Network} (context : string) (body : M str)
    (w : world) (text : str) :
  (body w).1 = Return text -> (handled context body w).1 = Return text.
Proof.
  unfold handled. destruct (body w) as [r w']. cbn. intros ->. reflexivity.
Qed.

Lemma handled_unexpected `{Platform} `{Network} (context : string)
    (body : M str) (w : world) (e : exn) :
  (body w).1 = Raise e ->
  is_PyxisError e = false ->
  (handled context body w).1 =
  Return (lit "Unexpected error: " ++ exn_str e).
Proof.
  unfold handled. destruct (body w) as [r w']. cbn. intros -> ->.
  reflexivity.
Qed.

(** ** Empty results *)

Lemma search_images_render_empty `{Platform} (d : list (str * json)) :
  dict_get d (lit "data") = Some (JList []) ->
  search_images_render (JDict d) =
  Return (lit "No images found matching the specified criteria.").
Proof.
  intros Hdata. unfold search_images_render, dot_get, and_then.
  rewrite Hdata. reflexivity.
Qed.

Lemma search_certification_projects_render_empty `{Platform}
    (d : list (str * json)) :
  dict_get d (lit "data") = Some (JList []) ->
  search_certification_projects_render (JDict d) =
  Return (lit ("No certification projects found matching "
               +:+ "the specified criteria.")).
Proof.
  intros Hdata.
  unfold search_certification_projects_render, dot_get, and_then.
  rewrite Hdata. reflexivity.
Qed.

Lemma search_operators_render_empty `{Platform} (d : list (str * json)) :
  dict_get d (lit "data") = Some (JList []) ->
  search_operators_render (JDict d) =
  Return (lit "No operators found matching the specified criteria.").
Proof.
  intros Hdata. unfold search_operators_render, dot_get, and_then.
  rewrite Hdata. reflexivity.
Qed.

Lemma search_repositories_render_empty `{Platform} (d : list (str * json)) :
  dict_get d (lit "data") = Some (JList []) ->
  search_repositories_render (JDict d) =
  Return (lit "No repositories found matching the specified criteria.").
Proof.
  intros Hdata. unfold search_repositories_render, dot_get, and_then.
  rewrite Hdata. reflexivity.
Qed.

(** C8.  When the backend answers a search with a success whose decoded body
    is an object with an empty [data] list, the tool returns exactly the
    sentence [No <kind> found matching the specified criteria.] and nothing
    else. *)
Theorem empty_search_says_none_found `{Platform} `{Network} (s : search)
    (max_results : Z) (w : world) (request : Request) (response : Response)
    (d : list (str * json)) :
  sent_by (run (Search s max_results)) w = [request] ->
  send request = Responds response ->
  status_code response < 400 ->
  json_body response = inr (JDict d) ->
  dict_get d (lit "data") = Some (JList []) ->
  (run (Search s max_results) w).1 =
  Return (lit "No " ++ lit (kind s)
          ++ lit " found matching the specified criteria.").
Proof.
  intros Hsent Hsend Hstatus Hbody Hdata.
  destruct s as [query architecture registry certified | query status
                | query package | query registry];
    cbn [run kind] in *.
  - unfold search_images in *. rewrite sent_by_handled in Hsent.
    apply handled_return.
    transitivity (search_images_render (JDict d)).
    + exact (fetch_answered (fun _ => lit "images") _
               search_images_render
               w request response (JDict d) Hsent Hsend Hstatus Hbody).
    + rewrite (search_images_render_empty d Hdata).
      vm_compute. reflexivity.
  - unfold search_certification_projects in *.
    rewrite sent_by_handled in Hsent. apply handled_return.
    transitivity (search_certification_projects_render (JDict d)).
    + exact (fetch_answered (fun _ => lit "projects/certification") _
               search_certification_projects_render
               w request response (JDict d) Hsent Hsend Hstatus Hbody).
    + rewrite (search_certification_projects_render_empty d Hdata).
      vm_compute. reflexivity.
  - unfold search_operators in *. rewrite sent_by_handled in Hsent.
    apply handled_return.
    transitivity (search_operators_render (JDict d)).
    + exact (fetch_answered (fun _ => lit "operators") _
               search_operators_render
               w request response (JDict d) Hsent Hsend Hstatus Hbody).
    + rewrite (search_operators_render_empty d Hdata).
      vm_compute. reflexivity.
  - unfold search_repositories in *. rewrite sent_by_handled in Hsent.
    apply handled_return.
    transitivity (search_repositories_render (JDict d)).
    + exact (fetch_answered (fun _ => lit "repositories") _
               search_repositories_render
               w request response (JDict d) Hsent Hsend Hstatus Hbody).
    + rewrite (search_repositories_render_empty d Hdata).
      vm_compute. reflexivity.
Qed.

Lemma empty_search_says_none_found_witness :
  let run_ubi :=
    @run Sample.platform (Sample.answering Sample.empty_page)
         (Search Sample.ubi 20) in
  let request :=
    Sample.get_request "images"
      (Some (search_images_params (Some (lit "ubi")) None None None 0 20)) in
  (@sent_by str run_ubi Sample.fresh = [request]
   /\ @send (Sample.answering Sample.empty_page) request
      = Responds Sample.empty_page
   /\ status_code Sample.empty_page < 400)
  /\ (run_ubi Sample.fresh).1 =
     Return (lit "No " ++ lit (kind Sample.ubi)
             ++ lit " found matching the specified criteria.").
Proof.
  split.
  - split; [vm_compute; reflexivity|]. split; [reflexivity|reflexivity].
  - apply (@empty_search_says_none_found Sample.platform
             (Sample.answering Sample.empty_page) Sample.ubi 20 Sample.fresh
             (Sample.get_request "images"
                (Some (search_images_params (Some (lit "ubi")) None None None
                         0 20)))
             Sample.empty_page
             [(lit "data", JList []); (lit "total", JInt 0);
              (lit "page", JInt 0); (lit "page_size", JInt 20)]).
    + vm_compute. reflexivity.
    + reflexivity.
    + reflexivity.
    + reflexivity.
    + reflexivity.
Defined.

Lemma blank_query_adds_no_filter_witness :
  let tool :=
    @run Sample.platform (Sample.answering Sample.empty_page)
         (Search Sample.blank 20) in
  let request :=
    Sample.get_request "images"
      (Some (search_images_params None None None None 0 20)) in
  (forallb isspace (query_of Sample.blank) = true
   /\ @sent_by str tool Sample.fresh = [request])
  /\ (exists ps, params request = Some ps /\ ps !! lit "filter" = None)
  /\ (forall (query second third : option str) (certified : option bool)
             (page page_size : Z),
         opt_truthy query = false ->
         Forall (fun ps : gmap str param => ps !! lit "filter" = None)
                [search_images_params query second third certified
                   page page_size;
                 search_certification_projects_params query second
                   page page_size;
                 search_operators_params query second page page_size;
                 search_repositories_params query second page page_size]).
Proof.
  cbv zeta. split; [split; vm_compute; reflexivity|].
  apply (@blank_query_adds_no_filter Sample.platform
           (Sample.answering Sample.empty_page) Sample.blank 20 Sample.fresh).
  - reflexivity.
  - vm_compute. reflexivity.
Defined.

(** The client method on its own filters on a query of white space. *)
Lemma client_filters_on_blank_query :
  let ps := search_images_params (Some (lit "  ")) None None None 0 20 in
  forallb isspace (lit "  ") = true
  /\ sent_by (@Client.search_images Sample.platform Sample.timing_out
                Sample.client (Some (lit "  ")) None None None 0 20)
             Sample.fresh
     = [Sample.get_request "images" (Some ps)]
  /\ ps !! lit "filter"
     = Some (PStr (lit "repositories.repository=match=  ")).
Proof. repeat split; vm_compute; reflexivity. Qed.

Lemma page_size_is_clamped_witness :
  let tool :=
    @run Sample.platform (Sample.answering Sample.empty_page)
         (Search Sample.ubi 500) in
  let request :=
    Sample.get_request "images"
      (Some (search_images_params (Some (lit "ubi")) None None None 0 100)) in
  @sent_by str tool Sample.fresh = [request]
  /\ (exists ps, params request = Some ps
                 /\ ps !! lit "page_size" = Some (PInt 100))
  /\ (forall other : Z,
         length (sent_by (@run Sample.platform
                            (Sample.answering Sample.empty_page)
                            (Search Sample.ubi other)) Sample.fresh)
         = 1%nat)
  /\ (forall (query second third : option str) (certified : option bool)
             (page page_size : Z),
         Forall (fun ps : gmap str param =>
                   ps !! lit "page_size" = Some (PInt (Z.min page_size 100)))
                [search_images_params query second third certified
                   page page_size;
                 search_certification_projects_params query second
                   page page_size;
                 search_operators_params query second page page_size;
                 search_repositories_params query second page page_size]).
Proof.
  cbv zeta. split; [vm_compute; reflexivity|].
  apply (@page_size_is_clamped Sample.platform
           (Sample.answering Sample.empty_page) Sample.ubi 500 Sample.fresh).
  vm_compute. reflexivity.
Defined.

(** The client method on its own sends a page size below 1 as it is. *)
Lemma client_sends_page_size_below_one :
  let ps := search_images_params None None None None 0 0 in
  sent_by (@Client.search_images Sample.platform Sample.timing_out
             Sample.client None None None None 0 0) Sample.fresh
  = [Sample.get_request "images" (Some ps)]
  /\ ps !! lit "page_size" = Some (PInt 0)
  /\ ps !! lit "page_size" <> Some (PInt 1).
Proof.
  split; [vm_compute; reflexivity|].
  assert (Hzero : search_images_params None None None None 0 0
                    !! lit "page_size" = Some (PInt 0))
    by (vm_compute; reflexivity).
  cbv zeta. rewrite Hzero. split; [reflexivity | discriminate].
Qed.

Lemma certified_filter_only_when_true_witness :
  let request :=
    Sample.get_request "images"
      (Some (search_images_params (Some (lit "ubi")) None None None 0 20)) in
  sent_by (@search_images Sample.platform
             (Sample.answering Sample.empty_page) (lit "ubi") [] [] false 20)
          Sample.fresh
  = [request]
  /\ exists ps,
       params request = Some ps
       /\ ps !! lit "certified" = None
       /\ ps !! lit "certified" <> Some (PBool false).
Proof.
  cbv zeta. split; [vm_compute; reflexivity|].
  apply (@certified_filter_only_when_true Sample.platform
           (Sample.answering Sample.empty_page) (lit "ubi") [] [] false 20
           Sample.fresh).
  vm_compute. reflexivity.
Defined.

(** ** Validation *)

Lemma identity_missing `{Platform} (d : list (str * json)) :
  dict_get d (lit "_id") = None ->
  dict_get d (lit "id") = None ->
  identity d = None.
Proof.
  intros Halias Hname. unfold identity. rewrite Halias, Hname.
  destruct population_by_field_name; reflexivity.
Qed.

(** A [try] block that returns early or else gets the client, fetches one
    endpoint and renders the response: when it hands a request to the HTTP
    library and the answer is a success, it returns what the rendering makes
    of the decoded body. *)
Lemma guarded_fetch_answered `{Platform} `{Network} (early : bool)
    (excuse : str) (endpoint : PyxisClient -> str)
    (params : option (gmap str param)) (render : json -> result str)
    (w : world) (request : Request) (response : Response) (v : json) :
  let body :=
    (if early then ret excuse
     else
       client <- get_client ;;
       response <- get client (endpoint client) params ;;
       lift (render response))%M in
  sent_by body w = [request] ->
  send request = Responds response ->
  status_code response < 400 ->
  json_body response = inr v ->
  (body w).1 = render v.
Proof.
  intros body Hsent Hsend Hstatus Hbody. subst body. destruct early.
  - rewrite sent_by_ret in Hsent. discriminate Hsent.
  - exact (fetch_answered endpoint params render
             w request response v Hsent Hsend Hstatus Hbody).
Qed.

(** C9.  Each entity with an identity field is constructed from an object
    that holds only [_id], every other field being absent; [Repository] and
    [Vulnerability], which have no required field, likewise.  From an object
    without the identity field the construction raises pydantic's
    [ValidationError], which is none of the Pyxis errors; the details tool
    that meets it returns the text ["Unexpected error: "] followed by its
    message. *)
Theorem identity_field_validation `{Platform} `{Network} :
  (forall identity : str,
      let only_id := [(lit "_id", JStr identity)] in
      ContainerImage.new (JDict only_id) =
      Return (ContainerImage.mk identity None None None None None None None
                None None None None None None None None None)
      /\ CertificationProject.new (JDict only_id) =
         Return (CertificationProject.mk identity None None None None None
                   None None None None None None None)
      /\ OperatorBundle.new (JDict only_id) =
         Return (OperatorBundle.mk identity None None None None None None
                   None None None None None None)
      /\ Repository.validate only_id =
         Some (Repository.mk None None None None None)
      /\ Vulnerability.validate only_id =
         Some (Vulnerability.mk None None None None None None None None
                 None None None))
  /\ (forall d : list (str * json),
         dict_get d (lit "_id") = None ->
         dict_get d (lit "id") = None ->
         ContainerImage.new (JDict d) =
         Raise (ValidationError (describe (Invalid "ContainerImage" d)))
         /\ CertificationProject.new (JDict d) =
            Raise (ValidationError
                     (describe (Invalid "CertificationProject" d)))
         /\ OperatorBundle.new (JDict d) =
            Raise (ValidationError (describe (Invalid "OperatorBundle" d))))
  /\ (forall msg : str, is_PyxisError (ValidationError msg) = false)
  /\ (forall (c : call) (model : string) (w : world) (request : Request)
             (response : Response) (d : list (str * json)),
         entity_of c = Some model ->
         sent_by (run c) w = [request] ->
         send request = Responds response ->
         status_code response < 400 ->
         json_body response = inr (JDict d) ->
         dict_get d (lit "_id") = None ->
         dict_get d (lit "id") = None ->
         (run c w).1 =
         Return (lit "Unexpected error: " ++ describe (Invalid model d))).
Proof.
  assert (Hmissing : forall d : list (str * json),
    dict_get d (lit "_id") = None ->
    dict_get d (lit "id") = None ->
    ContainerImage.new (JDict d) =
    Raise (ValidationError (describe (Invalid "ContainerImage" d)))
    /\ CertificationProject.new (JDict d) =
       Raise (ValidationError (describe (Invalid "CertificationProject" d)))
    /\ OperatorBundle.new (JDict d) =
       Raise (ValidationError (describe (Invalid "OperatorBundle" d)))).
  { intros d Halias Hname.
    pose proof (identity_missing d Halias Hname) as Hidentity.
    unfold ContainerImage.new, CertificationProject.new, OperatorBundle.new,
      construct, ContainerImage.validate, CertificationProject.validate,
      OperatorBundle.validate.
    rewrite Hidentity. repeat split; reflexivity. }
  split; [|split; [exact Hmissing|split; [reflexivity|]]].
  - intros identity only_id. subst only_id.
    repeat split; vm_compute; reflexivity.
  - intros c model w request response d Hmodel Hsent Hsend Hstatus Hbody
      Halias Hname.
    destruct (Hmissing d Halias Hname) as (Himage & Hproject & Hoperator).
    destruct c as [s n | image_id | image_id n | project_id | operator_id];
      try discriminate Hmodel; injection Hmodel as <-; cbn [run] in *.
    + unfold get_image_details in *. rewrite sent_by_handled in Hsent.
      change (describe (Invalid "ContainerImage" d))
        with (exn_str (ValidationError
                         (describe (Invalid "ContainerImage" d)))).
      apply handled_unexpected; [|reflexivity].
      transitivity (get_image_details_render (JDict d));
        [|unfold get_image_details_render; rewrite Himage; reflexivity].
      exact (guarded_fetch_answered _ _
               (fun _ => lit "images/" ++ strip image_id) None
               get_image_details_render
               w request response (JDict d) Hsent Hsend Hstatus Hbody).
    + unfold get_certification_project_details in *.
      rewrite sent_by_handled in Hsent.
      change (describe (Invalid "CertificationProject" d))
        with (exn_str (ValidationError
                         (describe (Invalid "CertificationProject" d)))).
      apply handled_unexpected; [|reflexivity].
      transitivity (get_certification_project_details_render (JDict d));
        [|unfold get_certification_project_details_render;
          rewrite Hproject; reflexivity].
      exact (guarded_fetch_answered _ _
               (fun _ => lit "projects/certification/" ++ strip project_id)
               None get_certification_project_details_render
               w request response (JDict d) Hsent Hsend Hstatus Hbody).
    + unfold get_operator_details in *. rewrite sent_by_handled in Hsent.
      change (describe (Invalid "OperatorBundle" d))
        with (exn_str (ValidationError
                         (describe (Invalid "OperatorBundle" d)))).
      apply handled_unexpected; [|reflexivity].
      transitivity (get_operator_details_render (JDict d));
        [|unfold get_operator_details_render; rewrite Hoperator; reflexivity].
      exact (guarded_fetch_answered _ _
               (fun _ => lit "operators/" ++ strip operator_id) None
               get_operator_details_render
               w request response (JDict d) Hsent Hsend Hstatus Hbody).
Qed.

Lemma identity_field_validation_witness :
  let backend := Sample.answering (Sample.ok (JDict Sample.nameless)) in
  let details := @run Sample.platform backend (GetImageDetails (lit "abc")) in
  (dict_get Sample.nameless (lit "_id") = None
   /\ dict_get Sample.nameless (lit "id") = None
   /\ @sent_by str details Sample.fresh
      = [Sample.get_request "images/abc" None])
  /\ @ContainerImage.new Sample.platform (JDict Sample.nameless) =
     Raise (ValidationError (lit "<message>"))
  /\ (details Sample.fresh).1 =
     Return (lit "Unexpected error: " ++ lit "<message>").
Proof.
  split; [repeat split; vm_compute; reflexivity|]. split.
  - apply (proj1 (proj2 (@identity_field_validation Sample.platform
                           (Sample.answering
                              (Sample.ok (JDict Sample.nameless)))))
             Sample.nameless); reflexivity.
  - apply (proj2 (proj2 (proj2 (@identity_field_validation Sample.platform
                                  (Sample.answering
                                     (Sample.ok (JDict Sample.nameless))))))
             (GetImageDetails (lit "abc")) "ContainerImage" Sample.fresh
             (Sample.get_request "images/abc" None)
             (Sample.ok (JDict Sample.nameless)) Sample.nameless);
      first [reflexivity | vm_compute; reflexivity].
Defined.

(** ** The request primitive on concrete answers *)

(** A status 500 whose body is the JSON object [{}], which has neither a
    [detail] nor a [message] field: the message ends with the status code
    and holds nothing of the body. *)
Lemma make_request_drops_plain_error_body :
  let result :=
    (@_make_request Sample.platform (Sample.answering Sample.failing_plainly)
       Sample.client (lit "GET") (lit "images") None None Sample.fresh).1 in
  status_code Sample.failing_plainly = 500
  /\ json_body Sample.failing_plainly = inr (JDict [])
  /\ result = Raise (PyxisError (lit "Request failed with status 500"))
  /\ ~ occurs_in (text Sample.failing_plainly)
                 (lit "Request failed with status 500").
Proof.
  repeat split; try (vm_compute; reflexivity).
  apply not_occurs_in. vm_compute. reflexivity.
Qed.

(** The examples of the specification: a 401, a timeout, and a status 500
    with [detail] set to [boom]. *)
Example make_request_401 :
  (@_make_request Sample.platform
     (Sample.answering {| status_code := 401; text := [];
                          json_body := inl (lit "no body") |})
     Sample.client (lit "GET") (lit "images") None None Sample.fresh).1
  = Raise (PyxisAuthError (lit "Authentication failed. Check your API key.")).
Proof. vm_compute. reflexivity. Qed.

Example make_request_timeout :
  (@_make_request Sample.platform Sample.timing_out
     Sample.client (lit "GET") (lit "images") None None Sample.fresh).1
  = Raise (PyxisConnectionError
             (lit "Request to https://catalog.redhat.com/api/containers/v1/"
              ++ lit "images timed out after 30.0s")).
Proof. vm_compute. reflexivity. Qed.

Example make_request_500_boom :
  (@_make_request Sample.platform
     (Sample.answering
        {| status_code := 500; text := lit "<body>";
           json_body := inr (JDict [(lit "detail", JStr (lit "boom"))]) |})
     Sample.client (lit "GET") (lit "images") None None Sample.fresh).1
  = Raise (PyxisError (lit "Request failed with status 500: boom")).
Proof. vm_compute. reflexivity. Qed.

(** The same answers seen through a tool. *)
Example search_images_401 :
  (@search_images Sample.platform
     (Sample.answering {| status_code := 401; text := [];
                          json_body := inl (lit "no body") |})
     (lit "ubi") [] [] false 20 Sample.fresh).1
  = Return (lit "Error searching images: "
            ++ lit "Authentication failed. Check your API key.").
Proof. vm_compute. reflexivity. Qed.

Example search_images_without_key :
  (@search_images Sample.platform Sample.unreachable (lit "ubi") [] [] false 20
     {| PYXIS_API_KEY := None; _client := None; issued := [] |})
  = (Return (lit "Error searching images: No API key provided. "
             ++ lit "Set PYXIS_API_KEY environment variable "
             ++ lit "or pass api_key parameter."),
     {| PYXIS_API_KEY := None; _client := None; issued := [] |}).
Proof. vm_compute. reflexivity. Qed.

(** ** Further concrete cases *)

Example has_more_cases :
  ImageSearchResults.has_more (Envelope.mk [] 21 0 20) = true
  /\ ImageSearchResults.has_more (Envelope.mk [] 20 0 20) = false
  /\ ImageSearchResults.has_more (Envelope.mk [] 41 1 20) = true
  /\ ImageSearchResults.has_more (Envelope.mk [] 40 1 20) = false.
Proof. repeat split. Qed.

(** [search_images] called with [max_results=500] asks for a page of 100, and
    with [max_results=0] for a page of 1. *)
Example search_images_page_sizes :
  sent_by (@search_images Sample.platform (Sample.answering Sample.empty_page)
             (lit "ubi") [] [] false 500) Sample.fresh
  = [Sample.get_request "images"
       (Some (search_images_params (Some (lit "ubi")) None None None 0 100))]
  /\ sent_by (@search_images Sample.platform
                (Sample.answering Sample.empty_page)
                (lit "ubi") [] [] false 0) Sample.fresh
     = [Sample.get_request "images"
          (Some (search_images_params (Some (lit "ubi")) None None None 0 1))].
Proof. split; vm_compute; reflexivity. Qed.

(** With a key that the HTTP library cannot encode as a header, no client is
    built: the tool sends nothing and reports an unexpected error. *)
Example search_images_key_not_ascii :
  @search_images Sample.platform (Sample.answering Sample.empty_page)
    (lit "ubi") [] [] false 20 Sample.accented
  = (Return (lit "Unexpected error: "
             ++ @describe Sample.platform
                  (NotEncodable (lit "cl" ++ [233%N]))),
     Sample.accented).
Proof. vm_compute. reflexivity. Qed.

(** The client method on its own caps the page size at 100 and leaves a
    value below 1 as it is; it filters on any non-empty query, blank or not.
    The tools never call it with such arguments. *)
Example client_method_alone :
  search_images_params None None None None 0 0 !! lit "page_size"
  = Some (PInt 0)
  /\ search_images_params (Some (lit "  ")) None None None 0 20
       !! lit "filter"
     = Some (PStr (lit "repositories.repository=match=  ")).
Proof. split; vm_compute; reflexivity. Qed.

(** * Further properties of the code *)

(** ** The shape the tools share *)

Lemma try_block_guarded `{Platform} `{Network} (c : call) :
  exists endpoint params render,
    try_block c =
    guarded_fetch (refuses c) (refusal c) endpoint params render.
Proof.
  destruct c as [[query architecture registry certified | query status
                 | query package | query registry] n
                | image_id | image_id n | project_id | operator_id];
    cbn [try_block].
  - exists (fun _ => lit "images"),
      (Some (search_images_params (clean query) (clean architecture)
               (clean registry) (if certified then Some certified else None)
               0 (clamp n))), search_images_render.
    reflexivity.
  - exists (fun _ => lit "projects/certification"),
      (Some (search_certification_projects_params (clean query)
               (clean status) 0 (clamp n))),
      search_certification_projects_render.
    reflexivity.
  - exists (fun _ => lit "operators"),
      (Some (search_operators_params (clean query) (clean package)
               0 (clamp n))), search_operators_render.
    reflexivity.
  - exists (fun _ => lit "repositories"),
      (Some (search_repositories_params (clean query) (clean registry)
               0 (clamp n))), search_repositories_render.
    reflexivity.
  - exists (fun _ => lit "images/" ++ strip image_id), None,
      get_image_details_render.
    reflexivity.
  - exists
      (fun _ => lit "images/" ++ strip image_id ++ lit "/vulnerabilities"),
      None, (get_image_vulnerabilities_render image_id (clamp n)).
    reflexivity.
  - exists (fun _ => lit "projects/certification/" ++ strip project_id), None,
      get_certification_project_details_render.
    reflexivity.
  - exists (fun _ => lit "operators/" ++ strip operator_id), None,
      get_operator_details_render.
    reflexivity.
Qed.

(** What a guarded fetch does, step by step. *)
Lemma guarded_fetch_steps `{Platform} `{Network} (early : bool)
    (excuse : str) (endpoint : PyxisClient -> str)
    (params : option (gmap str param)) (render : json -> result str)
    (w : world) :
  guarded_fetch early excuse endpoint params render w =
  if early then (Return excuse, w)
  else
    match get_client w with
    | (Raise e, w1) => (Raise e, w1)
    | (Return client, w1) =>
        let request :=
          {| method := lit "GET";
             url := urljoin (base_url client)
                            (lstrip_with is_slash (endpoint client));
             params := params; json_data := None |} in
        ((response <- (_make_request client (lit "GET") (endpoint client)
                         params None w1).1 ;; render response)%result,
         {| PYXIS_API_KEY := PYXIS_API_KEY w1; _client := _client w1;
            issued := issued w1 ++ [request] |})
    end.
Proof.
  unfold guarded_fetch. destruct early; [reflexivity|].
  unfold bind. destruct (get_client w) as [[client | e] w1]; [|reflexivity].
  unfold get.
  pose proof (make_request_world client (lit "GET") (endpoint client)
                params None w1) as Hworld.
  destruct (_make_request client (lit "GET") (endpoint client) params None
              w1) as [[response | e] w2]; cbn in *; subst w2; reflexivity.
Qed.

Lemma get_client_stores `{Platform} `{Network} (w : world) :
  match get_client w with
  | (Return client, after) => _client after = Some client
  | (Raise _, _) => True
  end.
Proof.
  get_client_cases w; first [exact I | reflexivity | assumption].
Qed.

Lemma guarded_fetch_sent `{Platform} `{Network} (early : bool) (excuse : str)
    (endpoint : PyxisClient -> str) (params : option (gmap str param))
    (render : json -> result str) (w : world) :
  sent_by (guarded_fetch early excuse endpoint params render) w =
  if early then []
  else
    match (get_client w).1 with
    | Return client =>
        [{| method := lit "GET";
            url := urljoin (base_url client)
                           (lstrip_with is_slash (endpoint client));
            params := params; json_data := None |}]
    | Raise _ => []
    end.
Proof.
  unfold guarded_fetch. destruct early; [apply sent_by_ret|].
  apply fetch_sent.
Qed.

(** ** One request, and no more *)

(** A tool hands the HTTP library at most one request, and none when no
    client can be had; the request is a GET without a body. *)
Theorem tools_send_at_most_one_get `{Platform} `{Network} (c : call)
    (w : world) :
  let sent := sent_by (run c) w in
  (length sent <= if has_credentials w then 1 else 0)%nat
  /\ Forall (fun request =>
               method request = lit "GET" /\ json_data request = None)
            sent.
Proof.
  intros sent. subst sent. rewrite run_handled, sent_by_handled.
  destruct (try_block_guarded c) as (endpoint & params & render & ->).
  rewrite guarded_fetch_sent.
  destruct (refuses c); [split; [cbn; lia | constructor]|].
  pose proof (get_client_credentials w) as Hcred.
  destruct ((get_client w).1) as [client | e].
  - rewrite Hcred. split; [reflexivity|].
    repeat constructor.
  - split; [cbn; lia | constructor].
Qed.

(** A tool leaves the environment as it is, only appends to the requests
    handed to the HTTP library, never replaces a client that exists, and has
    a client stored whenever it sent a request. *)
Theorem tools_keep_the_world `{Platform} `{Network} (c : call) (w : world) :
  let after := (run c w).2 in
  PYXIS_API_KEY after = PYXIS_API_KEY w
  /\ issued after = issued w ++ sent_by (run c) w
  /\ match _client w with
     | Some client => _client after = Some client
     | None => True
     end
  /\ match sent_by (run c) w with
     | [] => True
     | _ :: _ => is_Some (_client after)
     end.
Proof.
  intros after. subst after. unfold sent_by.
  rewrite run_handled, handled_world.
  destruct (try_block_guarded c) as (endpoint & params & render & ->).
  rewrite guarded_fetch_steps.
  destruct (refuses c); cbn.
  { rewrite drop_all, app_nil_r. destruct (_client w); auto. }
  get_client_cases w; cbn;
    rewrite ?Hclient, ?drop_app_length, ?drop_all, ?app_nil_r; cbn;
    eauto 6.
Qed.

(** [get_client] stores the client it builds, and from then on returns the
    stored client whatever the environment holds; when it fails it leaves
    the world as it found it. *)
Theorem get_client_reuses `{Platform} `{Network} (w : world) :
  match get_client w with
  | (Return client, after) =>
      _client after = Some client
      /\ forall (key : option str) (log : list Request),
           let later :=
             {| PYXIS_API_KEY := key; _client := _client after;
                issued := log |} in
           get_client later = (Return client, later)
  | (Raise e, after) => after = w /\ _client w = None
  end.
Proof.
  get_client_cases w; lazy beta iota zeta.
  - split; [exact Hclient|]. intros key log.
    rewrite get_client_steps. cbn. rewrite Hclient. reflexivity.
  - split; reflexivity.
  - split; reflexivity.
  - split; [reflexivity|]. intros key log. rewrite get_client_steps.
    reflexivity.
  - split; reflexivity.
Qed.

Lemma run_shape `{Platform} `{Network} (c : call) :
  run c =
  handled (context c)
    (guarded_fetch (refuses c) (refusal c) (fun _ => endpoint_of c)
       (params_of c) (render_of c)).
Proof.
  destruct c as [[query architecture registry certified | query status
                 | query package | query registry] n
                | image_id | image_id n | project_id | operator_id];
    reflexivity.
Qed.

Lemma run_guarded `{Platform} `{Network} (c : call) :
  exists endpoint params render,
    run c =
    handled (context c)
      (guarded_fetch (refuses c) (refusal c) endpoint params render).
Proof.
  destruct (try_block_guarded c) as (endpoint & params & render & Hshape).
  exists endpoint, params, render. rewrite run_handled, Hshape. reflexivity.
Qed.

(** ** Refusals *)

(** A details tool called with an identifier that is empty or all white
    space returns [Error: <argument> is required]; it builds no client and
    sends nothing: the world stays as it was. *)
Theorem blank_identifier_is_refused `{Platform} `{Network} (c : call)
    (identifier : str) (w : world) :
  id_of c = Some identifier ->
  forallb isspace identifier = true ->
  run c w =
  (Return (lit "Error: " ++ lit (id_name c) ++ lit " is required"), w).
Proof.
  intros Hid Hblank.
  destruct (run_guarded c) as (endpoint & params & render & ->).
  unfold handled. rewrite guarded_fetch_steps.
  unfold refuses. rewrite Hid, strip_blank by exact Hblank. reflexivity.
Qed.

Lemma blank_identifier_is_refused_witness :
  (id_of (GetOperatorDetails [32; 10]%N) = Some [32; 10]%N
   /\ forallb isspace [32; 10]%N = true)
  /\ @run Sample.platform Sample.unreachable
       (GetOperatorDetails [32; 10]%N) Sample.fresh
     = (Return (lit "Error: " ++ lit "operator_id" ++ lit " is required"),
        Sample.fresh).
Proof.
  split; [split; reflexivity|].
  apply (@blank_identifier_is_refused Sample.platform Sample.unreachable
           (GetOperatorDetails [32; 10]%N) [32; 10]%N Sample.fresh);
    reflexivity.
Defined.

(** Without a stored client and without a key in the environment, a tool
    that does not refuse its identifier returns its prefix followed by the
    constructor's message, sends nothing and leaves the world as it was. *)
Theorem no_key_no_request `{Platform} `{Network} (c : call) (w : world) :
  has_credentials w = false ->
  refuses c = false ->
  run c w = (Return (lit (context c) ++ NO_API_KEY), w).
Proof.
  intros Hcred Hrefuses.
  destruct (run_guarded c) as (endpoint & params & render & ->).
  unfold handled. rewrite guarded_fetch_steps, Hrefuses, get_client_steps.
  unfold has_credentials in Hcred.
  destruct (_client w); [discriminate Hcred|]. rewrite Hcred. reflexivity.
Qed.

Lemma no_key_no_request_witness :
  (has_credentials Sample.keyless = false
   /\ refuses (GetImageDetails (lit "abc")) = false)
  /\ @run Sample.platform Sample.unreachable (GetImageDetails (lit "abc"))
       Sample.keyless
     = (Return (lit "Error getting image details: " ++ NO_API_KEY),
        Sample.keyless).
Proof.
  split; [split; reflexivity|].
  apply (@no_key_no_request Sample.platform Sample.unreachable
           (GetImageDetails (lit "abc")) Sample.keyless); reflexivity.
Defined.

(** ** Failures of the transport, seen through a tool *)

(** When the request a tool sent fails, the tool returns its own prefix
    followed by the message of the request primitive: for a timeout, a
    connection failure, any other failure of the HTTP library, a status 401,
    any other status of 400 or more, and a success whose body is not JSON.
    None of them is reported as unexpected. *)
Theorem transport_failures_keep_the_prefix `{Platform} `{Network} (c : call)
    (w : world) (request : Request) :
  sent_by (run c) w = [request] ->
  exists client,
    _client (run c w).2 = Some client
    /\ match send request with
       | TimeoutException =>
           (run c w).1 =
           Return (lit (context c) ++ lit "Request to " ++ url request
                   ++ lit " timed out after " ++ float_str (timeout client)
                   ++ lit "s")
       | ConnectError =>
           (run c w).1 =
           Return (lit (context c) ++ lit "Failed to connect to "
                   ++ url request)
       | OtherException e =>
           (run c w).1 =
           Return (lit (context c) ++ lit "Unexpected error during request: "
                   ++ e)
       | Responds response =>
           if status_code response =? 401 then
             (run c w).1 =
             Return (lit (context c)
                     ++ lit "Authentication failed. Check your API key.")
           else if 400 <=? status_code response then
             (run c w).1 = Return (lit (context c) ++ error_msg response)
           else
             match json_body response with
             | inl e =>
                 (run c w).1 =
                 Return (lit (context c)
                         ++ lit "Failed to parse JSON response: " ++ e)
             | inr _ => True
             end
       end.
Proof.
  intros Hsent.
  destruct (run_guarded c) as (endpoint & params & render & Hrun).
  rewrite Hrun in *. rewrite sent_by_handled, guarded_fetch_sent in Hsent.
  unfold handled. rewrite guarded_fetch_steps.
  destruct (refuses c); [discriminate Hsent|].
  pose proof (get_client_stores w) as Hstored.
  destruct (get_client w) as [[client | e] w1]; cbn in Hsent;
    [|discriminate Hsent].
  injection Hsent as <-.
  exists client. unfold _make_request.
  set (request := {| method := lit "GET";
                     url := urljoin (base_url client)
                              (lstrip_with is_slash (endpoint client));
                     params := params; json_data := None |}).
  split.
  - destruct (send request) as [response | | | e]; cbn.
    + destruct (status_code response =? 401); cbn; [exact Hstored|].
      destruct (status_code response >=? 400); cbn; [exact Hstored|].
      destruct (json_body response) as [e | v]; cbn; [exact Hstored|].
      destruct (render v) as [text | e]; cbn; [exact Hstored|].
      destruct (is_PyxisError e); exact Hstored.
    + exact Hstored.
    + exact Hstored.
    + exact Hstored.
  - destruct (send request) as [response | | | e]; cbn.
    + destruct (status_code response =? 401); cbn; [reflexivity|].
      rewrite Z.geb_leb.
      destruct (400 <=? status_code response); cbn; [reflexivity|].
      destruct (json_body response) as [e | v]; cbn; [reflexivity|exact I].
    + reflexivity.
    + reflexivity.
    + reflexivity.
Qed.

Lemma transport_failures_keep_the_prefix_witness :
  @sent_by str (@run Sample.platform Sample.timing_out
                  (GetImageDetails (lit "abc"))) Sample.fresh
  = [Sample.get_request "images/abc" None]
  /\ exists client,
       _client (@run Sample.platform Sample.timing_out
                  (GetImageDetails (lit "abc")) Sample.fresh).2 = Some client
       /\ (@run Sample.platform Sample.timing_out
             (GetImageDetails (lit "abc")) Sample.fresh).1 =
          Return (lit "Error getting image details: " ++ lit "Request to "
                  ++ url (Sample.get_request "images/abc" None)
                  ++ lit " timed out after " ++ float_str (timeout client)
                  ++ lit "s").
Proof.
  split; [vm_compute; reflexivity|].
  apply (@transport_failures_keep_the_prefix Sample.platform
           Sample.timing_out (GetImageDetails (lit "abc")) Sample.fresh
           (Sample.get_request "images/abc" None)).
  vm_compute. reflexivity.
Defined.

(** ** Answers of the backend, seen through a tool *)

(** What a tool returns when the request it sent is answered with a success
    whose body is JSON: the rendering of the body, or the text the handlers
    make of the exception the rendering raises. *)
Lemma run_answered `{Platform} `{Network} (c : call) (w : world)
    (request : Request) (response : Response) (v : json) :
  sent_by (run c) w = [request] ->
  send request = Responds response ->
  status_code response < 400 ->
  json_body response = inr v ->
  (run c w).1 =
  match render_of c v with
  | Return text => Return text
  | Raise e =>
      Return (if is_PyxisError e then lit (context c) ++ exn_str e
              else lit "Unexpected error: " ++ exn_str e)
  end.
Proof.
  intros Hsent Hsend Hstatus Hbody. rewrite run_shape in *.
  rewrite sent_by_handled in Hsent.
  assert (Hanswer :
            (guarded_fetch (refuses c) (refusal c) (fun _ => endpoint_of c)
               (params_of c) (render_of c) w).1 = render_of c v)
    by exact (guarded_fetch_answered (refuses c) (refusal c)
                (fun _ => endpoint_of c) (params_of c) (render_of c)
                w request response v Hsent Hsend Hstatus Hbody).
  unfold handled.
  destruct (guarded_fetch (refuses c) (refusal c) (fun _ => endpoint_of c)
              (params_of c) (render_of c) w) as [r w'].
  cbn in Hanswer. subst r.
  destruct (render_of c v) as [text | e]; [reflexivity|].
  destruct (is_PyxisError e); reflexivity.
Qed.

Lemma render_of_nothing `{Platform} (c : call) (d : list (str * json))
    (text : str) :
  nothing_found c = Some text ->
  present (dict_get d (lit "data")) = false ->
  render_of c (JDict d) = Return text.
Proof.
  intros Hnothing Hdata.
  destruct c as [[query architecture registry certified | query status
                 | query package | query registry] n
                | image_id | image_id n | project_id | operator_id];
    cbn [nothing_found] in Hnothing; try discriminate Hnothing;
    injection Hnothing as <-; cbn [render_of].
  - unfold search_images_render, dot_get, and_then. rewrite Hdata.
    vm_compute. reflexivity.
  - unfold search_certification_projects_render, dot_get, and_then.
    rewrite Hdata. vm_compute. reflexivity.
  - unfold search_operators_render, dot_get, and_then. rewrite Hdata.
    vm_compute. reflexivity.
  - unfold search_repositories_render, dot_get, and_then. rewrite Hdata.
    vm_compute. reflexivity.
  - unfold get_image_vulnerabilities_render, dot_get, and_then.
    rewrite Hdata. reflexivity.
Qed.

(** A listing tool whose request is answered with a JSON object in which
    [data] is missing or falsy (null, an empty list, zero, an empty text)
    says that nothing was found, whatever else the object holds: the four
    searches with [No <kind> found matching the specified criteria.], the
    vulnerability listing with the identifier as it was typed. *)
Theorem falsy_data_says_nothing_found `{Platform} `{Network} (c : call)
    (text : str) (w : world) (request : Request) (response : Response)
    (d : list (str * json)) :
  nothing_found c = Some text ->
  sent_by (run c) w = [request] ->
  send request = Responds response ->
  status_code response < 400 ->
  json_body response = inr (JDict d) ->
  present (dict_get d (lit "data")) = false ->
  (run c w).1 = Return text.
Proof.
  intros Hnothing Hsent Hsend Hstatus Hbody Hdata.
  rewrite (run_answered c w request response (JDict d)
             Hsent Hsend Hstatus Hbody).
  rewrite (render_of_nothing c d text Hnothing Hdata). reflexivity.
Qed.

Lemma falsy_data_says_nothing_found_witness :
  let c := GetImageVulnerabilities (lit " abc ") 50 in
  let request := Sample.get_request "images/abc/vulnerabilities" None in
  (nothing_found c = Some (lit "No vulnerabilities found for image  abc ")
   /\ @sent_by str (@run Sample.platform (Sample.answering Sample.bare) c)
        Sample.fresh = [request]
   /\ @send (Sample.answering Sample.bare) request = Responds Sample.bare
   /\ status_code Sample.bare < 400
   /\ json_body Sample.bare = inr (JDict [])
   /\ present (dict_get [] (lit "data")) = false)
  /\ (@run Sample.platform (Sample.answering Sample.bare) c Sample.fresh).1
     = Return (lit "No vulnerabilities found for image  abc ").
Proof.
  split.
  - repeat split; vm_compute; reflexivity.
  - apply (@falsy_data_says_nothing_found Sample.platform
             (Sample.answering Sample.bare)
             (GetImageVulnerabilities (lit " abc ") 50)
             (lit "No vulnerabilities found for image  abc ") Sample.fresh
             (Sample.get_request "images/abc/vulnerabilities" None)
             Sample.bare []);
      first [reflexivity | vm_compute; reflexivity].
Defined.

Lemma Envelope_validate_missing `{Platform} {A} (item : json -> option A)
    (d : list (str * json)) (field : string) :
  In field ["total"; "page"; "page_size"]%string ->
  dict_get d (lit field) = None ->
  Envelope.validate item d = None.
Proof.
  intros Hfield Hmissing. unfold Envelope.validate, required.
  cbn [In] in Hfield.
  destruct Hfield as [<- | [<- | [<- | []]]]; rewrite Hmissing;
    repeat match goal with
           | |- context [dict_get d ?k] =>
               destruct (dict_get d k); cbn; try reflexivity
           | |- context [validate_int ?v] =>
               destruct (validate_int v); cbn; try reflexivity
           | |- context [validate_list item ?v] =>
               destruct (validate_list item v); cbn; try reflexivity
           end.
Qed.

(** A listing tool that validates an envelope needs all of [total], [page]
    and [page_size] beside a non-empty [data]: when one of them is missing
    from the answer, the tool lists nothing and returns the validation
    error as an unexpected error. *)
Theorem envelope_fields_are_required `{Platform} `{Network} (c : call)
    (model field : string) (w : world) (request : Request)
    (response : Response) (d : list (str * json)) :
  envelope_of c = Some model ->
  In field ["total"; "page"; "page_size"]%string ->
  sent_by (run c) w = [request] ->
  send request = Responds response ->
  status_code response < 400 ->
  json_body response = inr (JDict d) ->
  present (dict_get d (lit "data")) = true ->
  dict_get d (lit field) = None ->
  (run c w).1 =
  Return (lit "Unexpected error: " ++ describe (Invalid model d)).
Proof.
  intros Hmodel Hfield Hsent Hsend Hstatus Hbody Hdata Hmissing.
  rewrite (run_answered c w request response (JDict d)
             Hsent Hsend Hstatus Hbody).
  destruct c as [[query architecture registry certified | query status
                 | query package | query registry] n
                | image_id | image_id n | project_id | operator_id];
    cbn [envelope_of] in Hmodel; try discriminate Hmodel;
    injection Hmodel as <-; cbn [render_of].
  - unfold search_images_render, dot_get, and_then. rewrite Hdata.
    cbn [negb]. unfold ImageSearchResults.new, construct.
    rewrite (Envelope_validate_missing _ d field Hfield Hmissing).
    reflexivity.
  - unfold search_certification_projects_render, dot_get, and_then.
    rewrite Hdata. cbn [negb]. unfold ProjectSearchResults.new, construct.
    rewrite (Envelope_validate_missing _ d field Hfield Hmissing).
    reflexivity.
  - unfold search_operators_render, dot_get, and_then. rewrite Hdata.
    cbn [negb]. unfold OperatorSearchResults.new, construct.
    rewrite (Envelope_validate_missing _ d field Hfield Hmissing).
    reflexivity.
  - unfold get_image_vulnerabilities_render, dot_get, and_then.
    rewrite Hdata. cbn [negb].
    unfold VulnerabilitySearchResults.new, construct.
    rewrite (Envelope_validate_missing _ d field Hfield Hmissing).
    reflexivity.
Qed.

Lemma envelope_fields_are_required_witness :
  let network := Sample.answering (Sample.ok (JDict Sample.page_without_total)) in
  let c := Search Sample.ubi 20 in
  let request :=
    Sample.get_request "images"
      (Some (search_images_params (Some (lit "ubi")) None None None 0 20)) in
  (envelope_of c = Some "ImageSearchResults"%string
   /\ In "total"%string ["total"; "page"; "page_size"]%string
   /\ @sent_by str (@run Sample.platform network c) Sample.fresh = [request]
   /\ present (dict_get Sample.page_without_total (lit "data")) = true
   /\ dict_get Sample.page_without_total (lit "total") = None)
  /\ (@run Sample.platform network c Sample.fresh).1
     = Return (lit "Unexpected error: "
               ++ @describe Sample.platform
                    (Invalid "ImageSearchResults"
                       Sample.page_without_total)).
Proof.
  split.
  - split; [reflexivity|]. split; [left; reflexivity|].
    repeat split; vm_compute; reflexivity.
  - apply (@envelope_fields_are_required Sample.platform
             (Sample.answering (Sample.ok (JDict Sample.page_without_total)))
             (Search Sample.ubi 20) "ImageSearchResults" "total"
             Sample.fresh
             (Sample.get_request "images"
                (Some (search_images_params (Some (lit "ubi")) None None None
                         0 20)))
             (Sample.ok (JDict Sample.page_without_total))
             Sample.page_without_total);
      first [reflexivity | left; reflexivity | lia
            | vm_compute; reflexivity].
Defined.

(** ** The request of a tool *)

Lemma run_sent `{Platform} `{Network} (c : call) (w : world)
    (request : Request) :
  sent_by (run c) w = [request] ->
  exists client,
    _client (run c w).2 = Some client
    /\ request =
       {| method := lit "GET";
          url := urljoin (base_url client)
                   (lstrip_with is_slash (endpoint_of c));
          params := params_of c; json_data := None |}.
Proof.
  intros Hsent. rewrite run_shape in *.
  rewrite sent_by_handled, guarded_fetch_sent in Hsent.
  rewrite handled_world, guarded_fetch_steps.
  destruct (refuses c); [discriminate Hsent|].
  pose proof (get_client_stores w) as Hstored.
  destruct (get_client w) as [[client | e] w1]; cbn in Hsent;
    [|discriminate Hsent].
  injection Hsent as <-. exists client. split; [exact Hstored | reflexivity].
Qed.

Lemma lstrip_slash_lit (a : Ascii.ascii) (text : string) (rest : str) :
  is_slash (Ascii.N_of_ascii a) = false ->
  lstrip_with is_slash (lit (String a text) ++ rest)
  = lit (String a text) ++ rest.
Proof.
  intros Ha. unfold lit.
  cbn [String.list_ascii_of_string map app lstrip_with]. rewrite Ha.
  reflexivity.
Qed.

Lemma endpoint_of_relative (c : call) :
  lstrip_with is_slash (endpoint_of c) = endpoint_of c.
Proof.
  destruct c as [[query architecture registry certified | query status
                 | query package | query registry] n
                | image_id | image_id n | project_id | operator_id];
    cbn [endpoint_of];
    first [apply lstrip_slash_lit; reflexivity | vm_compute; reflexivity].
Qed.

(** The one request a tool sends is a GET without a body for the tool's
    endpoint, joined to the base URL of the stored client: a fixed path for a
    search, and for a details tool the path that ends with the identifier
    stripped of surrounding white space, put there as it is. *)
Theorem tools_request_their_endpoint `{Platform} `{Network} (c : call)
    (w : world) (request : Request) :
  sent_by (run c) w = [request] ->
  exists client,
    _client (run c w).2 = Some client
    /\ request =
       {| method := lit "GET";
          url := urljoin (base_url client) (endpoint_of c);
          params := params_of c; json_data := None |}
    /\ match id_of c with
       | Some identifier =>
           occurs_in (strip identifier) (endpoint_of c) /\ params_of c = None
       | None => is_Some (params_of c)
       end.
Proof.
  intros Hsent. destruct (run_sent c w request Hsent) as (client & ? & ->).
  exists client. split; [assumption|].
  rewrite endpoint_of_relative. split; [reflexivity|].
  destruct c as [[query architecture registry certified | query status
                 | query package | query registry] n
                | image_id | image_id n | project_id | operator_id];
    cbn [id_of endpoint_of params_of]; eauto with occurs.
Qed.

Lemma tools_request_their_endpoint_witness :
  let c := GetImageDetails (lit " abc ") in
  @sent_by str (@run Sample.platform Sample.timing_out c) Sample.fresh
  = [Sample.get_request "images/abc" None]
  /\ exists client,
       _client (@run Sample.platform Sample.timing_out c Sample.fresh).2
       = Some client
       /\ Sample.get_request "images/abc" None =
          {| method := lit "GET";
             url := @urljoin Sample.platform (base_url client)
                      (endpoint_of c);
             params := params_of c; json_data := None |}
       /\ match id_of c with
          | Some identifier =>
              occurs_in (strip identifier) (endpoint_of c)
              /\ params_of c = None
          | None => is_Some (params_of c)
          end.
Proof.
  split; [vm_compute; reflexivity|].
  apply (@tools_request_their_endpoint Sample.platform Sample.timing_out
           (GetImageDetails (lit " abc ")) Sample.fresh
           (Sample.get_request "images/abc" None)).
  vm_compute. reflexivity.
Defined.

(** ** The parameters of a search *)

Lemma lookup_set_if_clean (key : string) (value : str) (f : str -> param)
    (ps : gmap str param) :
  ps !! lit key = None ->
  set_if key (clean value) f ps !! lit key =
  if nonempty (strip value) then Some (f (strip value)) else None.
Proof.
  intros Hps. unfold clean, set_if. destruct value as [|c value].
  - cbn. exact Hps.
  - cbn [nonempty]. destruct (nonempty (strip (c :: value)));
      [apply lookup_insert_eq | exact Hps].
Qed.

Lemma set_if_keys (key : string) (value : option str) (f : str -> param)
    (ps : gmap str param) (k : str) :
  is_Some (set_if key value f ps !! k) -> k = lit key \/ is_Some (ps !! k).
Proof.
  unfold set_if. destruct value as [s|]; [|auto].
  destruct (nonempty s); [|auto].
  intros [Heq | [_ Hps]]%lookup_insert_is_Some; auto.
Qed.

Ltac peel_params :=
  repeat first [rewrite lookup_insert_ne by lit_neq
               | rewrite lookup_set_if_ne by lit_neq].

Ltac params_absent := peel_params; apply lookup_empty.

Ltac params_lookup :=
  peel_params;
  first [apply lookup_insert_eq
        | rewrite lookup_set_if_clean by params_absent; reflexivity].

Ltac params_keys Hkey :=
  repeat match type of Hkey with
         | is_Some (set_if _ _ _ _ !! _) =>
             apply set_if_keys in Hkey as [-> | Hkey];
             [repeat first [left; reflexivity | right]|]
         | is_Some (<[_ := _]> _ !! _) =>
             apply lookup_insert_is_Some in Hkey as [<- | [_ Hkey]];
             [repeat first [left; reflexivity | right]|]
         end;
  rewrite lookup_empty in Hkey; destruct Hkey; discriminate.

(** The parameters of a search: the first page, the stripped query as a
    match on the search's field when it is not blank, each further text
    filter stripped when it is not blank, and no parameter of another
    name. *)
Lemma params_of_search (s : search) (n : Z) :
  exists ps,
    params_of (Search s n) = Some ps
    /\ ps !! lit "page" = Some (PInt 0)
    /\ ps !! lit "filter" =
       (if nonempty (strip (query_of s))
        then Some (PStr (lit (match_field s) ++ lit "=match="
                         ++ strip (query_of s)))
        else None)
    /\ Forall (fun field : string * str =>
                 ps !! lit field.1 =
                 if nonempty (strip field.2)
                 then Some (PStr (strip field.2)) else None)
              (text_filters s)
    /\ forall key, is_Some (ps !! key) -> In key (map lit (param_names s)).
Proof.
  destruct s as [query architecture registry certified | query status
                | query package | query registry];
    cbn [params_of query_of match_field text_filters param_names map];
    eexists; (split; [reflexivity|]).
  - unfold search_images_params. cbv zeta.
    destruct certified; repeat split.
    + params_lookup.
    + params_lookup.
    + repeat constructor; cbn [fst snd]; params_lookup.
    + intros key Hkey. cbn [In]. params_keys Hkey.
    + params_lookup.
    + params_lookup.
    + repeat constructor; cbn [fst snd]; params_lookup.
    + intros key Hkey. cbn [In]. params_keys Hkey.
  - unfold search_certification_projects_params. cbv zeta. repeat split.
    + params_lookup.
    + params_lookup.
    + repeat constructor; cbn [fst snd]; params_lookup.
    + intros key Hkey. cbn [In]. params_keys Hkey.
  - unfold search_operators_params. cbv zeta. repeat split.
    + params_lookup.
    + params_lookup.
    + repeat constructor; cbn [fst snd]; params_lookup.
    + intros key Hkey. cbn [In]. params_keys Hkey.
  - unfold search_repositories_params. cbv zeta. repeat split.
    + params_lookup.
    + params_lookup.
    + repeat constructor; cbn [fst snd]; params_lookup.
    + intros key Hkey. cbn [In]. params_keys Hkey.
Qed.

(** The request of a search carries the query, stripped of surrounding white
    space, as [<field>=match=<query>] under [filter] when it is not blank,
    and each further text argument stripped under its own name when it is
    not blank; a blank argument adds no parameter. *)
Theorem search_texts_are_sent_stripped `{Platform} `{Network} (s : search)
    (max_results : Z) (w : world) (request : Request) :
  sent_by (run (Search s max_results)) w = [request] ->
  exists ps,
    params request = Some ps
    /\ ps !! lit "filter" =
       (if nonempty (strip (query_of s))
        then Some (PStr (lit (match_field s) ++ lit "=match="
                         ++ strip (query_of s)))
        else None)
    /\ Forall (fun field : string * str =>
                 ps !! lit field.1 =
                 if nonempty (strip field.2)
                 then Some (PStr (strip field.2)) else None)
              (text_filters s).
Proof.
  intros Hsent.
  destruct (run_sent _ w request Hsent) as (client & _ & ->).
  destruct (params_of_search s max_results)
    as (ps & Hps & _ & Hfilter & Hfields & _).
  exists ps. cbn [params]. auto.
Qed.

Lemma search_texts_are_sent_stripped_witness :
  let tool :=
    @run Sample.platform Sample.timing_out (Search Sample.padded 20) in
  let request :=
    Sample.get_request "images"
      (Some (search_images_params (Some (lit "ubi")) (Some (lit "amd64"))
               (Some []) None 0 20)) in
  @sent_by str tool Sample.fresh = [request]
  /\ exists ps,
       params request = Some ps
       /\ ps !! lit "filter" =
          (if nonempty (strip (query_of Sample.padded))
           then Some (PStr (lit (match_field Sample.padded) ++ lit "=match="
                            ++ strip (query_of Sample.padded)))
           else None)
       /\ Forall (fun field : string * str =>
                    ps !! lit field.1 =
                    if nonempty (strip field.2)
                    then Some (PStr (strip field.2)) else None)
                 (text_filters Sample.padded).
Proof.
  cbv zeta. split; [vm_compute; reflexivity|].
  apply (@search_texts_are_sent_stripped Sample.platform Sample.timing_out
           Sample.padded 20 Sample.fresh).
  vm_compute. reflexivity.
Defined.

(** A search asks for page 0, whatever it is called with, and sends no
    parameter beyond the page, the page size, the filter and the text and
    certification filters of its own. *)
Theorem search_asks_for_the_first_page `{Platform} `{Network} (s : search)
    (max_results : Z) (w : world) (request : Request) :
  sent_by (run (Search s max_results)) w = [request] ->
  exists ps,
    params request = Some ps
    /\ ps !! lit "page" = Some (PInt 0)
    /\ forall key, is_Some (ps !! key) -> In key (map lit (param_names s)).
Proof.
  intros Hsent.
  destruct (run_sent _ w request Hsent) as (client & _ & ->).
  destruct (params_of_search s max_results)
    as (ps & Hps & Hpage & _ & _ & Hkeys).
  exists ps. cbn [params]. auto.
Qed.

Lemma search_asks_for_the_first_page_witness :
  let tool :=
    @run Sample.platform Sample.timing_out (Search Sample.ubi 20) in
  let request :=
    Sample.get_request "images"
      (Some (search_images_params (Some (lit "ubi")) None None None 0 20)) in
  @sent_by str tool Sample.fresh = [request]
  /\ exists ps,
       params request = Some ps
       /\ ps !! lit "page" = Some (PInt 0)
       /\ forall key,
            is_Some (ps !! key) -> In key (map lit (param_names Sample.ubi)).
Proof.
  cbv zeta. split; [vm_compute; reflexivity|].
  apply (@search_asks_for_the_first_page Sample.platform Sample.timing_out
           Sample.ubi 20 Sample.fresh).
  vm_compute. reflexivity.
Defined.

(** ** White space around the arguments *)

Lemma lstrip_with_head (p : N -> bool) (s : str) :
  lstrip_with p s = []
  \/ exists c t, lstrip_with p s = c :: t /\ p c = false.
Proof.
  induction s as [|c s IH]; [left; reflexivity|].
  cbn. destruct (p c) eqn:Hc; [exact IH|]. right. eauto.
Qed.

Lemma lstrip_with_idempotent (p : N -> bool) (s : str) :
  lstrip_with p (lstrip_with p s) = lstrip_with p s.
Proof.
  destruct (lstrip_with_head p s) as [-> | (c & t & -> & Hc)];
    [reflexivity|].
  cbn. rewrite Hc. reflexivity.
Qed.

Lemma lstrip_with_snoc (p : N -> bool) (s : str) (c : N) :
  p c = false -> lstrip_with p (s ++ [c]) = lstrip_with p s ++ [c].
Proof.
  intros Hc. induction s as [|a s IH]; cbn.
  - rewrite Hc. reflexivity.
  - destruct (p a); [exact IH | reflexivity].
Qed.

Lemma rstrip_with_cons (p : N -> bool) (c : N) (s : str) :
  p c = false -> rstrip_with p (c :: s) = c :: rstrip_with p s.
Proof.
  intros Hc. unfold rstrip_with. cbn [rev].
  rewrite lstrip_with_snoc by exact Hc. rewrite rev_app_distr. reflexivity.
Qed.

Lemma rstrip_with_idempotent (p : N -> bool) (s : str) :
  rstrip_with p (rstrip_with p s) = rstrip_with p s.
Proof.
  unfold rstrip_with. rewrite rev_involutive, lstrip_with_idempotent.
  reflexivity.
Qed.

(** [s.strip().strip() == s.strip()]. *)
Lemma strip_idempotent (s : str) : strip (strip s) = strip s.
Proof.
  unfold strip.
  destruct (lstrip_with_head isspace s) as [-> | (c & t & -> & Hc)];
    [reflexivity|].
  rewrite rstrip_with_cons by exact Hc. cbn [lstrip_with]. rewrite Hc.
  rewrite <- (rstrip_with_cons isspace c t Hc).
  apply rstrip_with_idempotent.
Qed.

Lemma set_if_clean_strip (key : string) (value : str) (f : str -> param)
    (ps : gmap str param) :
  set_if key (clean (strip value)) f ps = set_if key (clean value) f ps.
Proof.
  unfold set_if, clean. destruct value as [|c value]; [reflexivity|].
  cbn [nonempty]. rewrite strip_idempotent.
  destruct (nonempty (strip (c :: value))) eqn:Hstripped; lazy beta iota;
    rewrite ?Hstripped; reflexivity.
Qed.

Lemma params_of_stripped (c : call) : params_of (stripped c) = params_of c.
Proof.
  destruct c as [[query architecture registry certified | query status
                 | query package | query registry] n
                | image_id | image_id n | project_id | operator_id];
    cbn [stripped params_of]; [| | | |reflexivity..]; f_equal.
  - unfold search_images_params. rewrite !set_if_clean_strip. reflexivity.
  - unfold search_certification_projects_params.
    rewrite !set_if_clean_strip. reflexivity.
  - unfold search_operators_params. rewrite !set_if_clean_strip.
    reflexivity.
  - unfold search_repositories_params. rewrite !set_if_clean_strip.
    reflexivity.
Qed.

Lemma endpoint_of_stripped (c : call) :
  endpoint_of (stripped c) = endpoint_of c.
Proof.
  destruct c as [[query architecture registry certified | query status
                 | query package | query registry] n
                | image_id | image_id n | project_id | operator_id];
    cbn [stripped endpoint_of]; rewrite ?strip_idempotent; reflexivity.
Qed.

Lemma refuses_stripped (c : call) : refuses (stripped c) = refuses c.
Proof.
  destruct c as [[query architecture registry certified | query status
                 | query package | query registry] n
                | image_id | image_id n | project_id | operator_id];
    unfold refuses; cbn [stripped id_of]; rewrite ?strip_idempotent;
    reflexivity.
Qed.

Lemma refusal_stripped (c : call) : refusal (stripped c) = refusal c.
Proof.
  destruct c as [[query architecture registry certified | query status
                 | query package | query registry] n
                | image_id | image_id n | project_id | operator_id];
    reflexivity.
Qed.

Lemma guarded_fetch_render_world `{Platform} `{Network} (early : bool)
    (excuse : str) (endpoint : PyxisClient -> str)
    (params : option (gmap str param)) (render render' : json -> result str)
    (w : world) :
  (guarded_fetch early excuse endpoint params render w).2
  = (guarded_fetch early excuse endpoint params render' w).2.
Proof.
  rewrite !guarded_fetch_steps. destruct early; [reflexivity|].
  destruct (get_client w) as [[client | e] w1]; reflexivity.
Qed.

(** White space around the text arguments of a tool changes nothing: the
    call with every text argument stripped leaves the same world behind, so
    sends the same request, and returns the same text.  The vulnerability
    listing is the exception for the text: it quotes the identifier as it
    was typed. *)
Theorem tools_ignore_surrounding_space `{Platform} `{Network} (c : call)
    (w : world) :
  (run (stripped c) w).2 = (run c w).2
  /\ sent_by (run (stripped c)) w = sent_by (run c) w
  /\ match c with
     | GetImageVulnerabilities _ _ => True
     | _ => (run (stripped c) w).1 = (run c w).1
     end.
Proof.
  assert (Hworld : (run (stripped c) w).2 = (run c w).2).
  { rewrite !run_shape, !handled_world.
    rewrite refuses_stripped, refusal_stripped, endpoint_of_stripped,
      params_of_stripped.
    destruct (refuses c) eqn:Hrefuses.
    - rewrite !guarded_fetch_steps. reflexivity.
    - apply guarded_fetch_render_world. }
  split; [exact Hworld|]. split; [unfold sent_by; rewrite Hworld; reflexivity|].
  destruct c as [[query architecture registry certified | query status
                 | query package | query registry] n
                | image_id | image_id n | project_id | operator_id];
    try exact I; f_equal; rewrite !run_shape;
    rewrite refuses_stripped, refusal_stripped, endpoint_of_stripped,
      params_of_stripped;
    reflexivity.
Qed.

(** ** The constructor of the client *)

Lemma lstrip_with_split (p : N -> bool) (s : str) :
  exists pre, s = pre ++ lstrip_with p s /\ forallb p pre = true.
Proof.
  induction s as [|c s (pre & Hs & Hpre)]; [exists []; split; reflexivity|].
  cbn. destruct (p c) eqn:Hc.
  - exists (c :: pre). cbn. rewrite Hc, Hpre. split; [|reflexivity].
    f_equal. exact Hs.
  - exists []. split; reflexivity.
Qed.

Lemma forallb_rev {A} (p : A -> bool) (l : list A) :
  forallb p (rev l) = forallb p l.
Proof.
  induction l as [|a l IH]; [reflexivity|].
  cbn. rewrite forallb_app, IH. cbn. destruct (p a), (forallb p l);
    reflexivity.
Qed.

Lemma rstrip_with_split (p : N -> bool) (s : str) :
  exists tail,
    s = rstrip_with p s ++ tail
    /\ forallb p tail = true
    /\ match last (rstrip_with p s) with
       | Some c => p c = false
       | None => True
       end.
Proof.
  unfold rstrip_with.
  destruct (lstrip_with_split p (rev s)) as (pre & Hs & Hpre).
  exists (rev pre). split; [|split].
  - rewrite <- rev_app_distr, <- Hs, rev_involutive. reflexivity.
  - rewrite forallb_rev. exact Hpre.
  - destruct (lstrip_with_head p (rev s)) as [-> | (c & t & -> & Hc)];
      [exact I|].
    cbn [rev]. rewrite last_snoc. exact Hc.
Qed.

Lemma all_slashes (tail : str) :
  forallb is_slash tail = true -> tail = replicate (length tail) 47%N.
Proof.
  induction tail as [|c tail IH]; [reflexivity|].
  cbn. intros [Hc Htail]%andb_prop. unfold is_slash in Hc.
  apply N.eqb_eq in Hc. subst c. f_equal. exact (IH Htail).
Qed.

(** [PyxisClient.__init__] touches nothing.  It takes the key given to it,
    or the one of the environment when none or an empty one is given.  It
    raises [PyxisAuthError] exactly when that leaves no key or an empty one,
    [UnicodeEncodeError] when the key holds a character that is not ASCII,
    which the HTTP client cannot take as a header, and otherwise what the
    HTTP library raises, if anything, while it builds its client.  When it
    returns, the key of the client is not empty and is ASCII, the timeout
    is the one given, and the base URL is the one given with all its
    trailing slashes replaced by a single one. *)
Theorem init_outcomes `{Platform} `{Network} (key : option str) (base : str)
    (seconds : float) (w : world) :
  let chosen := if opt_truthy key then key else PYXIS_API_KEY w in
  match __init__ key base seconds w with
  | (Return client, after) =>
      after = w
      /\ Some (api_key client) = chosen
      /\ nonempty (api_key client) = true
      /\ isascii (api_key client) = true
      /\ AsyncClient = None
      /\ timeout client = seconds
      /\ exists stem k,
           base = stem ++ replicate k 47%N
           /\ last stem <> Some 47%N
           /\ base_url client = stem ++ lit "/"
  | (Raise e, after) =>
      after = w
      /\ ((e = PyxisAuthError NO_API_KEY
           /\ opt_truthy key = false
           /\ opt_truthy (PYXIS_API_KEY w) = false)
          \/ (exists k,
                chosen = Some k /\ nonempty k = true /\ isascii k = false
                /\ e = UnicodeEncodeError (describe (NotEncodable k)))
          \/ (exists k message,
                chosen = Some k /\ nonempty k = true /\ isascii k = true
                /\ AsyncClient = Some message
                /\ e = LibraryError message))
  end.
Proof.
  intros chosen. unfold __init__. fold chosen.
  destruct (opt_truthy chosen) eqn:Hkey.
  - destruct chosen as [k|] eqn:Hchosen; [|discriminate Hkey].
    cbv zeta. cbn [default from_option id opt_truthy] in *.
    destruct (isascii k) eqn:Hascii; cbn [negb].
    + destruct AsyncClient as [message|] eqn:Hlibrary.
      * split; [reflexivity|]. right. right. exists k, message. auto.
      * split; [reflexivity|]. cbn [api_key base_url timeout].
        repeat (split; [first [reflexivity | assumption]|]).
        destruct (rstrip_with_split is_slash base)
          as (tail & Hbase & Htail & Hlast).
        exists (rstrip_with is_slash base), (length tail).
        split; [rewrite <- (all_slashes tail Htail); exact Hbase|].
        split; [|reflexivity].
        destruct (last (rstrip_with is_slash base)) as [c|]; [|discriminate].
        intros [= ->]. discriminate Hlast.
    + split; [reflexivity|]. right. left. exists k. auto.
  - split; [reflexivity|]. left. split; [vm_compute; reflexivity|].
    subst chosen. destruct (opt_truthy key) eqn:Hgiven; [|auto].
    rewrite Hgiven in Hkey. discriminate Hkey.
Qed.

(** Slashes before an endpoint are ignored: [get] and [post] behave on
    ["//images"] as on ["images"], both in what they send and in what they
    return. *)
Theorem leading_slashes_are_ignored `{Platform} `{Network}
    (self : PyxisClient) (endpoint : str) (k : nat)
    (params : option (gmap str param)) (data : option json) (w : world) :
  get self (replicate k 47%N ++ endpoint) params w
  = get self endpoint params w
  /\ post self (replicate k 47%N ++ endpoint) data params w
     = post self endpoint data params w.
Proof.
  assert (Hstrip : lstrip_with is_slash (replicate k 47%N ++ endpoint)
                   = lstrip_with is_slash endpoint).
  { induction k as [|k IH]; [reflexivity | exact IH]. }
  unfold get, post, _make_request. rewrite Hstrip. split; reflexivity.
Qed.

(** ** An error body that is JSON but not an object *)

(** For a status of 400 or more whose body decodes to something other than
    an object: a number, a boolean or null gives the status line followed by
    the raw body; a list or a text gives the raw body too when it holds
    ["detail"] or ["message"] (as an item, as a part), since the lookup that
    follows fails, and the status line alone when it holds neither. *)
Theorem error_msg_other_json `{Platform} (response : Response) :
  let base :=
    lit "Request failed with status " ++ str_of_Z (status_code response) in
  let is_item (k : string) (x : json) :=
    match x with JStr s => bool_decide (s = lit k) | _ => false end in
  match json_body response with
  | inl _ | inr (JDict _) => True
  | inr (JList l) =>
      error_msg response =
      if existsb (is_item "detail") l || existsb (is_item "message") l
      then base ++ lit ": " ++ text response else base
  | inr (JStr s) =>
      error_msg response =
      if str_in (lit "detail") s || str_in (lit "message") s
      then base ++ lit ": " ++ text response else base
  | inr _ => error_msg response = base ++ lit ": " ++ text response
  end.
Proof.
  intros base is_item. unfold error_msg. fold base.
  destruct (json_body response) as [e | [| b | n | x | s | l | d]];
    try exact I; try reflexivity.
  - cbn. destruct (str_in (lit "detail") s); [reflexivity|].
    cbn. destruct (str_in (lit "message") s); reflexivity.
  - cbn. fold (is_item "detail") (is_item "message").
    destruct (existsb (is_item "detail") l); [reflexivity|].
    cbn. destruct (existsb (is_item "message") l); reflexivity.
Qed.

(** ** The entry point and the first tool call *)

(** [main] and the constructor agree on whether there is a key, and on
    nothing more.  Started without a client, [main] returns 1 after two
    lines exactly when [get_client] would fail for want of a key.  When
    [main] goes on to serve, [get_client] builds a client with the key of
    the environment, or fails with an exception that is none of the Pyxis
    errors and that [main] did not look for: the key is not ASCII, or the
    HTTP library could not build its client. *)
Theorem main_agrees_with_the_constructor `{Platform} `{Network} (w : world) :
  _client w = None ->
  match main w with
  | (printed, Serves) =>
      length printed = 11%nat
      /\ match (get_client w).1 with
         | Return client =>
             Some (api_key client) = PYXIS_API_KEY w
             /\ isascii (api_key client) = true
         | Raise e =>
             is_PyxisError e = false
             /\ ((exists k,
                    PYXIS_API_KEY w = Some k /\ isascii k = false
                    /\ e = UnicodeEncodeError (describe (NotEncodable k)))
                 \/ (exists message,
                       AsyncClient = Some message
                       /\ e = LibraryError message))
         end
  | (printed, Returns value) =>
      value = 1 /\ length printed = 2%nat
      /\ (get_client w).1 = Raise (PyxisAuthError NO_API_KEY)
  end.
Proof.
  intros Hnone. unfold main. rewrite get_client_steps, Hnone.
  destruct (PYXIS_API_KEY w) as [k|] eqn:Hk; cbn [opt_truthy].
  - destruct (nonempty k) eqn:Hnonempty; cbn [negb].
    + split; [reflexivity|]. cbv zeta. cbn [default from_option id].
      destruct (isascii k) eqn:Hascii; cbn [negb].
      * destruct AsyncClient as [message|] eqn:Hlibrary; cbn [fst].
        -- split; [reflexivity|]. right. exists message. auto.
        -- cbn [api_key]. auto.
      * cbn [fst]. split; [reflexivity|]. left. exists k. auto.
    + split; [reflexivity|]. split; [reflexivity|]. cbn [fst]. do 2 f_equal.
  - cbn. split; [reflexivity|]. split; [reflexivity|]. do 2 f_equal.
Qed.

Lemma main_agrees_with_the_constructor_witness :
  _client Sample.fresh = None
  /\ match main Sample.fresh with
     | (printed, Serves) =>
         length printed = 11%nat
         /\ match (@get_client Sample.platform Sample.timing_out
                     Sample.fresh).1 with
            | Return client =>
                Some (api_key client) = PYXIS_API_KEY Sample.fresh
                /\ isascii (api_key client) = true
            | Raise e =>
                is_PyxisError e = false
                /\ ((exists k,
                       PYXIS_API_KEY Sample.fresh = Some k
                       /\ isascii k = false
                       /\ e = UnicodeEncodeError
                               (@describe Sample.platform (NotEncodable k)))
                    \/ (exists message,
                          @AsyncClient Sample.timing_out = Some message
                          /\ e = LibraryError message))
            end
     | (printed, Returns value) =>
         value = 1 /\ length printed = 2%nat
         /\ (@get_client Sample.platform Sample.timing_out Sample.fresh).1
            = Raise (PyxisAuthError NO_API_KEY)
     end.
Proof.
  split; [reflexivity|].
  apply (@main_agrees_with_the_constructor Sample.platform Sample.timing_out
           Sample.fresh).
  reflexivity.
Defined.

(** ** The size of the vulnerability listing *)




Lemma entries_under_nil (label : str) (vulns : list Vulnerability.t) :
  entries_under label vulns = []
  <-> Forall (fun vuln => severity_key vuln <> label) vulns.
Proof.
  unfold entries_under. induction vulns as [|vuln vulns IH].
  - split; [constructor | reflexivity].
  - rewrite filter_cons, Forall_cons.
    destruct (decide (severity_key vuln = label)) as [Heq | Hne].
    + split; [discriminate | intros [Hne _]; contradiction].
    + rewrite IH. tauto.
Qed.


Lemma join_cons (sep p : str) (rest : list str) :
  rest <> [] -> join sep (p :: rest) = p ++ sep ++ join sep rest.
Proof. destruct rest; [contradiction | reflexivity]. Qed.













(** ** The search methods of the client, on their own *)

Lemma lookup_set_if_eq (key : string) (value : option str) (f : str -> param)
    (ps : gmap str param) :
  ps !! lit key = None ->
  set_if key value f ps !! lit key =
  match value with
  | Some s => if nonempty s then Some (f s) else None
  | None => None
  end.
Proof.
  intros Hps. unfold set_if. destruct value as [s|]; [|exact Hps].
  destruct (nonempty s); [apply lookup_insert_eq | exact Hps].
Qed.

Ltac client_lookup :=
  peel_params;
  first [apply lookup_insert_eq
        | rewrite lookup_set_if_eq by params_absent; reflexivity].

(** The four search methods of the client pass the page on as it is, cap
    the page size at 100 without raising a small one, and send a query as it
    is given, white space included, leaving it out only when it is [None] or
    empty; the cleaning is the tools' own.  [search_images] sends
    [certified] whenever it is not [None], [False] included. *)
Theorem client_searches_cap_only (query second third : option str)
    (certified : option bool) (page page_size : Z) :
  Forall (fun search : gmap str param * string =>
            search.1 !! lit "page" = Some (PInt page)
            /\ search.1 !! lit "page_size" = Some (PInt (Z.min page_size 100))
            /\ search.1 !! lit "filter" =
               match query with
               | Some q =>
                   if nonempty q
                   then Some (PStr (lit search.2 ++ lit "=match=" ++ q))
                   else None
               | None => None
               end)
         [(search_images_params query second third certified page page_size,
           "repositories.repository");
          (search_certification_projects_params query second page page_size,
           "name");
          (search_operators_params query second page page_size,
           "bundle_path");
          (search_repositories_params query second page page_size,
           "repository")]
  /\ search_images_params query second third certified page page_size
       !! lit "certified" = PBool <$> certified.
Proof.
  split.
  - repeat constructor; cbn [fst snd];
      unfold search_images_params, search_certification_projects_params,
        search_operators_params, search_repositories_params; cbv zeta;
      try (destruct certified); client_lookup.
  - unfold search_images_params. cbv zeta.
    destruct certified; [apply lookup_insert_eq|]. params_absent.
Qed.

(** ** Repositories, formatted as they come *)

Lemma str_items_strings `{Platform} (l : list json) (index : nat) :
  forallb is_str l = true -> exists items, str_items index l = Return items.
Proof.
  revert index. induction l as [|v l IH]; intros index Hl.
  - exists []. reflexivity.
  - cbn in Hl. apply andb_prop in Hl as [Hv Hl].
    destruct v as [| | | | s | |]; try discriminate Hv.
    destruct (IH (S index) Hl) as [items Hitems].
    exists (s :: items). cbn. rewrite Hitems. reflexivity.
Qed.

Lemma forallb_take {A} (p : A -> bool) (l : list A) (n : nat) :
  forallb p l = true -> forallb p (take n l) = true.
Proof.
  revert n. induction l as [|a l IH]; intros [|n] Hl; try reflexivity.
  cbn in *. apply andb_prop in Hl as [-> Hl]. exact (IH n Hl).
Qed.

Lemma repo_entry_formattable `{Platform} (repo : json) :
  formattable_repo repo = true -> exists lines, repo_entry repo = Return lines.
Proof.
  destruct repo as [| | | | | | d]; try discriminate. intros Hrepo.
  unfold repo_entry, get_or, dot_get, and_then.
  cbn [formattable_repo] in Hrepo.
  destruct (dict_get d (lit "tags")) as [tags|]; cbn [default from_option id];
    [|cbn [truthy nonempty]; eauto].
  destruct (truthy tags) eqn:Htruthy; [|eauto].
  cbn [negb orb] in Hrepo.
  destruct tags as [| | | | | l |]; try discriminate Hrepo.
  cbn [join_tags py_len]. unfold and_then.
  destruct (str_items_strings (take 5 l) 0 (forallb_take _ l 5 Hrepo))
    as [items ->].
  eauto.
Qed.

Lemma for_each_formattable `{Platform} (repos : list json) :
  forallb formattable_repo repos = true ->
  exists lines, for_each repo_entry repos = Return lines.
Proof.
  induction repos as [|repo repos IH]; intros Hrepos.
  - exists []. reflexivity.
  - cbn in Hrepos. apply andb_prop in Hrepos as [Hrepo Hrepos].
    destruct (repo_entry_formattable repo Hrepo) as [here Hhere].
    destruct (IH Hrepos) as [after Hafter].
    exists (here ++ after). cbn. rewrite Hhere. cbn. rewrite Hafter.
    reflexivity.
Qed.

Lemma for_each_bad `{Platform} (good rest : list json) (bad : json) :
  forallb formattable_repo good = true ->
  match bad with JDict _ => False | _ => True end ->
  for_each repo_entry (good ++ bad :: rest)
  = Raise (AttributeError (describe (NoAttribute bad "get"))).
Proof.
  intros Hgood Hbad. induction good as [|repo good IH].
  - cbn. destruct bad; try contradiction; reflexivity.
  - cbn in Hgood. apply andb_prop in Hgood as [Hrepo Hgood].
    destruct (repo_entry_formattable repo Hrepo) as [here Hhere].
    cbn. rewrite Hhere. cbn. rewrite (IH Hgood). reflexivity.
Qed.

(** [search_repositories] validates nothing.  From an answer whose [data] is
    a non-empty list of objects, each with tags that are absent, empty or a
    list of texts, and whose [total] is absent or a number, it returns a
    listing that starts with [Found <total> repositories (showing <n>):],
    the total being shown as 0 when it is absent. *)
Theorem well_formed_repositories_are_listed `{Platform}
    (d : list (str * json)) (repos : list json) :
  dict_get d (lit "data") = Some (JList repos) ->
  repos <> [] ->
  forallb formattable_repo repos = true ->
  comparable_total d = true ->
  exists body,
    search_repositories_render (JDict d) =
    Return (lit "Found "
            ++ py_str (default (JInt 0) (dict_get d (lit "total")))
            ++ lit " repositories (showing " ++ str_of_Z (len repos)
            ++ lit "):" ++ NEWLINE ++ body).
Proof.
  intros Hdata Hsome Hrepos Htotal.
  unfold search_repositories_render, dot_get, and_then. rewrite Hdata.
  assert (Hpresent : present (Some (JList repos)) = true)
    by (destruct repos; [contradiction | reflexivity]).
  rewrite Hpresent. cbn [negb].
  unfold repository_report, get_or, and_then. rewrite Hdata.
  change (default (JList []) (Some ?data)) with data.
  cbn [py_len py_iter].
  destruct (for_each_formattable repos Hrepos) as [entries ->].
  set (total := default (JInt 0) (dict_get d (lit "total"))).
  assert (Hcomparable :
            exists more, gt_int total (len repos) = Return more
                         /\ exists rest, sub_int total (len repos)
                                         = Return rest).
  { unfold comparable_total in Htotal. subst total.
    destruct (dict_get d (lit "total")) as [[| | | | | |]|];
      try discriminate Htotal; cbn; eauto. }
  destruct Hcomparable as (more & -> & rest & Hrest).
  destruct more.
  - rewrite Hrest. eexists. cbn [join app]. f_equal.
    rewrite <- !app_assoc. reflexivity.
  - eexists. cbn [join app]. f_equal. rewrite <- !app_assoc. reflexivity.
Qed.

Lemma well_formed_repositories_are_listed_witness :
  (dict_get Sample.page_of_repository (lit "data")
   = Some (JList [JDict [(lit "registry", JStr (lit "quay.io"));
                         (lit "repository", JStr (lit "ubi8"));
                         (lit "tags", JList [JStr (lit "latest");
                                             JStr (lit "8.9")])]])
   /\ forallb formattable_repo
        [JDict [(lit "registry", JStr (lit "quay.io"));
                (lit "repository", JStr (lit "ubi8"));
                (lit "tags", JList [JStr (lit "latest");
                                    JStr (lit "8.9")])]] = true
   /\ comparable_total Sample.page_of_repository = true)
  /\ exists body,
       @search_repositories_render Sample.platform
         (JDict Sample.page_of_repository) =
       Return (lit "Found "
               ++ @py_str Sample.platform
                    (default (JInt 0)
                       (dict_get Sample.page_of_repository (lit "total")))
               ++ lit " repositories (showing " ++ str_of_Z 1
               ++ lit "):" ++ NEWLINE ++ body).
Proof.
  split; [repeat split; vm_compute; reflexivity|].
  apply (@well_formed_repositories_are_listed Sample.platform
           Sample.page_of_repository
           [JDict [(lit "registry", JStr (lit "quay.io"));
                   (lit "repository", JStr (lit "ubi8"));
                   (lit "tags", JList [JStr (lit "latest");
                                       JStr (lit "8.9")])]]);
    first [discriminate | vm_compute; reflexivity].
Defined.

(** One entry of [data] that is not an object loses the whole listing: when
    the entries before it can be formatted, [search_repositories] returns an
    unexpected error about the entry's missing [get], and none of the
    repositories. *)
Theorem a_bad_repository_fails_the_search `{Platform} `{Network}
    (query registry : str) (max_results : Z) (w : world) (request : Request)
    (response : Response) (d : list (str * json)) (good rest : list json)
    (bad : json) :
  sent_by (run (Search (SearchRepositories query registry) max_results)) w
  = [request] ->
  send request = Responds response ->
  status_code response < 400 ->
  json_body response = inr (JDict d) ->
  dict_get d (lit "data") = Some (JList (good ++ bad :: rest)) ->
  forallb formattable_repo good = true ->
  match bad with JDict _ => False | _ => True end ->
  (run (Search (SearchRepositories query registry) max_results) w).1 =
  Return (lit "Unexpected error: " ++ describe (NoAttribute bad "get")).
Proof.
  intros Hsent Hsend Hstatus Hbody Hdata Hgood Hbad.
  rewrite (run_answered _ w request response (JDict d)
             Hsent Hsend Hstatus Hbody).
  cbn [render_of].
  unfold search_repositories_render, dot_get, and_then. rewrite Hdata.
  assert (Hpresent : present (Some (JList (good ++ bad :: rest))) = true)
    by (destruct good; reflexivity).
  rewrite Hpresent. cbn [negb].
  unfold repository_report, get_or, and_then. rewrite Hdata.
  change (default (JList []) (Some ?data)) with data.
  cbn [py_len py_iter].
  rewrite (for_each_bad good rest bad Hgood Hbad). reflexivity.
Qed.

Lemma a_bad_repository_fails_the_search_witness :
  let network := Sample.answering (Sample.ok (JDict Sample.page_of_text)) in
  let c := Search (SearchRepositories (lit "ubi") []) 20 in
  let request :=
    Sample.get_request "repositories"
      (Some (search_repositories_params (Some (lit "ubi")) None 0 20)) in
  (@sent_by str (@run Sample.platform network c) Sample.fresh = [request]
   /\ dict_get Sample.page_of_text (lit "data")
      = Some (JList ([] ++ JStr (lit "ubi8") :: [])))
  /\ (@run Sample.platform network c Sample.fresh).1 =
     Return (lit "Unexpected error: "
             ++ @describe Sample.platform
                  (NoAttribute (JStr (lit "ubi8")) "get")).
Proof.
  cbv zeta. split; [split; vm_compute; reflexivity|].
  apply (@a_bad_repository_fails_the_search Sample.platform
           (Sample.answering (Sample.ok (JDict Sample.page_of_text)))
           (lit "ubi") [] 20 Sample.fresh
           (Sample.get_request "repositories"
              (Some (search_repositories_params (Some (lit "ubi")) None
                       0 20)))
           (Sample.ok (JDict Sample.page_of_text)) Sample.page_of_text
           [] [] (JStr (lit "ubi8")));
    first [exact I | reflexivity | lia | vm_compute; reflexivity].
Defined.

(** ** Groups and the lines of their entries *)

Lemma str_or_nonempty (o : option str) (fallback : str) :
  fallback <> [] -> str_or o fallback <> [].
Proof.
  intros Hfallback. unfold str_or. destruct o as [[|c s]|]; cbn; auto.
Qed.

(** The grouping of [get_image_vulnerabilities] and the formatter of
    [models.py] agree on the severity of an entry: a group of the dictionary
    is never empty, holds entries of the input only, and the summary line of
    each of its members reads [<cve> - <label>...] with the label of the
    group; a label without a group is the severity of no entry. *)
Theorem listed_entries_name_their_group (vulns : list Vulnerability.t)
    (label : str) :
  match group_by_severity vulns !! label with
  | Some group =>
      group <> []
      /\ Forall (fun vuln =>
                   vuln ∈ vulns
                   /\ exists cve rest,
                        cve <> []
                        /\ format_vulnerability_summary vuln
                           = cve ++ lit " - " ++ label ++ rest)
                group
  | None => Forall (fun vuln => severity_key vuln <> label) vulns
  end.
Proof.
  rewrite group_by_severity_lookup.
  destruct (entries_under label vulns) as [|first group] eqn:Hgroup;
    cbn [group_of].
  - apply entries_under_nil. exact Hgroup.
  - split; [discriminate|]. rewrite <- Hgroup. apply Forall_forall.
    intros vuln [Hkey Hin]%list_elem_of_filter. split; [exact Hin|].
    exists (str_or (Vulnerability.cve vuln) (lit "Unknown CVE")).
    eexists. split; [apply str_or_nonempty; vm_compute; discriminate|].
    unfold format_vulnerability_summary. cbv zeta.
    fold (severity_key vuln). rewrite Hkey. reflexivity.
Qed.

(** ** What a details report always shows *)

Lemma join_app (sep : str) (l1 l2 : list str) :
  l1 <> [] -> l2 <> [] ->
  join sep (l1 ++ l2) = join sep l1 ++ sep ++ join sep l2.
Proof.
  intros Hl1 Hl2. induction l1 as [|a [|b l1] IH]; [contradiction| |].
  - cbn [app]. rewrite join_cons by exact Hl2. reflexivity.
  - change ((a :: b :: l1) ++ l2) with (a :: ((b :: l1) ++ l2)).
    rewrite join_cons by discriminate. rewrite IH by discriminate.
    rewrite (join_cons sep a (b :: l1)) by discriminate.
    rewrite <- !app_assoc. reflexivity.
Qed.

Lemma join_prefix (sep : str) (l1 l2 : list str) :
  exists rest, join sep (l1 ++ l2) = join sep l1 ++ rest.
Proof.
  destruct l1 as [|a l1]; [exists (join sep l2); reflexivity|].
  destruct l2 as [|b l2]; [exists []; rewrite !app_nil_r; reflexivity|].
  exists (sep ++ join sep (b :: l2)). apply join_app; discriminate.
Qed.

Lemma join_segment (sep : str) (pre mid post : list str) :
  occurs_in (join sep mid) (join sep (pre ++ mid ++ post)).
Proof.
  destruct mid as [|m mid]; [exists [], (join sep (pre ++ post)); reflexivity|].
  assert (Hmid : occurs_in (join sep (m :: mid))
                   (join sep ((m :: mid) ++ post))).
  { destruct (join_prefix sep (m :: mid) post) as [rest ->].
    auto with occurs. }
  destruct pre as [|p pre]; [exact Hmid|].
  rewrite join_app by discriminate. auto with occurs.
Qed.

Lemma join_occurs_r (sep x : str) (l1 l2 : list str) :
  occurs_in x (join sep l2) -> occurs_in x (join sep (l1 ++ l2)).
Proof.
  intros Hx. destruct l1 as [|a l1]; [exact Hx|].
  destruct l2 as [|b l2].
  - destruct Hx as (pre & post & Heq). cbn in Heq. symmetry in Heq.
    apply app_eq_nil in Heq as [_ [-> _]%app_eq_nil].
    exists [], (join sep ((a :: l1) ++ [])). reflexivity.
  - rewrite join_app by discriminate. auto with occurs.
Qed.

Lemma Return_inj {A} (a b : A) : Return a = Return b -> a = b.
Proof. intros [= ->]. reflexivity. Qed.

Ltac opening_of_report :=
  rewrite <- !app_assoc;
  match goal with
  | |- context [join NEWLINE (?head ++ ?tail)] =>
      let rest := fresh "rest" in
      let Hrest := fresh "Hrest" in
      destruct (join_prefix NEWLINE head tail) as [rest Hrest];
      exists rest; split; [rewrite Hrest; reflexivity|]; rewrite <- Hrest
  end.

(** What the details tools make of an answer, case by case.  When the
    entity cannot be constructed, the error of the construction is all there
    is.  An image whose layer size is not zero and too large for the
    division to give a float raises [OverflowError]; any other image is
    shown with the title and its id, a rule of 50 and, further down, the
    architecture, [Unknown] when absent, and [Certified: Yes] or [No], [No]
    also when the answer does not say.  A project is always shown, with the
    title and its name, a rule of 60, the id and the four type and status
    lines with [Unknown] for what is absent.  An operator is always shown,
    with the title and the CSV name, else the package name, else [Unknown],
    a rule of 60, the id, and further down the certification line. *)
Theorem details_always_show `{Platform} (response : json) :
  match ContainerImage.new response with
  | Raise e => get_image_details_render response = Raise e
  | Return image =>
      let shown :=
        let opening :=
          join NEWLINE
            [lit "Container Image Details: " ++ ContainerImage.id image;
             times (lit "=") 50] in
        exists rest,
          get_image_details_render response = Return (opening ++ rest)
          /\ occurs_in
               (join NEWLINE
                  [[];
                   lit "Architecture: "
                   ++ str_or (ContainerImage.architecture image)
                             (lit "Unknown");
                   lit "Certified: "
                   ++ (if is_true (ContainerImage.certified image)
                       then lit "Yes" else lit "No")])
               (opening ++ rest) in
      match ContainerImage.sum_layer_size_bytes image with
      | Some n =>
          if n =? 0 then shown
          else
            match fdiv_1f n (1024 * 1024) with
            | Some _ => shown
            | None =>
                get_image_details_render response =
                Raise (OverflowError
                         (describe (TooLargeForFloat n (1024 * 1024))))
            end
      | None => shown
      end
  end
  /\ match CertificationProject.new response with
     | Raise e => get_certification_project_details_render response = Raise e
     | Return project =>
         exists rest,
           get_certification_project_details_render response =
           Return
             (join NEWLINE
                [lit "Certification Project Details: "
                 ++ str_or (CertificationProject.name project)
                           (lit "Unnamed Project");
                 times (lit "=") 60;
                 lit "ID: " ++ CertificationProject.id project;
                 lit "Type: "
                 ++ str_or (CertificationProject.type project)
                           (lit "Unknown");
                 lit "Application Type: "
                 ++ str_or (CertificationProject.application_type project)
                           (lit "Unknown");
                 lit "Project Status: "
                 ++ str_or (CertificationProject.project_status project)
                           (lit "Unknown");
                 lit "Certification Status: "
                 ++ str_or
                      (CertificationProject.certification_status project)
                      (lit "Unknown")] ++ rest)
     end
  /\ match OperatorBundle.new response with
     | Raise e => get_operator_details_render response = Raise e
     | Return operator =>
         let opening :=
           join NEWLINE
             [lit "Operator Bundle Details: "
              ++ str_or (OperatorBundle.csv_name operator)
                        (str_or (OperatorBundle.package_name operator)
                                (lit "Unknown"));
              times (lit "=") 60;
              lit "ID: " ++ OperatorBundle.id operator] in
         exists rest,
           get_operator_details_render response = Return (opening ++ rest)
           /\ occurs_in
                (lit "Certified: "
                 ++ (if is_true (OperatorBundle.certified operator)
                     then lit "Yes" else lit "No"))
                (opening ++ rest)
     end.
Proof.
  split; [|split].
  - unfold get_image_details_render, and_then.
    destruct (ContainerImage.new response) as [image|]; [|reflexivity].
    cbv zeta. unfold size_lines, nonzero.
    destruct (ContainerImage.sum_layer_size_bytes image) as [n|];
      [destruct (n =? 0); cbn [negb];
       [|destruct (fdiv_1f n (1024 * 1024)); [|reflexivity]]|];
      opening_of_report; rewrite app_assoc; apply join_segment.
  - unfold get_certification_project_details_render, and_then.
    destruct (CertificationProject.new response) as [project|];
      [|reflexivity].
    cbv zeta. rewrite <- !app_assoc.
    match goal with
    | |- context [join NEWLINE (?head ++ ?tail)] =>
        destruct (join_prefix NEWLINE head tail) as [rest Hrest]
    end.
    exists rest. rewrite Hrest. reflexivity.
  - unfold get_operator_details_render, and_then.
    destruct (OperatorBundle.new response) as [operator|]; [|reflexivity].
    cbv zeta. opening_of_report.
    do 7 apply join_occurs_r. apply (join_segment NEWLINE [] [_]).
Qed.

(** An image of three mebibytes is shown; one whose size no float holds is
    not: its tool returns an unexpected error. *)
Lemma details_always_show_witness :
  let small :=
    JDict [(lit "_id", JStr (lit "img"));
           (lit "sum_layer_size_bytes", JInt 3145728)] in
  let huge :=
    JDict [(lit "_id", JStr (lit "img"));
           (lit "sum_layer_size_bytes", JInt (2 ^ 1100))] in
  (exists rest,
     @get_image_details_render Sample.platform small =
     Return (join NEWLINE [lit "Container Image Details: " ++ lit "img";
                           times (lit "=") 50] ++ rest))
  /\ @get_image_details_render Sample.platform huge =
     Raise (OverflowError
              (@describe Sample.platform
                 (TooLargeForFloat (2 ^ 1100) (1024 * 1024))))
  /\ (@run Sample.platform (Sample.answering (Sample.ok huge))
        (GetImageDetails (lit "img")) Sample.fresh).1
     = Return (lit "Unexpected error: "
               ++ @describe Sample.platform
                    (TooLargeForFloat (2 ^ 1100) (1024 * 1024))).
Proof.
  cbv zeta. split; [|split].
  - destruct (@details_always_show Sample.platform
                (JDict [(lit "_id", JStr (lit "img"));
                        (lit "sum_layer_size_bytes", JInt 3145728)]))
      as [(rest & Hshown & _) _].
    exists rest. exact Hshown.
  - exact (proj1 (@details_always_show Sample.platform
                    (JDict [(lit "_id", JStr (lit "img"));
                            (lit "sum_layer_size_bytes",
                             JInt (2 ^ 1100))]))).
  - vm_compute. reflexivity.
Defined.

(** ** What a listing opens and closes with *)

Lemma join_snoc (sep last : str) (lines : list str) :
  lines <> [] -> join sep (lines ++ [last]) = join sep lines ++ sep ++ last.
Proof. intros Hlines. apply join_app; [exact Hlines | discriminate]. Qed.

(** A typed search that has something to list opens with
    [Found <total> <kind> (showing <n>):], where [n] counts the entries of
    the answer, and, when the envelope says there is more, closes with
    [... and <total - n> more results available]; otherwise it returns the
    nothing-found sentence. *)
Theorem listings_open_with_the_count `{Platform} (s : search)
    (max_results : Z) (response : json) (text : str) :
  is_Some (envelope_of (Search s max_results)) ->
  render_of (Search s max_results) response = Return text ->
  Some text = nothing_found (Search s max_results)
  \/ exists (total shown : Z) (more : bool),
       (exists rest,
          text = lit "Found " ++ str_of_Z total ++ lit " " ++ lit (kind s)
                 ++ lit " (showing " ++ str_of_Z shown ++ lit "):"
                 ++ NEWLINE ++ rest)
       /\ (more = true ->
           exists body,
             text = body ++ NEWLINE ++ lit "... and "
                    ++ str_of_Z (total - shown)
                    ++ lit " more results available")
       /\ match s with
          | SearchImages _ _ _ _ =>
              exists results,
                ImageSearchResults.new response = Return results
                /\ total = Envelope.total results
                /\ shown = len (Envelope.data results)
                /\ more = Envelope.has_more results
          | SearchCertificationProjects _ _ =>
              exists results,
                ProjectSearchResults.new response = Return results
                /\ total = Envelope.total results
                /\ shown = len (Envelope.data results)
                /\ more = Envelope.has_more results
          | SearchOperators _ _ =>
              exists results,
                OperatorSearchResults.new response = Return results
                /\ total = Envelope.total results
                /\ shown = len (Envelope.data results)
                /\ more = Envelope.has_more results
          | SearchRepositories _ _ => False
          end.
Proof.
  intros Henvelope.
  destruct s as [query architecture registry certified | query status
                | query package | query registry];
    cbn [render_of nothing_found kind];
    [| | |destruct Henvelope as [model Hmodel]; discriminate Hmodel].
  - unfold search_images_render, and_then.
    destruct (dot_get response "data") as [data|]; [|discriminate].
    destruct (present data); cbn [negb];
      [|intros <-%Return_inj; left; vm_compute; reflexivity].
    destruct (ImageSearchResults.new response) as [results|];
      [|discriminate].
    destruct (Envelope.data results) as [|first others] eqn:Hdata;
      cbn [nonempty negb];
      [intros <-%Return_inj; left; vm_compute; reflexivity|].
    cbv zeta. intros Htext. right.
    exists (Envelope.total results), (len (first :: others)),
      (Envelope.has_more results).
    split; [|split; [|exists results; rewrite Hdata; auto]].
    + revert Htext. unfold ImageSearchResults.has_more.
      destruct (Envelope.has_more results); intros <-%Return_inj;
        eexists; rewrite <- ?app_assoc;
        change ([?header; []] ++ ?tail) with (header :: ([] :: tail));
        rewrite join_cons by discriminate; rewrite <- ?app_assoc;
        reflexivity.
    + revert Htext. unfold ImageSearchResults.has_more.
      destruct (Envelope.has_more results); [|discriminate].
      intros <-%Return_inj _.
      change [[]; ?footer] with ([[]] ++ [footer]).
      rewrite (app_assoc _ [[]]), join_snoc
        by (intros [_ Hnil]%app_eq_nil; discriminate Hnil).
      eexists. reflexivity.
  - unfold search_certification_projects_render, and_then.
    destruct (dot_get response "data") as [data|]; [|discriminate].
    destruct (present data); cbn [negb];
      [|intros <-%Return_inj; left; vm_compute; reflexivity].
    destruct (ProjectSearchResults.new response) as [results|];
      [|discriminate].
    destruct (Envelope.data results) as [|first others] eqn:Hdata;
      cbn [nonempty negb];
      [intros <-%Return_inj; left; vm_compute; reflexivity|].
    cbv zeta. intros Htext. right.
    exists (Envelope.total results), (len (first :: others)),
      (Envelope.has_more results).
    split; [|split; [|exists results; rewrite Hdata; auto]].
    + revert Htext. unfold ProjectSearchResults.has_more.
      destruct (Envelope.has_more results); intros <-%Return_inj;
        eexists; rewrite <- ?app_assoc;
        change ([?header; []] ++ ?tail) with (header :: ([] :: tail));
        rewrite join_cons by discriminate; rewrite <- ?app_assoc;
        reflexivity.
    + revert Htext. unfold ProjectSearchResults.has_more.
      destruct (Envelope.has_more results); [|discriminate].
      intros <-%Return_inj _.
      rewrite join_snoc by (intros [Hnil _]%app_eq_nil; discriminate Hnil).
      eexists. reflexivity.
  - unfold search_operators_render, and_then.
    destruct (dot_get response "data") as [data|]; [|discriminate].
    destruct (present data); cbn [negb];
      [|intros <-%Return_inj; left; vm_compute; reflexivity].
    destruct (OperatorSearchResults.new response) as [results|];
      [|discriminate].
    destruct (Envelope.data results) as [|first others] eqn:Hdata;
      cbn [nonempty negb];
      [intros <-%Return_inj; left; vm_compute; reflexivity|].
    cbv zeta. intros Htext. right.
    exists (Envelope.total results), (len (first :: others)),
      (Envelope.has_more results).
    split; [|split; [|exists results; rewrite Hdata; auto]].
    + revert Htext. unfold OperatorSearchResults.has_more.
      destruct (Envelope.has_more results); intros <-%Return_inj;
        eexists; rewrite <- ?app_assoc;
        change ([?header; []] ++ ?tail) with (header :: ([] :: tail));
        rewrite join_cons by discriminate; rewrite <- ?app_assoc;
        reflexivity.
    + revert Htext. unfold OperatorSearchResults.has_more.
      destruct (Envelope.has_more results); [|discriminate].
      intros <-%Return_inj _.
      rewrite join_snoc by (intros [Hnil _]%app_eq_nil; discriminate Hnil).
      eexists. reflexivity.
Qed.

Lemma listings_open_with_the_count_witness :
  exists text,
    (is_Some (envelope_of (Search Sample.ubi 20))
     /\ @render_of Sample.platform (Search Sample.ubi 20)
          Sample.first_of_five = Return text)
    /\ (Some text = nothing_found (Search Sample.ubi 20)
        \/ exists (total shown : Z) (more : bool),
             (exists rest,
                text = lit "Found " ++ str_of_Z total ++ lit " "
                       ++ lit (kind Sample.ubi) ++ lit " (showing "
                       ++ str_of_Z shown ++ lit "):" ++ NEWLINE ++ rest)
             /\ (more = true ->
                 exists body,
                   text = body ++ NEWLINE ++ lit "... and "
                          ++ str_of_Z (total - shown)
                          ++ lit " more results available")
             /\ exists results,
                  @ImageSearchResults.new Sample.platform
                    Sample.first_of_five = Return results
                  /\ total = Envelope.total results
                  /\ shown = len (Envelope.data results)
                  /\ more = Envelope.has_more results).
Proof.
  eexists. split.
  - split; [eexists; reflexivity | vm_compute; reflexivity].
  - apply (@listings_open_with_the_count Sample.platform Sample.ubi 20
             Sample.first_of_five);
      [eexists; reflexivity | vm_compute; reflexivity].
Defined.
